(** * FoldDisco pipeline: manifest generator and output combiner

    A shallow embedding of the decision logic of
    [scripts/folddisco_pipeline/generate_folddisco_input.py] and
    [scripts/folddisco_pipeline/combine_motif_outputs.py], followed by the
    properties of residue selection, range collapsing, ID clean-up and
    record filtering that the design document states about them.

    Python values are modelled as follows.
    - [str]: [string]; a character is a code point below 256, and the
      built-in predicates ([isspace], [isalpha], [isdigit], [lower]) follow
      Unicode on that range.
    - [int]: [Z].
    - [float]: IEEE 754 binary64, as [spec_float] with the operations of
      [SpecFloat] at precision 53 and maximal exponent 1024.
    - [set] of [str]: [gset string]; a [dict] whose iteration order matters:
      an association list in insertion order.
    - an uncaught exception or [sys.exit]: the [outcome] type. *)

From Stdlib Require Import ZArith Ascii String List Bool Lia.
From Stdlib Require Import Permutation Sorted.
From Stdlib Require Import DecimalString DecimalZ DecimalPos.
From Stdlib Require Import Floats.SpecFloat.
From Equations Require Import Equations.
From stdpp Require Import base decidable gmap strings.

Import ListNotations.
Local Open Scope Z_scope.

(** ** Outcomes of a computation that may stop early *)

Inductive exn : Type :=
| ValueError
| OverflowError
| IndexError.

Inductive outcome (A : Type) : Type :=
| Ok (a : A)
| Raise (e : exn)
| SysExit (msg : string).

Arguments Ok {A} a.
Arguments Raise {A} e.
Arguments SysExit {A} msg.

#[export] Instance outcome_ret : MRet outcome := fun A a => Ok a.

#[export] Instance outcome_bind : MBind outcome := fun A B k m =>
  match m with
  | Ok a => k a
  | Raise e => Raise e
  | SysExit msg => SysExit msg
  end.

(** ** Python string built-ins *)

Module PyStr.

Definition ord (c : ascii) : N := N_of_ascii c.

Definition between (lo hi : N) (c : ascii) : bool :=
  ((lo <=? ord c) && (ord c <=? hi))%N.

(** [str.isspace] on one character. *)
Definition isspace (c : ascii) : bool :=
  between 9 13 c || between 28 32 c || (ord c =? 133)%N || (ord c =? 160)%N.

(** [str.isalpha] on one character. *)
Definition isalpha (c : ascii) : bool :=
  between 65 90 c || between 97 122 c
  || (ord c =? 170)%N || (ord c =? 181)%N || (ord c =? 186)%N
  || between 192 214 c || between 216 246 c || between 248 255 c.

(** [str.isdigit] on one character. *)
Definition isdigit (c : ascii) : bool :=
  between 48 57 c || (ord c =? 178)%N || (ord c =? 179)%N || (ord c =? 185)%N.

(** The character class [[A-Za-z0-9]] of [re]. *)
Definition is_ascii_alnum (c : ascii) : bool :=
  between 65 90 c || between 97 122 c || between 48 57 c.

Definition lower_char (c : ascii) : ascii :=
  if between 65 90 c || (between 192 222 c && negb (ord c =? 215)%N)
  then ascii_of_N (ord c + 32)
  else c.

(** [s.lower()] *)
Fixpoint lower (s : string) : string :=
  match s with
  | EmptyString => EmptyString
  | String c s' => String (lower_char c) (lower s')
  end.

Fixpoint lstrip (s : string) : string :=
  match s with
  | EmptyString => EmptyString
  | String c s' => if isspace c then lstrip s' else s
  end.

Fixpoint rstrip (s : string) : string :=
  match s with
  | EmptyString => EmptyString
  | String c s' =>
      match rstrip s' with
      | EmptyString => if isspace c then EmptyString else String c EmptyString
      | r => String c r
      end
  end.

(** [s.strip()] *)
Definition strip (s : string) : string := rstrip (lstrip s).

(** [c in s] for a one-character [c]. *)
Fixpoint contains (c : ascii) (s : string) : bool :=
  match s with
  | EmptyString => false
  | String d s' => Ascii.eqb c d || contains c s'
  end.

(** [s.startswith(p)] *)
Definition startswith (s p : string) : bool := String.prefix p s.

(** [s.endswith(p)] *)
Definition endswith (s p : string) : bool :=
  let n := String.length s in
  let m := String.length p in
  (m <=? n)%nat && String.eqb (String.substring (n - m) m s) p.

(** [s[:-k]] for a positive [k]. *)
Definition drop_last (k : nat) (s : string) : string :=
  String.substring 0 (String.length s - k) s.

(** [s.split(c)] for a one-character separator: never empty. *)
Fixpoint split (c : ascii) (s : string) : list string :=
  match s with
  | EmptyString => [EmptyString]
  | String d s' =>
      if Ascii.eqb d c then EmptyString :: split c s'
      else match split c s' with
           | [] => [String d EmptyString]
           | w :: ws => String d w :: ws
           end
  end.

(** [s.split()]: the maximal runs of non-space characters. *)
Fixpoint split_ws_go (cur : option string) (s : string) : list string :=
  match s with
  | EmptyString => match cur with Some w => [String.rev w] | None => [] end
  | String c s' =>
      if isspace c
      then match cur with
           | Some w => String.rev w :: split_ws_go None s'
           | None => split_ws_go None s'
           end
      else split_ws_go
             (Some (String c (match cur with Some w => w | None => EmptyString end))) s'
  end.

Definition split_ws (s : string) : list string := split_ws_go None s.

(** [sep.join(parts)] *)
Definition join (sep : string) (parts : list string) : string :=
  String.concat sep parts.

(** [s.rsplit(c, 1)]: split once at the last occurrence of [c]. *)
Fixpoint rsplit1 (c : ascii) (s : string) : option (string * string) :=
  match s with
  | EmptyString => None
  | String d s' =>
      match rsplit1 c s' with
      | Some (h, t) => Some (String d h, t)
      | None => if Ascii.eqb d c then Some (EmptyString, s') else None
      end
  end.

(** [s.rsplit(c, 1)[0]] *)
Definition rsplit1_head (c : ascii) (s : string) : string :=
  match rsplit1 c s with Some (h, _) => h | None => s end.

(** [s.rsplit(c, 1)[-1]] *)
Definition rsplit1_last (c : ascii) (s : string) : string :=
  match rsplit1 c s with Some (_, t) => t | None => s end.

(** The last character of a string, if any. *)
Fixpoint last_char (s : string) : option ascii :=
  match s with
  | EmptyString => None
  | String c EmptyString => Some c
  | String _ s' => last_char s'
  end.

(** [str(n)] for an [int]. *)
Definition of_int (n : Z) : string := NilZero.string_of_int (Z.to_int n).

(** [os.path.basename] on a POSIX path. *)
Definition basename (p : string) : string := rsplit1_last "/" p.

(** [l[i]] on a list, with Python's negative indices. *)
Definition index {A} (l : list A) (i : Z) : outcome A :=
  let n := Z.of_nat (List.length l) in
  let j := if i <? 0 then i + n else i in
  if (0 <=? j) && (j <? n)
  then match nth_error l (Z.to_nat j) with Some x => Ok x | None => Raise IndexError end
  else Raise IndexError.

(** [l[:k]] on a list, with Python's negative bounds. *)
Definition slice_to {A} (k : Z) (l : list A) : list A :=
  if k <? 0 then firstn (Z.to_nat (Z.of_nat (List.length l) + k)) l
  else firstn (Z.to_nat k) l.

End PyStr.

(** ** Python floats: IEEE 754 binary64 *)

Module PyFloat.

Definition prec : Z := 53.
Definition emax : Z := 1024.

Abbreviation float := spec_float.

Definition mul : float -> float -> float := SFmul prec emax.
Definition div : float -> float -> float := SFdiv prec emax.
Definition ltb : float -> float -> bool := SFltb.
Definition eqb : float -> float -> bool := SFeqb.

(** A double of moderate size: zero, or normal with
    [2^-963 <= |f| < 2^964]. *)
Definition moderate (f : float) : bool :=
  match f with
  | S754_zero _ => true
  | S754_finite _ m e => (Z.log2 (Zpos m) =? 52) && (-1015 <=? e) && (e <=? 911)
  | _ => false
  end.

(** [math.isnan] *)
Definition isnan (f : float) : bool :=
  match f with S754_nan => true | _ => false end.

(** The float nearest to an integer (ties to even). *)
Definition of_Z (n : Z) : float := binary_normalize prec emax n 0 false.

(** [float(n)] for an [int], as in the mixed product [n * x]. *)
Definition of_int (n : Z) : outcome float :=
  match of_Z n with
  | S754_infinity _ => Raise OverflowError
  | f => Ok f
  end.

(** [math.ceil] *)
Definition ceil (f : float) : outcome Z :=
  match f with
  | S754_zero _ => Ok 0
  | S754_nan => Raise ValueError
  | S754_infinity _ => Raise OverflowError
  | S754_finite s m e => Ok (- Z.shiftl (- cond_Zopp s (Zpos m)) e)
  end.

(** [int(f)]: truncation towards zero. *)
Definition trunc (f : float) : outcome Z :=
  match f with
  | S754_zero _ => Ok 0
  | S754_nan => Raise ValueError
  | S754_infinity _ => Raise OverflowError
  | S754_finite s m e => Ok (cond_Zopp s (Z.shiftl (Zpos m) e))
  end.

(** The float nearest to [(-1)^s * d * 10^e], for a natural number [d]. *)
Definition of_decimal (s : bool) (d e : Z) : float :=
  match d with
  | Z0 => S754_zero s
  | Zneg _ => S754_nan
  | Zpos _ =>
      if 0 <=? e then binary_normalize prec emax (cond_Zopp s (d * 10 ^ e)) 0 s
      else let '(q, e', l) := SFdiv_core_binary prec emax d 0 (10 ^ (- e)) 0 in
           binary_round_aux prec emax s q e' l
  end.

(** *** [float(s)] for a string *)

Definition digit_val (c : ascii) : option Z :=
  if PyStr.between 48 57 c then Some (Z.of_N (PyStr.ord c) - 48) else None.

(** A digit part [digit (["_"] digit)*]: its value, the number of digits
    read, and the rest of the input. *)
Fixpoint digitpart_go (acc : Z) (n : Z) (s : string) : Z * Z * string :=
  match s with
  | String c s' =>
      match digit_val c with
      | Some v => digitpart_go (10 * acc + v) (n + 1) s'
      | None =>
          match s' with
          | String c' s'' =>
              match Ascii.eqb c "_", digit_val c' with
              | true, Some v => digitpart_go (10 * acc + v) (n + 1) s''
              | _, _ => (acc, n, s)
              end
          | EmptyString => (acc, n, s)
          end
      end
  | EmptyString => (acc, n, s)
  end.

Definition digitpart (acc : Z) (s : string) : option (Z * Z * string) :=
  match s with
  | String c s' =>
      match digit_val c with
      | Some v => Some (digitpart_go (10 * acc + v) 1 s')
      | None => None
      end
  | EmptyString => None
  end.

Definition read_sign (s : string) : bool * string :=
  match s with
  | String "-" s' => (true, s')
  | String "+" s' => (false, s')
  | _ => (false, s)
  end.

Definition read_exponent (s : string) : option Z :=
  match s with
  | EmptyString => Some 0
  | String c s' =>
      if Ascii.eqb c "e" || Ascii.eqb c "E"
      then let '(neg, s'') := read_sign s' in
           match digitpart 0 s'' with
           | Some (v, _, EmptyString) => Some (cond_Zopp neg v)
           | _ => None
           end
      else None
  end.

Definition read_number (neg : bool) (s : string) : option float :=
  match digitpart 0 s with
  | Some (ip, _, String "." s1) =>
      match digitpart ip s1 with
      | Some (d, nf, s2) => e ← read_exponent s2; Some (of_decimal neg d (e - nf))
      | None => e ← read_exponent s1; Some (of_decimal neg ip e)
      end
  | Some (ip, _, s1) => e ← read_exponent s1; Some (of_decimal neg ip e)
  | None =>
      match s with
      | String "." s1 =>
          match digitpart 0 s1 with
          | Some (d, nf, s2) => e ← read_exponent s2; Some (of_decimal neg d (e - nf))
          | None => None
          end
      | _ => None
      end
  end.

(** The white space that [float] removes around a number: the white
    space of C and the two Latin-1 space characters U+0085 and U+00A0.
    The separators U+001C to U+001F, which [str.strip] removes, stay and
    make [float] raise. *)
Definition is_float_space (c : ascii) : bool :=
  PyStr.between 9 13 c || (PyStr.ord c =? 32)%N || (PyStr.ord c =? 133)%N
  || (PyStr.ord c =? 160)%N.

Fixpoint lstrip_space (s : string) : string :=
  match s with
  | EmptyString => EmptyString
  | String c s' => if is_float_space c then lstrip_space s' else s
  end.

Fixpoint rstrip_space (s : string) : string :=
  match s with
  | EmptyString => EmptyString
  | String c s' =>
      match rstrip_space s' with
      | EmptyString => if is_float_space c then EmptyString else String c EmptyString
      | r => String c r
      end
  end.

(** [float(s)]: [None] stands for [ValueError]. *)
Definition of_string (s : string) : option float :=
  let '(neg, body) := read_sign (rstrip_space (lstrip_space s)) in
  let word := PyStr.lower body in
  if String.eqb word "inf" || String.eqb word "infinity" then Some (S754_infinity neg)
  else if String.eqb word "nan" then Some S754_nan
  else read_number neg body.

(** *** [repr(f)]: the shortest decimal string that reads back as [f] *)

(** Is [10^k <= num / den]? *)
Definition pow10_le (k num den : Z) : bool :=
  if 0 <=? k then 10 ^ k * den <=? num else den <=? num * 10 ^ (- k).

Fixpoint floor_log10_go (fuel : nat) (k num den : Z) : Z :=
  match fuel with
  | O => k
  | S fuel' => if pow10_le (k + 1) num den then floor_log10_go fuel' (k + 1) num den else k
  end.

(** The [k] with [10^k <= num / den < 10^(k+1)]. *)
Definition floor_log10 (num den : Z) : Z :=
  floor_log10_go 6 ((Z.log2 num - Z.log2 den) * 30103 / 100000 - 2) num den.

(** The [n]-digit decimal [d * 10^(k-n+1)] nearest to [num / den] among
    those that read back as [f], if there is one. *)
Definition shortest_at (f : float) (s : bool) (num den k n : Z) : option (Z * Z) :=
  let sh := n - 1 - k in
  let '(a, b) := if 0 <=? sh then (num * 10 ^ sh, den) else (num, den * 10 ^ (- sh)) in
  let lo := a / b in
  let hi := lo + 1 in
  let back d := match of_decimal s d (k - n + 1), f with
                | S754_finite s1 m1 e1, S754_finite s2 m2 e2 =>
                    Bool.eqb s1 s2 && (m1 =? m2)%positive && (e1 =? e2)
                | _, _ => false
                end in
  let lo_closer := match 2 * a ?= (2 * lo + 1) * b with
                   | Lt => true
                   | Eq => Z.even lo
                   | Gt => false
                   end in
  match back lo, back hi with
  | true, true => Some (if lo_closer then lo else hi, k - n + 1)
  | true, false => Some (lo, k - n + 1)
  | false, true => Some (hi, k - n + 1)
  | false, false => None
  end.

Fixpoint shortest_go (fuel : nat) (f : float) (s : bool) (num den k n : Z)
  : Z * Z :=
  match fuel with
  | O => (0, 0)
  | S fuel' =>
      match shortest_at f s num den k n with
      | Some r => r
      | None => shortest_go fuel' f s num den k (n + 1)
      end
  end.

Fixpoint strip_zeros (fuel : nat) (d e : Z) : Z * Z :=
  match fuel with
  | O => (d, e)
  | S fuel' => if (d mod 10 =? 0) && negb (d =? 0) then strip_zeros fuel' (d / 10) (e + 1)
               else (d, e)
  end.

Fixpoint zeros (n : nat) : string :=
  match n with O => "" | S n' => String "0" (zeros n') end.

(** The digits [ds] of a positive float and the position [decpt] of the
    decimal point: the value is [0.ds * 10^decpt]. *)
Definition shortest_digits (m : positive) (e : Z) : string * Z :=
  let '(num, den) := if 0 <=? e then (Zpos m * 2 ^ e, 1) else (Zpos m, 2 ^ (- e)) in
  let k := floor_log10 num den in
  let '(d0, e0) := shortest_go 17 (S754_finite false m e) false num den k 1 in
  let '(d, e10) := strip_zeros 20 d0 e0 in
  let ds := PyStr.of_int d in
  (ds, Z.of_nat (String.length ds) + e10).

Definition format_short (ds : string) (decpt : Z) : string :=
  let n := Z.of_nat (String.length ds) in
  if (decpt <=? -4) || (16 <? decpt) then
    let x := decpt - 1 in
    let xs := PyStr.of_int (Z.abs x) in
    let mant := match ds with
                | String c EmptyString => ds
                | String c rest => String c (String "." rest)
                | EmptyString => ds
                end in
    mant +:+ "e" +:+ (if x <? 0 then "-" else "+")
         +:+ (if Z.abs x <? 10 then "0" else "") +:+ xs
  else if decpt <=? 0 then "0." +:+ zeros (Z.to_nat (- decpt)) +:+ ds
  else if decpt <? n then
    String.substring 0 (Z.to_nat decpt) ds +:+ "."
      +:+ String.substring (Z.to_nat decpt) (Z.to_nat (n - decpt)) ds
  else ds +:+ zeros (Z.to_nat (decpt - n)) +:+ ".0".

(** [repr(f)], which is also [str(f)] and [f"{f}"]. *)
Definition repr (f : float) : string :=
  match f with
  | S754_nan => "nan"
  | S754_infinity s => if s then "-inf" else "inf"
  | S754_zero s => if s then "-0.0" else "0.0"
  | S754_finite s m e =>
      let '(ds, decpt) := shortest_digits m e in
      (if s then "-" else "") +:+ format_short ds decpt
  end.

End PyFloat.

(** ** Python list built-ins *)

Module PyList.

(** [enumerate(l, start)] *)
Fixpoint enumerate {A} (start : Z) (l : list A) : list (Z * A) :=
  match l with
  | [] => []
  | x :: l' => (start, x) :: enumerate (start + 1) l'
  end.

Fixpoint insert_uniq (x : Z) (l : list Z) : list Z :=
  match l with
  | [] => [x]
  | y :: l' =>
      if x <? y then x :: l
      else if x =? y then l
      else y :: insert_uniq x l'
  end.

(** [sorted(set(l))] on integers. *)
Definition sorted_set (l : list Z) : list Z := fold_right insert_uniq [] l.

Fixpoint insert_desc {A} (x : A * PyFloat.float) (l : list (A * PyFloat.float))
  : list (A * PyFloat.float) :=
  match l with
  | [] => [x]
  | y :: l' => if PyFloat.ltb (snd x) (snd y) then y :: insert_desc x l' else x :: l
  end.

(** [l.sort(key=lambda t: t[1], reverse=True)]: the stable sort by
    decreasing key; entries with equal keys keep their order. *)
Definition sort_desc {A} (l : list (A * PyFloat.float)) : list (A * PyFloat.float) :=
  fold_right insert_desc [] l.

End PyList.

(** ** The manifest generator, [generate_folddisco_input.py] *)

Module generate_folddisco_input.

Import PyStr.

(** *** Reading the two input files *)

(** The longest prefix without white space: what [[^\s]+] takes. *)
Fixpoint take_nonspace (s : string) : string :=
  match s with
  | EmptyString => EmptyString
  | String c s' => if isspace c then EmptyString else String c (take_nonspace s')
  end.

(** [ID_RE.match(line)] for [ID_RE = re.compile(r'^>([^\s]+)')]: group 1
    of the match, if there is one. *)
Definition match_id (line : string) : option string :=
  match line with
  | String ">" rest =>
      match take_nonspace rest with
      | EmptyString => None
      | raw => Some raw
      end
  | _ => None
  end.

(** [read_ids], on the lines of the identifier file. *)
Fixpoint read_ids (lines : list string) : list string :=
  match lines with
  | [] => []
  | line :: rest =>
      match match_id line with
      | Some raw => raw :: read_ids rest
      | None => read_ids rest
      end
  end.

(** A character of the class [[\s,;]]. *)
Definition is_separator (c : ascii) : bool :=
  isspace c || Ascii.eqb c "," || Ascii.eqb c ";".

(** [[p for p in re.split(r'[\s,;]+', line) if p]]: the maximal runs of
    characters that are not separators. *)
Fixpoint score_fields_go (cur : option string) (s : string) : list string :=
  match s with
  | EmptyString => match cur with Some w => [String.rev w] | None => [] end
  | String c s' =>
      if is_separator c
      then match cur with
           | Some w => String.rev w :: score_fields_go None s'
           | None => score_fields_go None s'
           end
      else score_fields_go
             (Some (String c (match cur with Some w => w | None => EmptyString end))) s'
  end.

Definition score_fields (s : string) : list string := score_fields_go None s.

Fixpoint all_digits (s : string) : bool :=
  match s with
  | EmptyString => true
  | String c s' => between 48 57 c && all_digits s'
  end.

(** [re.fullmatch(r'[0-9]+', line)] *)
Definition is_digit_string (s : string) : bool :=
  negb (String.eqb s "") && all_digits s.

(** [float(int(ch))] for a digit [ch]. *)
Definition digit_score (ch : ascii) : PyFloat.float :=
  PyFloat.of_Z (Z.of_N (ord ch) - 48).

(** [float(p)], with NaN when [float] raises [ValueError]. *)
Definition float_or_nan (p : string) : PyFloat.float :=
  match PyFloat.of_string p with
  | Some f => f
  | None => S754_nan
  end.

(** The body of the loop of [read_scores]: the row of one line. *)
Definition score_row (line : string) : list PyFloat.float :=
  let line := strip line in
  if String.eqb line "" then []
  else if is_digit_string line then map digit_score (list_ascii_of_string line)
  else map float_or_nan (score_fields line).

(** [read_scores], on the lines of the score file. *)
Definition read_scores (lines : list string) : list (list PyFloat.float) :=
  map score_row lines.

(** *** Motifs and selections *)

(** The token [f"{chain}{start}"] or [f"{chain}{start}-{prev}"] that
    closes a run. *)
Definition run_token (chain : string) (start prev : Z) : string :=
  if start =? prev then chain +:+ of_int start
  else chain +:+ of_int start +:+ "-" +:+ of_int prev.

(** The loop of [collapse_ranges] over [indices[1:]], with the run
    [start..prev] open and [tokens] already emitted. *)
Fixpoint collapse_loop (chain : string) (tokens : list string) (start prev : Z)
         (rest : list Z) : list string :=
  match rest with
  | [] => tokens ++ [run_token chain start prev]
  | x :: rest' =>
      if x =? prev + 1 then collapse_loop chain tokens start x rest'
      else collapse_loop chain (tokens ++ [run_token chain start prev]) x x rest'
  end.

Definition collapse_ranges (chain : string) (indices : list Z) : list string :=
  match indices with
  | [] => []
  | _ =>
      match PyList.sorted_set indices with
      | [] => []
      | i0 :: rest => collapse_loop chain [] i0 i0 rest
      end
  end.

(** [c and len(c) == 1 and (c.isalpha() or c.isdigit())] *)
Definition is_chain (c : string) : bool :=
  match c with
  | String a EmptyString => isalpha a || isdigit a
  | _ => false
  end.

(** [re.search(r'([A-Za-z0-9])$', s)]: [$] also matches just before a
    final newline. *)
Definition search_trailing_alnum (s : string) : option ascii :=
  let t := if endswith s (String "010" EmptyString) then drop_last 1 s else s in
  match last_char t with
  | Some c => if is_ascii_alnum c then Some c else None
  | None => None
  end.

Definition extract_chain (id_str : string) : string :=
  let c := List.last (split "_" id_str) "" in
  if contains "_" id_str && is_chain c then c
  else match search_trailing_alnum id_str with
       | Some a => String a EmptyString
       | None => "A"
       end.

Definition base_id (id_str : string) : string :=
  let parts := split "_" id_str in
  if contains "_" id_str && is_chain (List.last parts "")
  then join "_" (removelast parts)
  else id_str.

(** [-1e9] *)
Definition very_low : PyFloat.float := PyFloat.of_Z (-1000000000).

(** [len(indexed) * (percent / 100.0)], then [math.ceil]. *)
Definition ceil_share (n : nat) (percent : PyFloat.float) : outcome Z :=
  len ← PyFloat.of_int (Z.of_nat n);
  PyFloat.ceil (PyFloat.mul len (PyFloat.div percent (PyFloat.of_Z 100))).

(** The list [indexed] of [select_indices]: the scores numbered from 1,
    with every NaN replaced by [-1e9]. *)
Definition indexed_scores (scores : list PyFloat.float) : list (Z * PyFloat.float) :=
  PyList.enumerate 1
    (map (fun s => if PyFloat.isnan s then very_low else s) scores).

Definition select_indices (scores : list PyFloat.float) (percent : PyFloat.float)
           (min_res : Z) : outcome (list Z) :=
  match indexed_scores scores with
  | [] => Ok []
  | indexed =>
      let sorted := PyList.sort_desc indexed in
      c ← ceil_share (List.length sorted) percent;
      let k := Z.max min_res c in
      Ok (map fst (slice_to k sorted))
  end.

(** A manifest row: the structure path, the motif and, with
    [--with-output-path], the result path. *)
Record manifest_row : Type := {
  row_pdb : string;
  row_motif : string;
  row_out : option string
}.

(** [f"{pdb_path}\t{motif}"] or [f"{pdb_path}\t{motif}\t{out_file}"] *)
Definition format_row (r : manifest_row) : string :=
  let tab := String "009" EmptyString in
  match row_out r with
  | Some o => row_pdb r +:+ tab +:+ row_motif r +:+ tab +:+ o
  | None => row_pdb r +:+ tab +:+ row_motif r
  end.

(** The parsed command line, with the identifiers and score rows that
    [read_ids] and [read_scores] return. *)
Record arguments : Type := {
  percent : PyFloat.float;
  min_residues : Z;
  pdb_dir : string;
  with_output_path : bool;
  output_dir : option string;
  per_chain : bool
}.

(** [str(int(p))] when [p] is integral, else [str(p)] with [p] for the
    point. *)
Definition percent_str (p : PyFloat.float) : outcome string :=
  n ← PyFloat.trunc p;
  if PyFloat.eqb p (PyFloat.of_Z n) then Ok (of_int n)
  else Ok (PyStr.join "p" (split "." (PyFloat.repr p))).

(** [chain_sel_map[b].append(v)] on a [defaultdict(list)], which keeps
    its keys in insertion order. *)
Fixpoint dict_append {V} (b : string) (v : V) (d : list (string * list V))
  : list (string * list V) :=
  match d with
  | [] => [(b, [v])]
  | (k, vs) :: d' =>
      if String.eqb k b then (k, vs ++ [v]) :: d'
      else (k, vs) :: dict_append b v d'
  end.

Section FileSystem.

(** The file system enters through three functions. They stand for
    calls that return: [Path.exists] raises [OSError] for a name that the
    system refuses (one that is too long, say), and [Path.glob] raises
    [NotImplementedError] for a pattern that starts with [/] and
    [ValueError] for one in which [**] is part of a component, which
    happens for a base ID of that shape. A statement about
    [resolve_pdb_path] or about the rows of the merged branch therefore
    describes the runs in which these calls return. *)

(** [str(d / name)] for a [Path] [d]. *)
Variable path_join : string -> string -> string.
(** [p.exists()], when the call returns. *)
Variable path_exists : string -> bool.
(** [sorted(d.glob(pattern))], when the call returns. *)
Variable path_glob : string -> string -> list string.

Definition resolve_pdb_path (pdb_dir : string) (original_id : string) : string :=
  let b := base_id original_id in
  let candidates :=
    [ path_join pdb_dir (original_id +:+ "_.pdb");
      path_join pdb_dir (original_id +:+ ".pdb");
      path_join pdb_dir (b +:+ "_.pdb");
      path_join pdb_dir (b +:+ ".pdb") ] in
  match List.find path_exists candidates with
  | Some c => c
  | None =>
      match path_glob pdb_dir (b +:+ "*.pdb") with
      | g :: _ => g
      | [] => path_join pdb_dir (original_id +:+ "_.pdb")
      end
  end.

(** The result path [out_dir / f"{stem}_motif.out"] of a row. *)
Definition out_file (a : arguments) (out_dir : option string) (stem : string)
  : option string :=
  match out_dir with
  | Some d => if with_output_path a then Some (path_join d (stem +:+ "_motif.out"))
              else None
  | None => None
  end.

(** The loop of the [--per-chain] branch. *)
Fixpoint per_chain_rows (a : arguments) (out_dir : option string)
         (pairs : list (string * list PyFloat.float)) : outcome (list manifest_row) :=
  match pairs with
  | [] => Ok []
  | (id_str, scores) :: rest =>
      match scores with
      | [] => per_chain_rows a out_dir rest
      | _ =>
          let chain := extract_chain id_str in
          sel ← select_indices scores (percent a) (min_residues a);
          match collapse_ranges chain sel with
          | [] => per_chain_rows a out_dir rest
          | motif_parts =>
              let row := {| row_pdb := path_join (pdb_dir a) (id_str +:+ "_.pdb");
                            row_motif := join "," motif_parts;
                            row_out := out_file a out_dir id_str |} in
              rows ← per_chain_rows a out_dir rest;
              Ok (row :: rows)
          end
      end
  end.

(** The first loop of the merged branch: fill [chain_sel_map]. *)
Fixpoint group_chains (a : arguments) (pairs : list (string * list PyFloat.float))
         (chain_sel_map : list (string * list (string * list Z)))
  : outcome (list (string * list (string * list Z))) :=
  match pairs with
  | [] => Ok chain_sel_map
  | (id_str, scores) :: rest =>
      match scores with
      | [] => group_chains a rest chain_sel_map
      | _ =>
          let chain := extract_chain id_str in
          sel ← select_indices scores (percent a) (min_residues a);
          match sel with
          | [] => group_chains a rest chain_sel_map
          | _ => group_chains a rest
                   (dict_append (base_id id_str) (chain, sel) chain_sel_map)
          end
      end
  end.

(** The second loop of the merged branch: one row per base ID. *)
Definition merged_row (a : arguments) (out_dir : option string)
           (entry : string * list (string * list Z)) : manifest_row :=
  let '(b, chain_lists) := entry in
  let chain_tokens :=
    List.concat (map (fun '(chain, indices) => collapse_ranges chain indices)
                     chain_lists) in
  {| row_pdb := resolve_pdb_path (pdb_dir a) b;
     row_motif := join "," chain_tokens;
     row_out := out_file a out_dir b |}.

(** [main], from the parsed arguments to the rows it writes. *)
Definition main (a : arguments) (ids : list string)
           (score_lines : list (list PyFloat.float)) : outcome (list manifest_row) :=
  if negb (Nat.eqb (List.length score_lines) (List.length ids)) then
    SysExit ("Mismatch: " +:+ of_int (Z.of_nat (List.length ids)) +:+ " ids vs "
               +:+ of_int (Z.of_nat (List.length score_lines)) +:+ " score lines")
  else
    let dir := match output_dir a with
               | Some "" => None
               | d => d
               end in
    if with_output_path a && negb (bool_decide (is_Some dir)) then
      SysExit "--output-dir required with --with-output-path"
    else
      ps ← percent_str (percent a);
      let out_dir := match dir with
                     | Some d => Some (path_join d ps)
                     | None => None
                     end in
      if per_chain a then per_chain_rows a out_dir (combine ids score_lines)
      else
        m ← group_chains a (combine ids score_lines) [];
        Ok (map (merged_row a out_dir) m).

End FileSystem.

(** *** Notions used to state properties of the generator *)

(** The key under which [select_indices] sorts residue [i]: its score,
    or [-1e9] for a NaN. *)
Definition rank_score (scores : list PyFloat.float) (i : Z) : PyFloat.float :=
  let s := nth (Z.to_nat (i - 1)) scores S754_nan in
  if PyFloat.isnan s then very_low else s.

(** Residue [i] comes before residue [j] in the sorted list: its key is
    greater, or the keys compare equal and [i] is the earlier residue. *)
Definition outranks (scores : list PyFloat.float) (i j : Z) : bool :=
  PyFloat.ltb (rank_score scores j) (rank_score scores i)
  || (negb (PyFloat.ltb (rank_score scores i) (rank_score scores j)) && (i <? j)).

(** The pairs that the first loop of the merged branch appends to
    [chain_sel_map], in order: the base ID with the chain and its
    selection, for every identifier with scores and a selection. *)
Definition chain_entries (a : arguments) (pairs : list (string * list PyFloat.float))
  : list (string * (string * list Z)) :=
  flat_map
    (fun '(id_str, scores) =>
       match scores with
       | [] => []
       | _ =>
           match select_indices scores (percent a) (min_residues a) with
           | Ok (i :: sel) => [(base_id id_str, (extract_chain id_str, i :: sel))]
           | _ => []
           end
       end)
    pairs.

(** The keys of [chain_sel_map] after the given base IDs were appended
    to: every one at its first occurrence. *)
Definition first_occurrences (bases : list string) : list string :=
  fold_left
    (fun keys b => if existsb (String.eqb b) keys then keys else keys ++ [b])
    bases [].

(** The values recorded under one key, in order. *)
Definition values_of {V} (b : string) (entries : list (string * V)) : list V :=
  map snd (List.filter (fun e => String.eqb e.1 b) entries).

(** A pair of [zip(ids, score_lines)] whose score row is not empty. *)
Definition has_scores (p : string * list PyFloat.float) : bool :=
  match p.2 with [] => false | _ => true end.

(** A motif column that is well formed: not empty, and free of every
    character that is neither a letter, a digit, [-] nor [,]: of tabs,
    line ends and blanks in particular. *)
Definition well_formed_motif (m : string) : Prop :=
  m <> "" /\
  forall c, isalpha c || isdigit c = false -> c <> "-"%char -> c <> ","%char ->
            contains c m = false.

End generate_folddisco_input.

(** ** The output combiner, [combine_motif_outputs.py] *)

Module combine_motif_outputs.

Import PyStr.

Definition tab : string := String "009" EmptyString.
Definition nl : string := String "010" EmptyString.

Definition STRUCT_EXTS : list string := [".pdb"; ".cif"; ".ent"; ".gz"].

(** [load_lookup], on the lines of the lookup file. *)
Definition load_lookup (lines : list string) : gset string :=
  fold_left
    (fun valid line =>
       if String.eqb (strip line) "" || startswith line "#" then valid
       else
         let first := strip (List.hd "" (split "009" line)) in
         if String.eqb first "" then valid else valid ∪ {[ first ]})
    lines ∅.

(** One run of [for ext in STRUCT_EXTS] inside the [while] loop of
    [cleanup_id]: the string and the flag [done] after it. *)
Definition strip_exts_pass (x : string) : string * bool :=
  fold_left
    (fun '(x, done) ext =>
       if endswith (lower x) ext then (drop_last (String.length ext) x, false)
       else (x, done))
    STRUCT_EXTS (x, true).

Definition inspect {A} (a : A) : {b : A | a = b} := exist _ a eq_refl.

(** The loop [while not done] of [cleanup_id]; every pass that clears
    [done] has shortened the string. *)
Equations? strip_exts (x : string) : string by wf (String.length x) lt :=
  strip_exts x with inspect (strip_exts_pass x) := {
    | exist _ (x', true) _ => x'
    | exist _ (x', false) e => strip_exts x'
  }.
Proof.
  assert (Hlow : forall s, String.length (lower s) = String.length s).
  { induction s as [|c s IH]; simpl; congruence. }
  assert (Hsub : forall n s, (n <= String.length s)%nat ->
                             String.length (String.substring 0 n s) = n).
  { induction n as [|n IH]; intros [|c s]; simpl; intros; try lia.
    rewrite IH; lia. }
  assert (Hstep : forall y d ext,
             (0 < String.length ext)%nat ->
             let r := (if endswith (lower y) ext
                       then (drop_last (String.length ext) y, false)
                       else (y, d)) in
             (String.length r.1 <= String.length y)%nat /\
             (r.2 = false -> d = false \/
                             (String.length r.1 < String.length y)%nat)).
  { intros y d ext Hpos. unfold endswith. rewrite Hlow.
    destruct (Nat.leb_spec (String.length ext) (String.length y)) as [Hle|Hgt];
      simpl.
    - destruct (String.eqb _ ext); simpl; [|split; [lia|auto]].
      unfold drop_last. rewrite Hsub by lia. split; [lia|right; lia].
    - split; [lia|auto]. }
  revert e. unfold strip_exts_pass, STRUCT_EXTS. simpl.
  pose proof (Hstep x true ".pdb" ltac:(simpl; lia)) as H1.
  destruct (if endswith (lower x) ".pdb" then _ else _) as [x1 d1].
  pose proof (Hstep x1 d1 ".cif" ltac:(simpl; lia)) as H2.
  destruct (if endswith (lower x1) ".cif" then _ else _) as [x2 d2].
  pose proof (Hstep x2 d2 ".ent" ltac:(simpl; lia)) as H3.
  destruct (if endswith (lower x2) ".ent" then _ else _) as [x3 d3].
  pose proof (Hstep x3 d3 ".gz" ltac:(simpl; lia)) as H4.
  destruct (if endswith (lower x3) ".gz" then _ else _) as [x4 d4].
  simpl in *. intros [= -> ->].
  destruct H1 as [? H1], H2 as [? H2], H3 as [? H3], H4 as [? H4].
  destruct (H4 eq_refl) as [->|?]; [|lia].
  destruct (H3 eq_refl) as [->|?]; [|lia].
  destruct (H2 eq_refl) as [->|?]; [|lia].
  destruct (H1 eq_refl) as [?|?]; [discriminate|lia].
Qed.

(** The first part of [cleanup_id]: strip, keep the basename, remove the
    structure-file extensions, lowercase. *)
Definition normalize_id (raw : string) (lower_flag : bool) : string :=
  let x := strip raw in
  let x := if contains "/" x then rsplit1_last "/" x else x in
  let x := strip_exts x in
  if lower_flag then lower x else x.

(** [cleanup_id]; the result [None] is Python's [None]. *)
Definition cleanup_id (raw : string) (lower_flag : bool) (lookup : option (gset string))
  : option string :=
  let x := normalize_id raw lower_flag in
  match lookup with
  | Some valid =>
      if bool_decide (x ∈ valid) then Some x
      else if negb (endswith x "_") && bool_decide (x +:+ "_" ∈ valid)
      then Some (x +:+ "_")
      else if endswith x "_" && bool_decide (drop_last 1 x ∈ valid)
      then Some (drop_last 1 x)
      else None
  | None => Some x
  end.

Definition extract_query_id (path : string) : string :=
  rsplit1_head "_" (basename path).

(** One step of the generator [iter_motif_lines]: the pair it yields for
    a line, [None] when the line is passed over. *)
Definition motif_line (target_col score_col min_fields : Z) (whitespace : bool)
           (line : string) : outcome (option (string * string)) :=
  let stripped := strip line in
  if String.eqb stripped "" || startswith stripped "#" then Ok None
  else
    let parts :=
      if whitespace then split_ws stripped
      else
        let parts := split "009" stripped in
        if Z.of_nat (List.length parts) <? min_fields then split_ws stripped
        else parts in
    let n := Z.of_nat (List.length parts) in
    if n <? min_fields then Ok None
    else if (n <=? target_col) || (n <=? score_col) then Ok None
    else
      target ← index parts target_col;
      score ← index parts score_col;
      Ok (Some (target, score)).

(** The parsed command line; [scop_lookup] holds the lines of the lookup
    file when [--scop-lookup] names one. *)
Record arguments : Type := {
  scop_lookup : option (list string);
  keep_nonlookup : bool;
  no_lower : bool;
  keep_selfhits : bool;
  max_files : option Z;
  dry_run : bool;
  add_header : bool;
  score_col : Z;
  target_col : Z;
  whitespace : bool;
  min_fields : Z
}.

(** The fallback for a target that [cleanup_id] did not resolve. *)
Definition fallback_id (target_raw : string) (lower_flag : bool) : string :=
  let fallback := strip target_raw in
  let fallback := if contains "/" fallback then rsplit1_last "/" fallback
                  else fallback in
  let fallback :=
    match List.find (fun ext => endswith (lower fallback) ext) STRUCT_EXTS with
    | Some ext => drop_last (String.length ext) fallback
    | None => fallback
    end in
  if lower_flag then lower fallback else fallback.

(** The command line with only the required options given. *)
Definition defaults : arguments :=
  {| scop_lookup := None; keep_nonlookup := false; no_lower := false;
     keep_selfhits := false; max_files := None; dry_run := false;
     add_header := false; score_col := 1; target_col := 0;
     whitespace := false; min_fields := 2 |}.

(** The command line [a] with [--dry-run] given or not. *)
Definition with_dry_run (b : bool) (a : arguments) : arguments :=
  {| scop_lookup := scop_lookup a; keep_nonlookup := keep_nonlookup a;
     no_lower := no_lower a; keep_selfhits := keep_selfhits a;
     max_files := max_files a; dry_run := b; add_header := add_header a;
     score_col := score_col a; target_col := target_col a;
     whitespace := whitespace a; min_fields := min_fields a |}.

Section Score.

(** The float type with [float(s)] ([None] for [ValueError]) and the
    formatting of [f"{score}"]. *)
Context {F : Type}.
Variable float_of_string : string -> option F.
Variable string_of_float : F -> string.

(** A combined triplet, the record that one call of [out_fh.write] in the
    loop persists. *)
Record triplet : Type := {
  query_id : string;
  target_id : string;
  score : F
}.

(** [f"{q_clean}\t{t_clean}\t{score}\n"] *)
Definition format_record (r : triplet) : string :=
  query_id r +:+ tab +:+ target_id r +:+ tab +:+ string_of_float (score r) +:+ nl.

(** The locals of [main] during the run; [written] lists the records
    passed to [out_fh.write], in order. *)
Record run_state : Type := {
  lookup : option (gset string);
  written : list triplet;
  total_raw_lines : Z;
  total_kept : Z;
  total_self : Z;
  total_lookup_missing : Z;
  missing_ids : gset string
}.

(** The body of the inner loop of [main], from the self-hit test on. *)
Definition emit (a : arguments) (q_clean t_clean score_txt : string)
           (st : run_state) : run_state :=
  if negb (keep_selfhits a) && String.eqb q_clean t_clean then
    {| lookup := lookup st; written := written st;
       total_raw_lines := total_raw_lines st; total_kept := total_kept st;
       total_self := total_self st + 1;
       total_lookup_missing := total_lookup_missing st;
       missing_ids := missing_ids st |}
  else
    match float_of_string score_txt with
    | None => st
    | Some score =>
        {| lookup := lookup st;
           written :=
             if dry_run a then written st
             else written st ++ [{| query_id := q_clean; target_id := t_clean;
                                    score := score |}];
           total_raw_lines := total_raw_lines st; total_kept := total_kept st + 1;
           total_self := total_self st;
           total_lookup_missing := total_lookup_missing st;
           missing_ids := missing_ids st |}
    end.

(** The body of the inner loop of [main] for one yielded pair. *)
Definition process_pair (a : arguments) (q_clean target_raw score_txt : string)
           (st : run_state) : run_state :=
  let lower_flag := negb (no_lower a) in
  let st := {| lookup := lookup st; written := written st;
               total_raw_lines := total_raw_lines st + 1;
               total_kept := total_kept st; total_self := total_self st;
               total_lookup_missing := total_lookup_missing st;
               missing_ids := missing_ids st |} in
  match cleanup_id target_raw lower_flag (lookup st) with
  | Some t_clean => emit a q_clean t_clean score_txt st
  | None =>
      if bool_decide (is_Some (lookup st)) && negb (keep_nonlookup a) then
        let missed := strip target_raw in
        let missed := if contains "/" missed then rsplit1_last "/" missed
                      else missed in
        {| lookup := lookup st; written := written st;
           total_raw_lines := total_raw_lines st;
           total_kept := total_kept st; total_self := total_self st;
           total_lookup_missing := total_lookup_missing st + 1;
           missing_ids := missing_ids st ∪ {[ missed ]} |}
      else emit a q_clean (fallback_id target_raw lower_flag) score_txt st
  end.

(** The inner loop of [main] over the lines of one file; an exception
    of the generator ends it with the state reached so far. *)
Fixpoint process_lines (a : arguments) (q_clean : string) (lines : list string)
         (st : run_state) : run_state * outcome unit :=
  match lines with
  | [] => (st, Ok tt)
  | line :: rest =>
      match motif_line (target_col a) (score_col a) (min_fields a) (whitespace a) line with
      | Ok None => process_lines a q_clean rest st
      | Ok (Some (target_raw, score_txt)) =>
          process_lines a q_clean rest (process_pair a q_clean target_raw score_txt st)
      | Raise e => (st, Raise e)
      | SysExit m => (st, SysExit m)
      end
  end.

(** The query ID of a file: [None] when the file is passed over. *)
Definition query_of (a : arguments) (lookup : option (gset string)) (fpath : string)
  : option string :=
  let lower_flag := negb (no_lower a) in
  let q_raw := extract_query_id fpath in
  match cleanup_id q_raw lower_flag lookup with
  | Some q => Some q
  | None =>
      if bool_decide (is_Some lookup) && negb (keep_nonlookup a) then None
      else Some (if lower_flag then lower q_raw else q_raw)
  end.

(** The outer loop of [main] over the files, each given by its path
    and its lines. *)
Fixpoint process_files (a : arguments) (files : list (string * list string))
         (st : run_state) : run_state * outcome unit :=
  match files with
  | [] => (st, Ok tt)
  | (fpath, lines) :: rest =>
      match query_of a (lookup st) fpath with
      | None => process_files a rest st
      | Some q =>
          match process_lines a q lines st with
          | (st', Ok _) => process_files a rest st'
          | r => r
          end
      end
  end.

Definition initial_state (a : arguments) : run_state :=
  {| lookup := option_map load_lookup (scop_lookup a);
     written := [];
     total_raw_lines := 0; total_kept := 0; total_self := 0;
     total_lookup_missing := 0; missing_ids := ∅ |}.

(** [files[: args.max_files]] when [--max-files] is given and not zero. *)
Definition selected_files (a : arguments) (found : list (string * list string))
  : list (string * list string) :=
  match max_files a with
  | Some n => if n =? 0 then found else slice_to n found
  | None => found
  end.

(** [main]: the final state and the exit status, for the files that
    [motif_files] found. *)
Definition main (a : arguments) (found : list (string * list string))
  : run_state * outcome Z :=
  match selected_files a found with
  | [] => (initial_state a, Ok 1)
  | files =>
      match process_files a files (initial_state a) with
      | (st', Ok _) => (st', Ok 0)
      | (st', Raise e) => (st', Raise e)
      | (st', SysExit m) => (st', SysExit m)
      end
  end.

(** The text of the output file after the run, as the list of the strings
    written; [None] when no file is opened: with [--dry-run], or when no
    file matched. *)
Definition output_text (a : arguments) (found : list (string * list string))
  : option (list string) :=
  match selected_files a found with
  | [] => None
  | _ =>
      if dry_run a then None
      else Some ((if add_header a
                  then ["query_id" +:+ tab +:+ "target_id" +:+ tab +:+ "score" +:+ nl]
                  else [])
                 ++ map format_record (written (main a found).1))
  end.

(** The record, if any, that the loop body appends to the output for one
    yielded pair, given the lookup set and the query ID. *)
Definition contribution (a : arguments) (lk : option (gset string))
           (q_clean target_raw score_txt : string) : list triplet :=
  let lower_flag := negb (no_lower a) in
  let t_clean :=
    match cleanup_id target_raw lower_flag lk with
    | Some t => Some t
    | None =>
        if bool_decide (is_Some lk) && negb (keep_nonlookup a) then None
        else Some (fallback_id target_raw lower_flag)
    end in
  match t_clean with
  | None => []
  | Some t =>
      if negb (keep_selfhits a) && String.eqb q_clean t then []
      else match float_of_string score_txt with
           | None => []
           | Some v =>
               if dry_run a then []
               else [{| query_id := q_clean; target_id := t; score := v |}]
           end
  end.

(** A line from which the generator yields a pair whose score field
    [float] rejects. *)
Definition non_numeric_score (a : arguments) (line : string) : bool :=
  match motif_line (target_col a) (score_col a) (min_fields a) (whitespace a) line with
  | Ok (Some (_, score_txt)) =>
      match float_of_string score_txt with
      | None => true
      | Some _ => false
      end
  | _ => false
  end.

(** The input files with every such line removed. *)
Definition without_non_numeric (a : arguments) (found : list (string * list string))
  : list (string * list string) :=
  map (fun '(fpath, lines) =>
         (fpath, List.filter (fun line => negb (non_numeric_score a line)) lines))
      found.

(** What [--verbose] reports after the run: the four counters, and the
    IDs that [--report-missing] lists. *)
Definition statistics (st : run_state) : Z * Z * Z * Z * gset string :=
  (total_raw_lines st, total_kept st, total_self st, total_lookup_missing st,
   missing_ids st).

End Score.

End combine_motif_outputs.

(** ** Sample inputs *)

Module Samples.

(** A directory tree in which only [/pdb/d1twfa_.pdb] exists. The
    join is the one of [pathlib] for a directory in normal form
    ([/pdb], [/out/50]) and a relative file name; [pathlib] drops the
    directory when the name starts with [/]. *)
Definition join_path (d name : string) : string := d +:+ "/" +:+ name.
Definition only_d1twfa (p : string) : bool := String.eqb p "/pdb/d1twfa_.pdb".
Definition no_glob (d pattern : string) : list string := [].

(** [--percent 50 --pdb-dir /pdb --with-output-path --output-dir /out] *)
Definition merged_args : generate_folddisco_input.arguments :=
  {| generate_folddisco_input.percent := PyFloat.of_Z 50;
     generate_folddisco_input.min_residues := 1;
     generate_folddisco_input.pdb_dir := "/pdb";
     generate_folddisco_input.with_output_path := true;
     generate_folddisco_input.output_dir := Some "/out";
     generate_folddisco_input.per_chain := false |}.

(** The combiner's defaults with [--keep-selfhits]. *)
Definition keep_selfhits_args : combine_motif_outputs.arguments :=
  {| combine_motif_outputs.scop_lookup := None;
     combine_motif_outputs.keep_nonlookup := false;
     combine_motif_outputs.no_lower := false;
     combine_motif_outputs.keep_selfhits := true;
     combine_motif_outputs.max_files := None;
     combine_motif_outputs.dry_run := false;
     combine_motif_outputs.add_header := false;
     combine_motif_outputs.score_col := 1;
     combine_motif_outputs.target_col := 0;
     combine_motif_outputs.whitespace := false;
     combine_motif_outputs.min_fields := 2 |}.

(** A line [target<TAB>score]. *)
Definition hit (target score : string) : string :=
  target +:+ combine_motif_outputs.tab +:+ score.

(** [--percent 50 --pdb-dir /pdb --per-chain] *)
Definition per_chain_args : generate_folddisco_input.arguments :=
  {| generate_folddisco_input.percent := PyFloat.of_Z 50;
     generate_folddisco_input.min_residues := 1;
     generate_folddisco_input.pdb_dir := "/pdb";
     generate_folddisco_input.with_output_path := false;
     generate_folddisco_input.output_dir := None;
     generate_folddisco_input.per_chain := true |}.

(** The combiner's defaults with [--scop-lookup], for a lookup file of
    two lines. *)
Definition lookup_args : combine_motif_outputs.arguments :=
  {| combine_motif_outputs.scop_lookup :=
       Some [hit "d1abc_" "a.1.1.1"; hit "d1xyz_" "b.2.1.1"];
     combine_motif_outputs.keep_nonlookup := false;
     combine_motif_outputs.no_lower := false;
     combine_motif_outputs.keep_selfhits := false;
     combine_motif_outputs.max_files := None;
     combine_motif_outputs.dry_run := false;
     combine_motif_outputs.add_header := false;
     combine_motif_outputs.score_col := 1;
     combine_motif_outputs.target_col := 0;
     combine_motif_outputs.whitespace := false;
     combine_motif_outputs.min_fields := 2 |}.

(** The combiner's defaults with [--target-col -3]. *)
Definition negative_col_args : combine_motif_outputs.arguments :=
  {| combine_motif_outputs.scop_lookup := None;
     combine_motif_outputs.keep_nonlookup := false;
     combine_motif_outputs.no_lower := false;
     combine_motif_outputs.keep_selfhits := false;
     combine_motif_outputs.max_files := None;
     combine_motif_outputs.dry_run := false;
     combine_motif_outputs.add_header := false;
     combine_motif_outputs.score_col := 1;
     combine_motif_outputs.target_col := -3;
     combine_motif_outputs.whitespace := false;
     combine_motif_outputs.min_fields := 2 |}.

End Samples.

(** ** Reading motif tokens back

    The design document describes a motif token as the chain label followed
    by a single index or by a closed range [lo-hi] that stands for all the
    integers from [lo] to [hi]. The definitions below follow that
    description; they are not part of the scripts. *)

Module MotifToken.

(** The integers from [lo] to [hi], in ascending order. *)
Definition zrange (lo hi : Z) : list Z :=
  map (fun i => lo + Z.of_nat i) (seq 0 (Z.to_nat (hi - lo + 1))).

(** [int(s)] for the output of [str(n)]. *)
Definition parse_int (s : string) : option Z :=
  option_map Z.of_int (NilZero.int_of_string s).

(** Split at the first occurrence of [c]. *)
Fixpoint cut_at (c : ascii) (s : string) : option (string * string) :=
  match s with
  | EmptyString => None
  | String d s' =>
      if Ascii.eqb d c then Some (EmptyString, s')
      else match cut_at c s' with
           | Some (a, b) => Some (String d a, b)
           | None => None
           end
  end.

(** Remove the prefix [p], if it is one. *)
Fixpoint strip_prefix (p s : string) : option string :=
  match p, s with
  | EmptyString, _ => Some s
  | String c p', String d s' => if Ascii.eqb c d then strip_prefix p' s' else None
  | String _ _, EmptyString => None
  end.

(** The bounds of a token body: [lo-hi], where a leading [-] is the sign
    of [lo], or a single index. *)
Definition bounds (body : string) : option (Z * Z) :=
  match body with
  | EmptyString => None
  | String c rest =>
      match cut_at "-" rest with
      | Some (lo, hi) =>
          match parse_int (String c lo), parse_int hi with
          | Some l, Some h => Some (l, h)
          | _, _ => None
          end
      | None =>
          match parse_int body with
          | Some i => Some (i, i)
          | None => None
          end
      end
  end.

(** The indices that one token stands for. *)
Definition expand_token (chain tok : string) : option (list Z) :=
  match strip_prefix chain tok with
  | Some body =>
      match bounds body with
      | Some (lo, hi) => Some (zrange lo hi)
      | None => None
      end
  | None => None
  end.

(** The indices that a list of tokens stands for, in the order of the
    tokens. *)
Fixpoint expand_tokens (chain : string) (toks : list string) : option (list Z) :=
  match toks with
  | [] => Some []
  | t :: ts =>
      match expand_token chain t, expand_tokens chain ts with
      | Some a, Some b => Some (a ++ b)
      | _, _ => None
      end
  end.

(** The bounds [(lo, hi)] of one token. *)
Definition token_bounds (chain tok : string) : option (Z * Z) :=
  match strip_prefix chain tok with
  | Some body => bounds body
  | None => None
  end.

(** The bounds of the tokens of a motif, in order. *)
Fixpoint tokens_bounds (chain : string) (toks : list string) : option (list (Z * Z)) :=
  match toks with
  | [] => Some []
  | t :: ts =>
      match token_bounds chain t, tokens_bounds chain ts with
      | Some r, Some rs => Some (r :: rs)
      | _, _ => None
      end
  end.

(** The maximal runs of consecutive integers in [prev :: rest], the first
    of which began at [start]. *)
Fixpoint runs_from (start prev : Z) (rest : list Z) : list (Z * Z) :=
  match rest with
  | [] => [(start, prev)]
  | x :: rest' =>
      if x =? prev + 1 then runs_from start x rest'
      else (start, prev) :: runs_from x x rest'
  end.

End MotifToken.

(** ** The order of floats

    Notions used to state how [select_indices] ranks the residues; they
    are not part of the scripts. *)

Module FloatOrder.

(** The position of a float that is not a NaN in the order of
    [SFcompare]: sign class, then exponent, then mantissa. *)
Definition rank (f : spec_float) : Z * Z * Z :=
  match f with
  | S754_zero _ => (0, 0, 0)
  | S754_infinity s => (if s then -2 else 2, 0, 0)
  | S754_nan => (0, 0, 0)
  | S754_finite s m e => if s then (-1, - e, - Zpos m) else (1, e, Zpos m)
  end.

Definition lex_lt (a b : Z * Z * Z) : Prop :=
  a.1.1 < b.1.1 \/
  (a.1.1 = b.1.1 /\ (a.1.2 < b.1.2 \/ (a.1.2 = b.1.2 /\ a.2 < b.2))).

(** The order of the list that [select_indices] sorts, on its entries:
    the key of [x] is greater, or the keys compare equal and [x] has the
    smaller index. *)
Definition before (x y : Z * PyFloat.float) : Prop :=
  PyFloat.ltb (snd y) (snd x) = true \/
  (PyFloat.ltb (snd x) (snd y) = false /\ fst x < fst y).

End FloatOrder.

(** * Properties *)

(** ** Integers as decimal strings *)

Section DecimalStrings.

Import PyStr MotifToken.

Lemma uint_string_no_dash d :
  contains "-" (NilEmpty.string_of_uint d) = false.
Proof. induction d; simpl; auto. Qed.

Lemma to_uint_not_nil p : Pos.to_uint p <> Decimal.Nil.
Proof.
  intros H. pose proof (DecimalPos.Unsigned.of_to p) as E.
  rewrite H in E. discriminate E.
Qed.

Lemma parse_of_int z : parse_int (of_int z) = Some z.
Proof.
  unfold parse_int, of_int.
  rewrite NilZero.isi.
  - simpl. now rewrite DecimalZ.of_to.
  - destruct z; simpl; try discriminate.
    intros [= H]. now apply to_uint_not_nil in H.
  - destruct z; simpl; try discriminate.
    intros [= H]. now apply to_uint_not_nil in H.
Qed.

(** [str(n)] is a sign or digit followed by digits. *)
Lemma of_int_shape z :
  exists c rest, of_int z = String c rest /\ contains "-" rest = false.
Proof.
  unfold of_int. destruct z as [|p|p]; simpl.
  - exists "0"%char, EmptyString. auto.
  - pose proof (uint_string_no_dash (Pos.to_uint p)) as Hd.
    pose proof (to_uint_not_nil p) as Hn.
    unfold NilZero.string_of_uint.
    destruct (Pos.to_uint p) eqn:E; try contradiction;
      simpl in *; eexists _, _; split; try reflexivity; exact Hd.
  - exists "-"%char. eexists; split; [reflexivity|].
    pose proof (to_uint_not_nil p) as Hn.
    unfold NilZero.string_of_uint.
    destruct (Pos.to_uint p) eqn:E; try contradiction;
      rewrite <- E; apply uint_string_no_dash.
Qed.

Lemma cut_at_app c a b :
  contains c a = false -> cut_at c (a +:+ String c b) = Some (a, b).
Proof.
  induction a as [|d a IH]; simpl.
  - now rewrite Ascii.eqb_refl.
  - intros H. apply orb_false_iff in H as [Hd Ha].
    rewrite Ascii.eqb_sym, Hd, IH; auto.
Qed.

Lemma cut_at_none c s : contains c s = false -> cut_at c s = None.
Proof.
  induction s as [|d s IH]; simpl; auto.
  intros H. apply orb_false_iff in H as [Hd Hs].
  now rewrite Ascii.eqb_sym, Hd, IH.
Qed.

Lemma strip_prefix_app p s : strip_prefix p (p +:+ s) = Some s.
Proof.
  induction p as [|c p IH]; simpl; [now destruct s|].
  now rewrite Ascii.eqb_refl.
Qed.

Lemma bounds_single z : bounds (of_int z) = Some (z, z).
Proof.
  destruct (of_int_shape z) as (c & rest & E & Hr).
  unfold bounds. rewrite E, (cut_at_none _ _ Hr), <- E, parse_of_int.
  reflexivity.
Qed.

Lemma bounds_range lo hi :
  bounds (of_int lo +:+ "-" +:+ of_int hi) = Some (lo, hi).
Proof.
  destruct (of_int_shape lo) as (c & rest & E & Hr).
  unfold bounds. rewrite E.
  change (String c rest +:+ "-" +:+ of_int hi)
    with (String c (rest +:+ String "-" (of_int hi))).
  cbv iota beta.
  rewrite (cut_at_app "-" rest (of_int hi) Hr), <- E, !parse_of_int.
  reflexivity.
Qed.

End DecimalStrings.

(** ** Range collapsing *)

Section CollapseRanges.

Import PyStr PyList MotifToken generate_folddisco_input.

Lemma zrange_single x : zrange x x = [x].
Proof.
  unfold zrange. replace (x - x + 1) with 1 by lia.
  simpl. f_equal. lia.
Qed.

Lemma zrange_snoc lo hi :
  lo <= hi + 1 -> zrange lo (hi + 1) = zrange lo hi ++ [hi + 1].
Proof.
  intros H. unfold zrange.
  replace (Z.to_nat (hi + 1 - lo + 1)) with (S (Z.to_nat (hi - lo + 1))) by lia.
  rewrite seq_S, map_app. simpl. do 2 f_equal. lia.
Qed.

Lemma expand_run chain start prev :
  expand_token chain (run_token chain start prev) = Some (zrange start prev).
Proof.
  unfold expand_token, run_token.
  destruct (Z.eqb_spec start prev) as [->|Hne].
  - now rewrite strip_prefix_app, bounds_single.
  - now rewrite strip_prefix_app, bounds_range.
Qed.

Lemma expand_tokens_snoc chain toks tok a b :
  expand_tokens chain toks = Some a ->
  expand_token chain tok = Some b ->
  expand_tokens chain (toks ++ [tok]) = Some (a ++ b).
Proof.
  revert a. induction toks as [|t toks IH]; simpl; intros a Ha Hb.
  - injection Ha as <-. rewrite Hb. simpl. now rewrite app_nil_r.
  - destruct (expand_token chain t) as [x|]; [|discriminate].
    destruct (expand_tokens chain toks) as [y|]; [|discriminate].
    injection Ha as <-. rewrite (IH y eq_refl Hb). now rewrite app_assoc.
Qed.

(** The loop invariant: the emitted tokens and the open run together
    stand for the indices consumed so far. *)
Lemma collapse_loop_expand chain rest :
  forall tokens start prev done,
    start <= prev ->
    expand_tokens chain tokens = Some done ->
    expand_tokens chain (collapse_loop chain tokens start prev rest)
    = Some (done ++ zrange start prev ++ rest).
Proof.
  induction rest as [|x rest IH]; intros tokens start prev done Hle Hdone; simpl.
  - rewrite app_nil_r. apply expand_tokens_snoc; auto using expand_run.
  - destruct (Z.eqb_spec x (prev + 1)) as [->|Hne].
    + rewrite (IH tokens start (prev + 1) done) by (auto; lia).
      rewrite zrange_snoc by lia. now rewrite <- !app_assoc.
    + rewrite (IH _ x x (done ++ zrange start prev)); [|lia|].
      * rewrite zrange_single. now rewrite <- !app_assoc.
      * apply expand_tokens_snoc; auto using expand_run.
Qed.

Lemma insert_uniq_In x y l : In y (insert_uniq x l) <-> y = x \/ In y l.
Proof.
  induction l as [|z l IH]; simpl.
  - intuition.
  - destruct (Z.ltb_spec x z); [simpl; intuition|].
    destruct (Z.eqb_spec x z) as [->|]; simpl; [intuition|].
    rewrite IH. intuition.
Qed.

Lemma insert_uniq_sorted x l :
  StronglySorted Z.lt l -> StronglySorted Z.lt (insert_uniq x l).
Proof.
  induction 1 as [|z l Hs IH Hall]; simpl.
  - repeat constructor.
  - destruct (Z.ltb_spec x z).
    + constructor; [now constructor|].
      constructor; [assumption|].
      eapply Forall_impl; [exact Hall|]. simpl. intros; lia.
    + destruct (Z.eqb_spec x z); [now constructor|].
      constructor; [assumption|].
      apply List.Forall_forall. intros y Hy. apply insert_uniq_In in Hy as [->|Hy].
      * lia.
      * rewrite List.Forall_forall in Hall. auto.
Qed.

Lemma sorted_set_In x l : In x (sorted_set l) <-> In x l.
Proof.
  induction l as [|y l IH]; simpl; [tauto|].
  rewrite insert_uniq_In, IH. intuition.
Qed.

Lemma sorted_set_sorted l : StronglySorted Z.lt (sorted_set l).
Proof.
  induction l; simpl; [constructor|now apply insert_uniq_sorted].
Qed.

Lemma collapse_ranges_expand chain indices :
  expand_tokens chain (collapse_ranges chain indices) = Some (sorted_set indices).
Proof.
  unfold collapse_ranges.
  destruct indices as [|i indices]; [reflexivity|].
  destruct (sorted_set (i :: indices)) as [|i0 rest]; [reflexivity|].
  rewrite (collapse_loop_expand chain rest [] i0 i0 []) by (reflexivity || lia).
  now rewrite zrange_single.
Qed.

(** C3. For every chain label and every list of indices (so for every
    non-empty one), reading back the tokens that [collapse_ranges] emits,
    each as the chain label followed by one index or by a closed range
    [lo-hi], gives a strictly ascending list with exactly the members of the
    input: the sorted, duplicate-free set of the input indices. *)
Theorem collapse_ranges_lossless (chain : string) (indices : list Z) :
  exists r,
    expand_tokens chain (collapse_ranges chain indices) = Some r /\
    StronglySorted Z.lt r /\
    (forall x, In x r <-> In x indices).
Proof.
  exists (sorted_set indices). split; [apply collapse_ranges_expand|].
  split; [apply sorted_set_sorted|]. intros x. apply sorted_set_In.
Qed.

End CollapseRanges.

(** ** Doubles that stay finite *)

Section Binary64.

Lemma digits2_log2 p : Zpos (digits2_pos p) = Z.log2 (Zpos p) + 1.
Proof.
  assert (H : forall q, digits2_pos q = Pos.size q) by (induction q; simpl; congruence).
  rewrite H. destruct p; simpl; lia.
Qed.

Lemma iter_pos_nat {A} (f : A -> A) n x :
  SpecFloat.iter_pos f n x = Nat.iter (Pos.to_nat n) f x.
Proof.
  revert x. induction n as [n IH|n IH|]; intros x; cbn [SpecFloat.iter_pos].
  - rewrite !IH, <- Nat.iter_succ_r, <- Nat.iter_add. f_equal. lia.
  - rewrite !IH, <- Nat.iter_add. f_equal. lia.
  - reflexivity.
Qed.

Lemma shr_m_shr_1 r : 0 <= shr_m r -> shr_m (shr_1 r) = shr_m r / 2.
Proof.
  destruct r as [m r s]. simpl. intros H. rewrite <- Z.div2_div.
  destruct m as [|[p|p|]|p]; try reflexivity; lia.
Qed.

Lemma shr_m_iter k r :
  0 <= shr_m r -> shr_m (Nat.iter k shr_1 r) = shr_m r / 2 ^ Z.of_nat k.
Proof.
  intros H. induction k as [|k IH].
  - simpl. now rewrite Z.div_1_r.
  - assert (0 < 2 ^ Z.of_nat k) by (apply Z.pow_pos_nonneg; lia).
    rewrite Nat2Z.inj_succ, Z.pow_succ_r by lia.
    change (Nat.iter (S k) shr_1 r) with (shr_1 (Nat.iter k shr_1 r)).
    rewrite shr_m_shr_1, IH.
    + rewrite Z.div_div by lia. f_equal. lia.
    + rewrite IH. apply Z.div_pos; lia.
Qed.

Lemma round_nearest_even_cases m l :
  round_nearest_even m l = m \/ round_nearest_even m l = m + 1.
Proof.
  destruct l as [|[]]; simpl; auto. destruct (Z.even m); auto.
Qed.

Lemma shr_record_of_loc_m m l : shr_m (shr_record_of_loc m l) = m.
Proof. now destruct l as [|[]]. Qed.

(** The second half of [binary_round_aux]: a mantissa of at most 53 bits,
    or [2^53] itself, is kept or halved. *)
Lemma renormalize_finite (s : bool) (m1 : positive) (e1 : Z) :
  -1074 <= e1 -> e1 <= 971 ->
  Zpos m1 <= 2 ^ 53 -> (Zpos m1 = 2 ^ 53 -> e1 <= 970) ->
  exists m' e',
    (let '(mrs, e) := shr_fexp 53 1024 (Zpos m1) e1 loc_Exact in
     match shr_m mrs with
     | Z0 => S754_zero s
     | Zpos m => if e <=? 1024 - 53 then S754_finite s m e else S754_infinity s
     | Zneg _ => S754_nan
     end) = S754_finite s m' e' /\
    e1 <= e' <= e1 + 1 /\
    Z.log2 (Zpos m') + e' = Z.log2 (Zpos m1) + e1 /\
    Z.log2 (Zpos m') = Z.min 52 (Z.log2 (Zpos m1)).
Proof.
  intros He Hmax Hm Htop.
  pose proof (Z.log2_nonneg (Zpos m1)) as HL.
  unfold shr_fexp, Zdigits2. rewrite digits2_log2. unfold fexp, emin.
  destruct (Z.eq_dec (Zpos m1) (2 ^ 53)) as [E|NE].
  - injection E as ->.
    match goal with |- context [shr _ _ ?k] =>
      replace k with 1 by (simpl Z.log2; lia) end.
    cbn [shr shr_record_of_loc SpecFloat.iter_pos shr_1 shr_m Pos.pow Pos.iter
         Pos.mul orb].
    destruct (Z.leb_spec (e1 + 1) (1024 - 53)); [|lia].
    eexists _, _. split; [reflexivity|]. simpl Z.log2. lia.
  - assert (Hl : Z.log2 (Zpos m1) <= 52).
    { assert (Z.log2 (Zpos m1) < 53) by (apply Z.log2_lt_pow2; lia). lia. }
    unfold shr.
    destruct (Z.max (Z.log2 (Zpos m1) + 1 + e1 - 53) (3 - 1024 - 53) - e1)
      as [|k|k] eqn:Ek; try lia;
      cbn [shr_record_of_loc shr_m];
      (destruct (Z.leb_spec e1 (1024 - 53)); [|lia]);
      exists m1, e1; (split; [reflexivity|]); lia.
Qed.

(** Rounding a positive [p * 2^e] that is neither too small nor too big
    gives a finite double of the same sign, normalised when [p] has at
    least 53 bits. *)
Lemma binary_round_aux_finite (s : bool) (p : positive) (e : Z) (l : location) :
  -1074 <= e ->
  Z.log2 (Zpos p) + e <= 1022 ->
  (e <= 971 \/ 52 <= Z.log2 (Zpos p)) ->
  exists m' e',
    binary_round_aux 53 1024 s (Zpos p) e l = S754_finite s m' e' /\
    e <= e' /\
    Z.log2 (Zpos m') + e' <= Z.log2 (Zpos p) + e + 1 /\
    (52 <= Z.log2 (Zpos p) ->
     Z.log2 (Zpos m') = 52 /\ e' <= e + Z.log2 (Zpos p) - 51).
Proof.
  intros He Hmax Hsmall.
  pose proof (Z.log2_spec (Zpos p) ltac:(lia)) as [Hlo Hhi].
  pose proof (Z.log2_nonneg (Zpos p)) as HL.
  set (L := Z.log2 (Zpos p)) in *.
  assert (H2L : 0 < 2 ^ L) by (apply Z.pow_pos_nonneg; lia).
  unfold binary_round_aux.
  destruct (shr_fexp 53 1024 (Zpos p) e l) as [mrs e1] eqn:E1.
  set (m1 := round_nearest_even (shr_m mrs) (loc_of_shr_record mrs)).
  assert (Hstage : exists L1,
             2 ^ L1 <= m1 <= 2 ^ Z.succ L1 /\ 0 <= L1 <= 52 /\
             e <= e1 /\ L1 + e1 = L + e /\ (52 <= L -> L1 = 52) /\
             (L <= 52 -> e1 = e)).
  { revert E1. unfold shr_fexp, Zdigits2. rewrite digits2_log2. fold L.
    unfold fexp, emin, shr.
    destruct (Z_le_gt_dec L 52) as [Hle|Hgt].
    - (* no bit is shifted out *)
      destruct (Z.max (L + 1 + e - 53) (3 - 1024 - 53) - e) eqn:En; try lia;
        intros [= <- <-]; exists L; unfold m1; rewrite shr_record_of_loc_m;
        (destruct (round_nearest_even_cases (Zpos p)
                     (loc_of_shr_record (shr_record_of_loc (Zpos p) l)))
          as [-> | ->]); repeat split; lia.
    - (* [L - 52] bits are shifted out *)
      destruct (Z.max (L + 1 + e - 53) (3 - 1024 - 53) - e) as [|n|n] eqn:En;
        try lia.
      intros [= <- <-]. exists 52. unfold m1. rewrite !iter_pos_nat.
      assert (Hq : shr_m (Nat.iter (Pos.to_nat n) shr_1 (shr_record_of_loc (Zpos p) l))
                   = Zpos p / 2 ^ Zpos n).
      { rewrite shr_m_iter by (rewrite shr_record_of_loc_m; lia).
        now rewrite shr_record_of_loc_m, positive_nat_Z. }
      assert (Hqb : 2 ^ 52 <= Zpos p / 2 ^ Zpos n < 2 ^ 53).
      { replace (Z.succ L) with (53 + Zpos n) in Hhi by lia.
        replace L with (52 + Zpos n) in Hlo by lia.
        rewrite Z.pow_add_r in Hlo, Hhi by lia.
        assert (0 < 2 ^ Zpos n) by (apply Z.pow_pos_nonneg; lia).
        split.
        - apply Z.div_le_lower_bound; lia.
        - apply Z.div_lt_upper_bound; lia. }
      destruct (round_nearest_even_cases
                  (shr_m (Nat.iter (Pos.to_nat n) shr_1 (shr_record_of_loc (Zpos p) l)))
                  (loc_of_shr_record
                     (Nat.iter (Pos.to_nat n) shr_1 (shr_record_of_loc (Zpos p) l))))
        as [-> | ->]; rewrite Hq; change (Z.succ 52) with 53; repeat split; lia. }
  destruct Hstage as (L1 & Hm1 & HL1 & He1 & Hsum & Hnorm & Hsame).
  clearbody m1. clear E1 mrs.
  assert (H2L1 : 0 < 2 ^ L1) by (apply Z.pow_pos_nonneg; lia).
  assert (Hpow : 2 ^ Z.succ L1 <= 2 ^ 53) by (apply Z.pow_le_mono_r; lia).
  destruct m1 as [|m1|m1]; try lia.
  assert (Hlog : L1 <= Z.log2 (Zpos m1) <= L1 + 1).
  { split.
    - apply Z.log2_le_pow2; lia.
    - assert (Z.log2 (Zpos m1) <= Z.log2 (2 ^ Z.succ L1)) by (apply Z.log2_le_mono; lia).
      rewrite Z.log2_pow2 in H by lia. lia. }
  destruct (renormalize_finite s m1 e1) as (m' & e' & -> & He' & Hs' & Hl').
  - lia.
  - destruct (Z_le_gt_dec L 52); [rewrite Hsame by lia|]; lia.
  - lia.
  - intros E. rewrite E in Hlog. change (Z.log2 (2 ^ 53)) with 53 in Hlog. lia.
  - exists m', e'. split; [reflexivity|]. fold L. repeat split; try lia.
Qed.

(** The double nearest to a positive integer below [2^1022] is positive
    and normal. *)
Lemma of_Z_positive (p : positive) :
  Z.log2 (Zpos p) <= 1021 ->
  exists m e,
    PyFloat.of_Z (Zpos p) = S754_finite false m e /\
    Z.log2 (Zpos m) = 52 /\
    -52 <= e <= Z.log2 (Zpos p) - 51.
Proof.
  intros Hp. pose proof (Z.log2_nonneg (Zpos p)) as HL.
  unfold PyFloat.of_Z, binary_normalize, binary_round, shl_align.
  rewrite digits2_log2. unfold fexp, emin, PyFloat.prec, PyFloat.emax.
  set (L := Z.log2 (Zpos p)) in *.
  destruct (Z.max (L + 1 + 0 - 53) (3 - 1024 - 53) - 0) as [|d|d] eqn:Ed.
  - destruct (binary_round_aux_finite false p 0 loc_Exact)
      as (m & e & -> & ? & ? & Hn); [lia|fold L; lia|fold L; lia|].
    fold L in Hn. exists m, e. split; [reflexivity|]. lia.
  - destruct (binary_round_aux_finite false p 0 loc_Exact)
      as (m & e & -> & ? & ? & Hn); [lia|fold L; lia|fold L; lia|].
    fold L in Hn. exists m, e. split; [reflexivity|]. lia.
  - assert (Hlog : Z.log2 (Zpos (Pos.iter xO p d)) = L + Zpos d).
    { clear Ed. induction d as [|d IH] using Pos.peano_ind.
      - change (Zpos (Pos.iter xO p 1)) with (2 * Zpos p).
        rewrite Z.log2_double by lia. fold L. lia.
      - rewrite Pos.iter_succ.
        change (Zpos (Pos.iter xO p d)~0) with (2 * Zpos (Pos.iter xO p d)).
        rewrite Z.log2_double, IH by lia. lia. }
    destruct (binary_round_aux_finite false (Pos.iter xO p d)
                (Z.max (L + 1 + 0 - 53) (3 - 1024 - 53)) loc_Exact)
      as (m & e & -> & ? & ? & Hn); rewrite ?Hlog; try lia.
    rewrite Hlog in Hn. exists m, e. split; [reflexivity|]. lia.
Qed.

(** Dividing a normal double by [100.0] gives a normal double of the same
    sign, between 5 and 7 binary orders of magnitude below. *)
Lemma div_hundred_normal (s : bool) (m : positive) (e : Z) :
  Z.log2 (Zpos m) = 52 -> -1067 <= e <= 971 ->
  exists m' e',
    PyFloat.div (S754_finite s m e) (PyFloat.of_Z 100) = S754_finite s m' e' /\
    Z.log2 (Zpos m') = 52 /\
    e - 7 <= e' <= e - 5.
Proof.
  intros Hm He.
  pose proof (Z.log2_spec (Zpos m) ltac:(lia)) as [Hlo Hhi]. rewrite Hm in Hlo, Hhi.
  change (PyFloat.of_Z 100) with (S754_finite false 7036874417766400 (-46)).
  unfold PyFloat.div, SFdiv, SFdiv_core_binary, Zdigits2.
  rewrite !digits2_log2, Hm. change (Z.log2 7036874417766400) with 52.
  unfold fexp, emin, PyFloat.prec, PyFloat.emax.
  replace (Z.min (Z.max (52 + 1 + e - (52 + 1 + -46) - 53) (3 - 1024 - 53)) (e - -46))
    with (e - 7) by lia.
  replace (e - -46 - (e - 7)) with 53 by lia.
  rewrite Z.shiftl_mul_pow2 by lia.
  destruct (Z.div_eucl (Zpos m * 2 ^ 53) 7036874417766400) as [q r] eqn:Ediv.
  assert (Hq : q = Zpos m * 2 ^ 53 / 7036874417766400)
    by (unfold Z.div; now rewrite Ediv).
  assert (Hqb : 2 ^ 52 <= q < 2 ^ 54).
  { rewrite Hq. change (2 ^ 52) with 4503599627370496 in *.
    change (2 ^ 53) with 9007199254740992 in *.
    change (Z.succ 52) with 53 in *. change (2 ^ 53) with 9007199254740992 in *.
    change (2 ^ 54) with 18014398509481984. split.
    - apply Z.div_le_lower_bound; lia.
    - apply Z.div_lt_upper_bound; lia. }
  destruct q as [|q|q]; try lia.
  assert (Hl : 52 <= Z.log2 (Zpos q) <= 53).
  { split.
    - apply Z.log2_le_pow2; lia.
    - assert (Z.log2 (Zpos q) < 54) by (apply Z.log2_lt_pow2; lia). lia. }
  destruct (binary_round_aux_finite (xorb s false) q (e - 7)
              (new_location 7036874417766400 r))
    as (m' & e' & -> & ? & ? & Hn); try lia.
  rewrite xorb_false_r. exists m', e'. split; [reflexivity|]. lia.
Qed.

(** The product of two normal doubles of moderate size is finite. *)
Lemma mul_normal (s1 s2 : bool) (m1 m2 : positive) (e1 e2 : Z) :
  Z.log2 (Zpos m1) = 52 -> Z.log2 (Zpos m2) = 52 ->
  -1074 <= e1 + e2 <= 917 ->
  exists m e,
    PyFloat.mul (S754_finite s1 m1 e1) (S754_finite s2 m2 e2)
    = S754_finite (xorb s1 s2) m e.
Proof.
  intros H1 H2 He. unfold PyFloat.mul, SFmul.
  assert (Hlog : 104 <= Z.log2 (Zpos (m1 * m2)) <= 105).
  { rewrite Pos2Z.inj_mul.
    pose proof (Z.log2_mul_below (Zpos m1) (Zpos m2) ltac:(lia) ltac:(lia)).
    pose proof (Z.log2_mul_above (Zpos m1) (Zpos m2) ltac:(lia) ltac:(lia)). lia. }
  destruct (binary_round_aux_finite (xorb s1 s2) (m1 * m2) (e1 + e2) loc_Exact)
    as (m & e & E & _); try lia.
  exists m, e. exact E.
Qed.

(** The ceiling of a positive double is at least 1. *)
Lemma ceil_positive m e :
  exists c, PyFloat.ceil (S754_finite false m e) = Ok c /\ 1 <= c.
Proof.
  eexists. split; [reflexivity|]. simpl cond_Zopp.
  destruct (Z_le_gt_dec 0 e) as [He|He].
  - rewrite Z.shiftl_mul_pow2 by lia.
    assert (0 < 2 ^ e) by (apply Z.pow_pos_nonneg; lia). nia.
  - rewrite <- (Z.opp_involutive e), Z.shiftl_opp_r, Z.shiftr_div_pow2 by lia.
    assert (0 < 2 ^ (- e)) by (apply Z.pow_pos_nonneg; lia).
    assert (- Zpos m / 2 ^ (- e) < 0) by (apply Z.div_lt_upper_bound; lia).
    lia.
Qed.

(** For a list of a length that Python allows and a moderate percentage
    the count [ceil(n * (percent / 100.0))] is defined; it is at least 1
    when the percentage is positive. *)
Lemma ceil_share_defined (n : nat) (percent : PyFloat.float) :
  (1 <= n)%nat -> Z.of_nat n < 2 ^ 63 ->
  PyFloat.moderate percent = true ->
  exists c, generate_folddisco_input.ceil_share n percent = Ok c /\
            (forall m e, percent = S754_finite false m e -> 1 <= c).
Proof.
  intros Hn Hbig Hmod.
  unfold generate_folddisco_input.ceil_share, PyFloat.of_int.
  destruct (Z.of_nat n) as [|p|p] eqn:E; try lia.
  assert (Hlog : Z.log2 (Zpos p) <= 62).
  { assert (Z.log2 (Zpos p) < 63) by (apply Z.log2_lt_pow2; lia). lia. }
  destruct (of_Z_positive p) as (mn & en & -> & Hmn & Hen); [lia|].
  cbv beta iota delta [mbind outcome_bind].
  destruct percent as [s| | |s m e]; try discriminate.
  - exists 0. split; [reflexivity|]. discriminate.
  - unfold PyFloat.moderate in Hmod.
    apply andb_prop in Hmod as [Hmod Hhi]. apply andb_prop in Hmod as [Hm Hlo].
    apply Z.eqb_eq in Hm. apply Z.leb_le in Hlo, Hhi.
    destruct (div_hundred_normal s m e Hm) as (m' & e' & -> & Hm' & He'); [lia|].
    destruct (mul_normal false s mn m' en e' Hmn Hm') as (m'' & e'' & ->); [lia|].
    simpl xorb. destruct s.
    + eexists. split; [reflexivity|]. discriminate.
    + destruct (ceil_positive m'' e'') as (c & -> & Hc). eauto.
Qed.

End Binary64.

(** ** Residue selection *)

Section SelectIndices.

Import PyStr PyList generate_folddisco_input.

Lemma enumerate_length {A} start (l : list A) :
  List.length (enumerate start l) = List.length l.
Proof. revert start. induction l; simpl; intros; auto. Qed.

Lemma enumerate_fst_bounds {A} (l : list A) :
  forall start i, In i (map fst (enumerate start l)) ->
                  start <= i < start + Z.of_nat (List.length l).
Proof.
  induction l as [|x l IH]; simpl; intros start i; [tauto|].
  intros [<-|H]; [lia|]. apply IH in H. lia.
Qed.

Lemma enumerate_fst_NoDup {A} (l : list A) :
  forall start, List.NoDup (map fst (enumerate start l)).
Proof.
  induction l as [|x l IH]; simpl; intros start; constructor; auto.
  intros H. apply enumerate_fst_bounds in H. lia.
Qed.

Lemma insert_desc_perm {A} (x : A * PyFloat.float) l :
  Permutation (insert_desc x l) (x :: l).
Proof.
  induction l as [|y l IH]; simpl; [reflexivity|].
  destruct (PyFloat.ltb (snd x) (snd y)); [|reflexivity].
  rewrite IH. apply perm_swap.
Qed.

Lemma sort_desc_perm {A} (l : list (A * PyFloat.float)) :
  Permutation (sort_desc l) l.
Proof.
  induction l as [|x l IH]; simpl; [reflexivity|].
  rewrite insert_desc_perm. now constructor.
Qed.

Lemma slice_to_length {A} k (l : list A) :
  Z.of_nat (List.length (slice_to k l)) =
  if k <? 0 then Z.max 0 (Z.of_nat (List.length l) + k)
  else Z.min (Z.of_nat (List.length l)) k.
Proof.
  unfold slice_to. destruct (k <? 0) eqn:E; rewrite List.length_firstn; lia.
Qed.

Lemma firstn_incl {A} n (l : list A) x : In x (firstn n l) -> In x l.
Proof.
  revert l. induction n as [|n IH]; intros [|y l]; simpl; try tauto.
  intros [->|H]; auto.
Qed.

Lemma slice_to_incl {A} k (l : list A) x : In x (slice_to k l) -> In x l.
Proof. unfold slice_to. destruct (k <? 0); apply firstn_incl. Qed.

Lemma firstn_NoDup {A} n (l : list A) : List.NoDup l -> List.NoDup (firstn n l).
Proof.
  intros H. rewrite <- (firstn_skipn n l) in H.
  now apply List.NoDup_app_remove_r in H.
Qed.

Lemma slice_to_map {A B} (f : A -> B) k l :
  map f (slice_to k l) = slice_to k (map f l).
Proof.
  unfold slice_to. rewrite List.length_map.
  destruct (k <? 0); now rewrite firstn_map.
Qed.

Lemma slice_to_NoDup {A} k (l : list A) : List.NoDup l -> List.NoDup (slice_to k l).
Proof. unfold slice_to. destruct (k <? 0); apply firstn_NoDup. Qed.

Lemma indexed_scores_length scores :
  List.length (indexed_scores scores) = List.length scores.
Proof. unfold indexed_scores. now rewrite enumerate_length, List.length_map. Qed.

(** On a non-empty row [select_indices] is the count, then the slice. *)
Lemma select_indices_unfold scores percent min_res :
  scores <> [] ->
  select_indices scores percent min_res =
  (c ← ceil_share (List.length scores) percent;
   Ok (map fst (slice_to (Z.max min_res c) (sort_desc (indexed_scores scores))))).
Proof.
  intros Hne. unfold select_indices.
  pose proof (indexed_scores_length scores) as Hlen.
  destruct (indexed_scores scores) as [|p ps] eqn:E.
  - destruct scores; [contradiction|discriminate].
  - rewrite <- E.
    now rewrite (Permutation_length (sort_desc_perm (indexed_scores scores))), E, Hlen.
Qed.

Lemma sorted_indices_perm scores :
  Permutation (map fst (sort_desc (indexed_scores scores)))
              (map fst (indexed_scores scores)).
Proof. apply Permutation_map, sort_desc_perm. Qed.

Lemma selected_NoDup scores k :
  List.NoDup (map fst (slice_to k (sort_desc (indexed_scores scores)))).
Proof.
  rewrite slice_to_map. apply slice_to_NoDup.
  eapply Permutation_NoDup; [symmetry; apply sorted_indices_perm|].
  apply enumerate_fst_NoDup.
Qed.

Lemma selected_bounds scores k i :
  In i (map fst (slice_to k (sort_desc (indexed_scores scores)))) ->
  1 <= i <= Z.of_nat (List.length scores).
Proof.
  rewrite slice_to_map. intros H. apply slice_to_incl in H.
  eapply Permutation_in in H; [|apply sorted_indices_perm].
  apply enumerate_fst_bounds in H. rewrite List.length_map in H. lia.
Qed.

Lemma selected_length scores k :
  Z.of_nat (List.length (map fst (slice_to k (sort_desc (indexed_scores scores))))) =
  if k <? 0 then Z.max 0 (Z.of_nat (List.length scores) + k)
  else Z.min (Z.of_nat (List.length scores)) k.
Proof.
  rewrite List.length_map, slice_to_length.
  now rewrite (Permutation_length (sort_desc_perm _)), indexed_scores_length.
Qed.

(** The count is computed in double precision: [7 / 100.0] lies just above
    0.07, so [100 * (7 / 100.0)] lies just above 7 and its ceiling is 8. *)
Example ceil_share_rounds_up : ceil_share 100 (PyFloat.of_Z 7) = Ok 8.
Proof. reflexivity. Qed.

(** C1, as the code has it. For a score row of length [N >= 1], whenever
    the count [c = ceil(N * (percent / 100.0))] is defined, as it is for
    every percentage of moderate size, [select_indices] returns a list of
    indices that all lie in [1, N]; when [k = max(min_residues, c)] is
    not negative, as it is for every [min_residues >= 0], the list has
    [min(N, k)] indices, not [k] of them. *)
Theorem select_indices_count (scores : list PyFloat.float) (percent : PyFloat.float)
        (min_res : Z) :
  scores <> [] ->
  (Z.of_nat (List.length scores) < 2 ^ 63 -> PyFloat.moderate percent = true ->
   exists c, ceil_share (List.length scores) percent = Ok c) /\
  (forall c,
      ceil_share (List.length scores) percent = Ok c ->
      exists sel,
        select_indices scores percent min_res = Ok sel /\
        (0 <= Z.max min_res c ->
         Z.of_nat (List.length sel)
         = Z.min (Z.of_nat (List.length scores)) (Z.max min_res c)) /\
        (forall i, In i sel -> 1 <= i <= Z.of_nat (List.length scores))).
Proof.
  intros Hne. split.
  - intros Hlen Hmod.
    destruct (ceil_share_defined (List.length scores) percent) as (c & Hc & _);
      [destruct scores; [contradiction|simpl; lia]|assumption|assumption|].
    eauto.
  - intros c Hc. rewrite select_indices_unfold, Hc by assumption.
    eexists. split; [reflexivity|]. split.
    + intros Hk. rewrite selected_length.
      destruct (Z.ltb_spec (Z.max min_res c) 0); lia.
    + intros i. apply selected_bounds.
Qed.

Lemma select_indices_count_witness :
  [PyFloat.of_Z 5; PyFloat.of_Z 9; PyFloat.of_Z 7] <> [] /\
  PyFloat.moderate (PyFloat.of_Z 50) = true /\
  ceil_share 3 (PyFloat.of_Z 50) = Ok 2 /\
  exists sel,
    select_indices [PyFloat.of_Z 5; PyFloat.of_Z 9; PyFloat.of_Z 7] (PyFloat.of_Z 50) 1
    = Ok sel /\
    (0 <= Z.max 1 2 -> Z.of_nat (List.length sel) = Z.min 3 (Z.max 1 2)) /\
    (forall i, In i sel -> 1 <= i <= 3).
Proof.
  split; [discriminate|]. split; [reflexivity|]. split; [reflexivity|].
  apply (select_indices_count
           [PyFloat.of_Z 5; PyFloat.of_Z 9; PyFloat.of_Z 7] (PyFloat.of_Z 50) 1);
    [discriminate|reflexivity].
Defined.

(** C1 fails as stated: on the one-score row [[5.0]] with [percent = 50]
    and [min_residues = 2] the code returns the single index 1, although
    [max(2, ceil(1 * 0.5)) = 2]. *)
Lemma select_indices_count_counterexample :
  select_indices [PyFloat.of_Z 5] (PyFloat.of_Z 50) 2 = Ok [1] /\
  ceil_share 1 (PyFloat.of_Z 50) = Ok 1 /\
  Z.of_nat (List.length [1]) <> Z.max 2 1.
Proof. split; [reflexivity|]. split; [reflexivity|]. discriminate. Qed.

(** C9, as the code has it. For a score row of length [N >= 1], whenever
    the count [c = ceil(N * (percent / 100.0))] is defined, as it is for
    every percentage of moderate size, [select_indices] returns
    pairwise-distinct indices, at most [N] of them; when
    [k = max(min_residues, c)] is not negative there are [min(N, k)]; and
    when [min_residues] exceeds [N], exactly [N] indices are returned
    rather than [min_residues]. *)
Theorem select_indices_distinct_capped (scores : list PyFloat.float)
        (percent : PyFloat.float) (min_res : Z) :
  scores <> [] ->
  let N := Z.of_nat (List.length scores) in
  (N < 2 ^ 63 -> PyFloat.moderate percent = true ->
   exists c, ceil_share (List.length scores) percent = Ok c) /\
  (forall c,
      ceil_share (List.length scores) percent = Ok c ->
      exists sel,
        select_indices scores percent min_res = Ok sel /\
        List.NoDup sel /\
        Z.of_nat (List.length sel) <= N /\
        (0 <= Z.max min_res c ->
         Z.of_nat (List.length sel) = Z.min N (Z.max min_res c)) /\
        (N < min_res -> Z.of_nat (List.length sel) = N)).
Proof.
  intros Hne N. subst N. split.
  - intros Hlen Hmod.
    destruct (ceil_share_defined (List.length scores) percent) as (c & Hc & _);
      [destruct scores; [contradiction|simpl; lia]|assumption|assumption|].
    eauto.
  - intros c Hc. rewrite select_indices_unfold, Hc by assumption.
    eexists. split; [reflexivity|]. split; [apply selected_NoDup|].
    rewrite selected_length.
    destruct (Z.ltb_spec (Z.max min_res c) 0); repeat split; intros; lia.
Qed.

Lemma select_indices_distinct_capped_witness :
  [PyFloat.of_Z 5; PyFloat.of_Z 9] <> [] /\
  PyFloat.moderate (PyFloat.of_Z 50) = true /\
  ceil_share 2 (PyFloat.of_Z 50) = Ok 1 /\
  exists sel,
    select_indices [PyFloat.of_Z 5; PyFloat.of_Z 9] (PyFloat.of_Z 50) 3 = Ok sel /\
    List.NoDup sel /\
    Z.of_nat (List.length sel) <= 2 /\
    (0 <= Z.max 3 1 -> Z.of_nat (List.length sel) = Z.min 2 (Z.max 3 1)) /\
    (2 < 3 -> Z.of_nat (List.length sel) = 2).
Proof.
  split; [discriminate|]. split; [reflexivity|]. split; [reflexivity|].
  apply (select_indices_distinct_capped
           [PyFloat.of_Z 5; PyFloat.of_Z 9] (PyFloat.of_Z 50) 3);
    [discriminate|reflexivity].
Defined.

(** C9 fails as stated when [k] is negative: on the scores [[5.0, 6.0,
    7.0]] with [percent = -50] and [min_residues = -5] the count is
    [ceil(-1.5) = -1], the slice [indexed[:-1]] keeps two indices, and
    [min(3, max(-5, -1)) = -1]. *)
Lemma select_indices_distinct_capped_counterexample :
  select_indices [PyFloat.of_Z 5; PyFloat.of_Z 6; PyFloat.of_Z 7] (PyFloat.of_Z (-50)) (-5)
  = Ok [3; 2] /\
  ceil_share 3 (PyFloat.of_Z (-50)) = Ok (-1) /\
  Z.of_nat (List.length [3; 2]) <> Z.min 3 (Z.max (-5) (-1)).
Proof. split; [reflexivity|]. split; [reflexivity|]. discriminate. Qed.

End SelectIndices.

(** ** ID clean-up *)

Section CleanupId.

Import PyStr combine_motif_outputs.

Lemma substring_all s : String.substring 0 (String.length s) s = s.
Proof. induction s as [|c s IH]; simpl; congruence. Qed.

Lemma substring_split n s :
  (n <= String.length s)%nat ->
  String.substring 0 n s +:+ String.substring n (String.length s - n) s = s.
Proof.
  revert s. induction n as [|n IH]; intros s Hn.
  - rewrite Nat.sub_0_r, substring_all. now destruct s.
  - destruct s as [|c s]; simpl in *; [lia|].
    change (String c ?a +:+ ?b) with (String c (a +:+ b)).
    rewrite IH by lia. reflexivity.
Qed.

(** A string that ends with [_] is its [s[:-1]] followed by [_]. *)
Lemma endswith_underscore s :
  endswith s "_" = true -> s = drop_last 1 s +:+ "_".
Proof.
  unfold endswith, drop_last. simpl String.length.
  intros H. apply andb_prop in H as [Hlen Heq].
  apply Nat.leb_le in Hlen. apply String.eqb_eq in Heq.
  pose proof (substring_split (String.length s - 1) s ltac:(lia)) as E.
  replace (String.length s - (String.length s - 1))%nat with 1%nat in E by lia.
  rewrite Heq in E. now symmetry.
Qed.

Lemma strip_exts_pass_clean x :
  Forall (fun ext => endswith (lower x) ext = false) STRUCT_EXTS ->
  strip_exts_pass x = (x, true).
Proof.
  unfold STRUCT_EXTS, strip_exts_pass. intros H.
  repeat match goal with
         | H : Forall _ (_ :: _) |- _ => apply Forall_cons_1 in H as [? H]
         end.
  simpl. repeat match goal with E : endswith _ _ = false |- _ => rewrite E; clear E end.
  reflexivity.
Qed.

(** Without a structure-file extension at its end, a name passes the
    extension loop unchanged. *)
Lemma strip_exts_clean x :
  Forall (fun ext => endswith (lower x) ext = false) STRUCT_EXTS ->
  strip_exts x = x.
Proof.
  intros H. apply strip_exts_pass_clean in H.
  funelim (strip_exts x); congruence.
Qed.

Lemma normalize_id_clean x lower_flag :
  strip x = x ->
  contains "/" x = false ->
  Forall (fun ext => endswith (lower x) ext = false) STRUCT_EXTS ->
  (lower_flag = true -> lower x = x) ->
  normalize_id x lower_flag = x.
Proof.
  intros Hs Hc He Hl. unfold normalize_id. rewrite Hs, Hc, strip_exts_clean by assumption.
  destruct lower_flag; auto.
Qed.

(** An ID without leading or trailing whitespace that contains no [/],
    ends with no structure extension, has the right case and is a member
    of the lookup set comes back from [cleanup_id] unchanged. *)
Lemma cleanup_id_stripped_fixed (x : string) (lower_flag : bool) (valid : gset string) :
  strip x = x ->
  contains "/" x = false ->
  Forall (fun ext => endswith (lower x) ext = false) STRUCT_EXTS ->
  (lower_flag = true -> lower x = x) ->
  x ∈ valid ->
  cleanup_id x lower_flag (Some valid) = Some x.
Proof.
  intros Hs Hc He Hl Hin.
  unfold cleanup_id. rewrite normalize_id_clean by assumption.
  now rewrite bool_decide_eq_true_2.
Qed.

Lemma lstrip_head s c r : lstrip s = String c r -> isspace c = false.
Proof.
  induction s as [|d s IH]; simpl; [discriminate|].
  destruct (isspace d) eqn:E; [exact IH|]. intros [= <- <-]. exact E.
Qed.

Lemma rstrip_head c r : isspace c = false -> rstrip (String c r) = String c (rstrip r).
Proof. intros E. simpl. rewrite E. now destruct (rstrip r). Qed.

Lemma rstrip_idempotent s : rstrip (rstrip s) = rstrip s.
Proof.
  induction s as [|c s IH]; simpl; [reflexivity|].
  destruct (rstrip s) as [|d r] eqn:E.
  - destruct (isspace c) eqn:Ec; simpl; [reflexivity|now rewrite Ec].
  - simpl in *. now rewrite IH.
Qed.

(** [strip] returns a string that it leaves alone. *)
Lemma strip_idempotent s : strip (strip s) = strip s.
Proof.
  unfold strip. destruct (lstrip s) as [|c r] eqn:E; [reflexivity|].
  pose proof (lstrip_head s c r E) as Hc.
  rewrite (rstrip_head c r Hc). simpl lstrip. rewrite Hc.
  rewrite (rstrip_head c _ Hc). now rewrite rstrip_idempotent.
Qed.

(** The IDs that [load_lookup] collects have no surrounding whitespace. *)
Lemma load_lookup_stripped lines x : x ∈ load_lookup lines -> strip x = x.
Proof.
  unfold load_lookup.
  assert (H : forall acc : gset string,
             (forall y, y ∈ acc -> strip y = y) ->
             x ∈ fold_left
                   (fun valid line =>
                      if String.eqb (strip line) "" || startswith line "#" then valid
                      else
                        let first := strip (List.hd "" (split "009" line)) in
                        if String.eqb first "" then valid else valid ∪ {[ first ]})
                   lines acc ->
             strip x = x).
  { induction lines as [|line lines IH]; simpl; intros acc Hacc; [apply Hacc|].
    apply IH.
    destruct (String.eqb (strip line) "" || startswith line "#"); [exact Hacc|].
    destruct (String.eqb (strip (List.hd "" (split "009" line))) ""); [exact Hacc|].
    intros y Hy. apply elem_of_union in Hy as [Hy|Hy]; [now apply Hacc|].
    apply elem_of_singleton in Hy. subst y. apply strip_idempotent. }
  apply H. intros y Hy. now apply elem_of_empty in Hy.
Qed.

(** C4. The lookup set of [cleanup_id] is the one that [load_lookup]
    reads from the lookup file, and its members carry no surrounding
    whitespace. So an ID that contains no [/], does not end
    (case-insensitively) with one of the extensions [.pdb], [.cif],
    [.ent], [.gz], is already lowercase when lowercasing is enabled, and
    is a member of the lookup set, comes back from [cleanup_id]
    unchanged; hence cleaning it twice equals cleaning it once. *)
Theorem cleanup_id_fixed_on_lookup_file (lines : list string) (x : string) (lower_flag : bool) :
  contains "/" x = false ->
  Forall (fun ext => endswith (lower x) ext = false) STRUCT_EXTS ->
  (lower_flag = true -> lower x = x) ->
  x ∈ load_lookup lines ->
  cleanup_id x lower_flag (Some (load_lookup lines)) = Some x /\
  (cleanup_id x lower_flag (Some (load_lookup lines))
     ≫= fun y => cleanup_id y lower_flag (Some (load_lookup lines)))
  = cleanup_id x lower_flag (Some (load_lookup lines)).
Proof.
  intros Hc He Hl Hin.
  pose proof (cleanup_id_stripped_fixed x lower_flag (load_lookup lines)
                (load_lookup_stripped lines x Hin) Hc He Hl Hin) as E.
  split; [exact E|]. rewrite E. simpl. exact E.
Qed.

Lemma cleanup_id_fixed_on_lookup_file_witness :
  let lines := ["# SCOP lookup"; Samples.hit "d1abc_" "a.1.1.1"; Samples.hit "d1xyz_" "b.2.1.1"] in
  contains "/" "d1xyz_" = false /\
  Forall (fun ext => endswith (lower "d1xyz_") ext = false) STRUCT_EXTS /\
  (true = true -> lower "d1xyz_" = "d1xyz_") /\
  "d1xyz_" ∈ load_lookup lines /\
  cleanup_id "d1xyz_" true (Some (load_lookup lines)) = Some "d1xyz_" /\
  (cleanup_id "d1xyz_" true (Some (load_lookup lines))
     ≫= fun y => cleanup_id y true (Some (load_lookup lines)))
  = cleanup_id "d1xyz_" true (Some (load_lookup lines)).
Proof.
  intros lines.
  assert (H2 : contains "/" "d1xyz_" = false) by reflexivity.
  assert (H3 : Forall (fun ext => endswith (lower "d1xyz_") ext = false) STRUCT_EXTS)
    by (repeat constructor).
  assert (H4 : true = true -> lower "d1xyz_" = "d1xyz_") by reflexivity.
  assert (H5 : "d1xyz_" ∈ load_lookup lines).
  { change (load_lookup lines) with ((∅ ∪ {[ "d1abc_" ]}) ∪ {[ "d1xyz_" ]} : gset string).
    apply elem_of_union_r, elem_of_singleton_2. reflexivity. }
  repeat (split; [assumption|]).
  exact (cleanup_id_fixed_on_lookup_file lines "d1xyz_" true H2 H3 H4 H5).
Defined.

End CleanupId.

(** ** The combiner loop *)

Section CombinerRun.

Import PyStr combine_motif_outputs.

Context {F : Type}.
Variable float_of_string : string -> option F.

Local Abbreviation process_pair := (process_pair float_of_string).
Local Abbreviation process_lines := (process_lines float_of_string).
Local Abbreviation process_files := (process_files float_of_string).
Local Abbreviation main := (main float_of_string).
Local Abbreviation contribution := (contribution float_of_string).

(** What one yielded pair does to the lookup set and to the output. *)
Lemma process_pair_effect a q target_raw score_txt (st : run_state) :
  lookup (process_pair a q target_raw score_txt st) = lookup st /\
  written (process_pair a q target_raw score_txt st)
  = written st ++ contribution a (lookup st) q target_raw score_txt.
Proof.
  unfold combine_motif_outputs.process_pair, combine_motif_outputs.contribution,
    combine_motif_outputs.emit. simpl.
  destruct (cleanup_id target_raw (negb (no_lower a)) (lookup st)) as [t|]; simpl.
  - destruct (negb (keep_selfhits a) && String.eqb q t); simpl;
      [now rewrite app_nil_r|].
    destruct (float_of_string score_txt); simpl; [|now rewrite app_nil_r].
    destruct (dry_run a); simpl; [now rewrite app_nil_r|auto].
  - destruct (bool_decide (is_Some (lookup st)) && negb (keep_nonlookup a)); simpl;
      [now rewrite app_nil_r|].
    destruct (negb (keep_selfhits a) && String.eqb q _); simpl;
      [now rewrite app_nil_r|].
    destruct (float_of_string score_txt); simpl; [|now rewrite app_nil_r].
    destruct (dry_run a); simpl; [now rewrite app_nil_r|auto].
Qed.

(** The inner loop only appends to the output and keeps the lookup set. *)
Lemma process_lines_effect a q lines :
  forall st : run_state,
    lookup (process_lines a q lines st).1 = lookup st /\
    exists more, written (process_lines a q lines st).1 = written st ++ more /\
                 Forall (fun r => exists t s, In r (contribution a (lookup st) q t s)) more.
Proof.
  induction lines as [|line lines IH]; intros st; simpl.
  - split; [reflexivity|]. exists []. now rewrite app_nil_r.
  - destruct (motif_line _ _ _ _ line) as [[[t s]|]|e|m]; simpl.
    + destruct (IH (process_pair a q t s st)) as (Hl & more & Hw & Hall).
      destruct (process_pair_effect a q t s st) as [Hl' Hw'].
      rewrite Hl, Hl'. split; [reflexivity|].
      exists (contribution a (lookup st) q t s ++ more).
      rewrite Hw, Hw', <- app_assoc. split; [reflexivity|].
      apply Forall_app. split.
      * apply List.Forall_forall. intros r Hr. eauto.
      * rewrite Hl' in Hall. exact Hall.
    + apply IH.
    + split; [reflexivity|]. exists []. now rewrite app_nil_r.
    + split; [reflexivity|]. exists []. now rewrite app_nil_r.
Qed.

(** The outer loop, likewise: every record written comes from the loop
    body, for the query ID of some file. *)
Lemma process_files_effect a files :
  forall st : run_state,
    lookup (process_files a files st).1 = lookup st /\
    exists more,
      written (process_files a files st).1 = written st ++ more /\
      Forall (fun r => exists fpath q t s,
                           query_of a (lookup st) fpath = Some q /\
                           In r (contribution a (lookup st) q t s)) more.
Proof.
  induction files as [|[fpath lines] files IH]; intros st; simpl.
  - split; [reflexivity|]. exists []. now rewrite app_nil_r.
  - destruct (query_of a (lookup st) fpath) as [q|] eqn:Hq; [|apply IH].
    destruct (process_lines_effect a q lines st) as (Hl & more & Hw & Hall).
    assert (Hmore : Forall (fun r => exists fpath q t s,
                           query_of a (lookup st) fpath = Some q /\
                           In r (contribution a (lookup st) q t s)) more).
    { eapply Forall_impl; [exact Hall|]. simpl. intros r (t & s & Hr). eauto 6. }
    destruct (process_lines a q lines st) as [st' [[]|e|m]]; simpl in *.
    + destruct (IH st') as (Hl2 & more2 & Hw2 & Hall2).
      rewrite Hl2, Hl. split; [reflexivity|].
      exists (more ++ more2). rewrite Hw2, Hw, <- app_assoc. split; [reflexivity|].
      apply Forall_app. split; [exact Hmore|]. rewrite Hl in Hall2. exact Hall2.
    + split; [exact Hl|]. eauto.
    + split; [exact Hl|]. eauto.
Qed.

Lemma main_effect a found :
  lookup (main a found).1 = option_map load_lookup (scop_lookup a) /\
  Forall (fun r => exists fpath q t s,
              query_of a (option_map load_lookup (scop_lookup a)) fpath = Some q /\
              In r (contribution a (option_map load_lookup (scop_lookup a)) q t s))
         (written (main a found).1).
Proof.
  unfold combine_motif_outputs.main.
  destruct (selected_files a found) as [|f files] eqn:E.
  - split; [reflexivity|constructor].
  - cbv beta iota. generalize (f :: files). intros fs.
    destruct (process_files_effect a fs (initial_state a))
      as (Hl & more & Hw & Hall).
    destruct (process_files a fs (initial_state a)) as [st' [[]|e|m]];
      simpl in *; rewrite Hw; auto.
Qed.

(** C5. Every record that the combiner writes with equal query and target
    IDs (the IDs as normalised, which is how they are compared and
    written) was written under [--keep-selfhits]: without the flag, which is
    the default, no such record is ever written. *)
Theorem self_hit_needs_flag (a : arguments) (found : list (string * list string))
        (r : triplet) :
  In r (written (main a found).1) ->
  query_id r = target_id r ->
  keep_selfhits a = true.
Proof.
  intros Hin Heq.
  destruct (main_effect a found) as [_ Hall].
  rewrite List.Forall_forall in Hall.
  destruct (Hall r Hin) as (fpath & q & t & s & _ & Hr).
  unfold combine_motif_outputs.contribution in Hr.
  destruct (match cleanup_id t _ _ with Some _ => _ | None => _ end) as [t'|];
    [|contradiction].
  destruct (keep_selfhits a); [reflexivity|]. simpl in Hr.
  destruct (String.eqb q t') eqn:E; [contradiction|].
  destruct (float_of_string s); [|contradiction].
  destruct (dry_run a); [contradiction|].
  destruct Hr as [<-|[]]. simpl in Heq. subst t'.
  now rewrite String.eqb_refl in E.
Qed.

(** C6. With a lookup set, an ID that [cleanup_id] returns is a member of
    the set and is the normalised input (stripped of surrounding
    whitespace, of directories and of structure-file extensions,
    lowercased on request) itself, or that with one [_] appended, or that
    with its final [_] removed; when none of these three forms is in the
    set the result is [None]; and the run ends with the lookup set it
    loaded. *)
Theorem cleanup_id_repairs_by_underscore
        (raw : string) (lower_flag : bool) (valid : gset string)
        (a : arguments) (found : list (string * list string)) :
  let x := normalize_id raw lower_flag in
  (forall y, cleanup_id raw lower_flag (Some valid) = Some y ->
             y ∈ valid /\ (y = x \/ y = x +:+ "_" \/ x = y +:+ "_")) /\
  (x ∉ valid -> x +:+ "_" ∉ valid -> (forall y, x = y +:+ "_" -> y ∉ valid) ->
   cleanup_id raw lower_flag (Some valid) = None) /\
  lookup (main a found).1 = option_map load_lookup (scop_lookup a).
Proof.
  intros x. unfold cleanup_id. fold x. repeat split.
  - revert H. repeat case_bool_decide; simpl;
      destruct (endswith x "_") eqn:E; simpl; intros [= <-]; assumption.
  - revert H. repeat case_bool_decide; simpl;
      destruct (endswith x "_") eqn:E; simpl; intros [= <-]; auto.
    all: right; right; now apply endswith_underscore.
  - intros H1 H2 H3. rewrite !bool_decide_eq_false_2 by assumption.
    rewrite andb_false_r. simpl.
    destruct (endswith x "_") eqn:E; simpl; [|reflexivity].
    rewrite bool_decide_eq_false_2; [reflexivity|].
    apply H3. now apply endswith_underscore.
  - apply main_effect.
Qed.

Lemma contribution_non_numeric a lk q t s :
  float_of_string s = None -> contribution a lk q t s = [].
Proof.
  intros H. unfold combine_motif_outputs.contribution. rewrite H.
  destruct (match cleanup_id t _ _ with Some _ => _ | None => _ end); [|reflexivity].
  now destruct (negb (keep_selfhits a) && _).
Qed.

(** Two runs that agree on the lookup set and on the output so far keep
    agreeing when one of them skips the lines with a non-numeric score. *)
Lemma process_lines_without a q lines :
  forall st1 st2 : run_state,
    lookup st1 = lookup st2 -> written st1 = written st2 ->
    let good := List.filter (fun l => negb (non_numeric_score float_of_string a l)) lines in
    lookup (process_lines a q lines st1).1 = lookup (process_lines a q good st2).1 /\
    written (process_lines a q lines st1).1 = written (process_lines a q good st2).1 /\
    (process_lines a q lines st1).2 = (process_lines a q good st2).2.
Proof.
  induction lines as [|line lines IH]; intros st1 st2 Hl Hw; simpl; [auto|].
  unfold non_numeric_score.
  destruct (motif_line _ _ _ _ line) as [[[t s]|]|e|m] eqn:Hm; simpl.
  - destruct (process_pair_effect a q t s st1) as [Hl1 Hw1].
    destruct (process_pair_effect a q t s st2) as [Hl2 Hw2].
    destruct (float_of_string s) eqn:Hs; simpl.
    + rewrite Hm. apply IH; congruence.
    + apply IH; [congruence|].
      rewrite Hw1, (contribution_non_numeric _ _ _ _ _ Hs), app_nil_r. exact Hw.
  - rewrite Hm. now apply IH.
  - rewrite Hm. auto.
  - rewrite Hm. auto.
Qed.

Lemma process_files_without a files :
  forall st1 st2 : run_state,
    lookup st1 = lookup st2 -> written st1 = written st2 ->
    let good := without_non_numeric float_of_string a files in
    written (process_files a files st1).1 = written (process_files a good st2).1 /\
    (process_files a files st1).2 = (process_files a good st2).2.
Proof.
  induction files as [|[fpath lines] files IH]; intros st1 st2 Hl Hw; simpl; [auto|].
  rewrite <- Hl.
  destruct (query_of a (lookup st1) fpath) as [q|]; [|now apply IH].
  destruct (process_lines_without a q lines st1 st2 Hl Hw) as (Hl' & Hw' & Hs').
  cbv zeta in Hl', Hw', Hs'.
  destruct (process_lines a q lines st1) as [st1' r1].
  destruct (process_lines a q (List.filter _ lines) st2) as [st2' r2].
  simpl in *. subst r2. destruct r1 as [[]|e|m]; auto.
Qed.

(** C8. A line whose score field does not parse as a float is skipped:
    the pair it yields leaves the output as it was, and the whole run
    writes the same records and ends with the same status as the run on
    the same files without such lines, so it neither raises nor cuts short
    the lines and files that follow. *)
Theorem non_numeric_score_skipped (a : arguments) (found : list (string * list string)) :
  (forall (st : run_state) q target_raw score_txt,
      float_of_string score_txt = None ->
      written (process_pair a q target_raw score_txt st) = written st) /\
  written (main a found).1
  = written (main a (without_non_numeric float_of_string a found)).1 /\
  (main a found).2 = (main a (without_non_numeric float_of_string a found)).2.
Proof.
  split.
  { intros st q t s H. destruct (process_pair_effect a q t s st) as [_ ->].
    now rewrite contribution_non_numeric, app_nil_r. }
  unfold combine_motif_outputs.main.
  assert (E : selected_files a (without_non_numeric float_of_string a found)
              = without_non_numeric float_of_string a (selected_files a found)).
  { unfold selected_files, without_non_numeric.
    destruct (max_files a) as [n|]; [|reflexivity].
    destruct (n =? 0); [reflexivity|]. symmetry. apply slice_to_map. }
  rewrite E. destruct (selected_files a found) as [|f files]; [auto|].
  cbv beta iota.
  destruct (process_files_without a (f :: files) (initial_state a) (initial_state a)
              eq_refl eq_refl) as [Hw Hs].
  cbv zeta in Hw, Hs.
  assert (Hg : exists g gs,
             without_non_numeric float_of_string a (f :: files) = g :: gs)
    by (destruct f; simpl; eauto).
  destruct Hg as (g & gs & Hg). rewrite Hg in *. cbv beta iota.
  destruct (process_files a (f :: files) (initial_state a)) as [st1 r1].
  destruct (process_files a (g :: gs) (initial_state a)) as [st2 r2].
  simpl in *. subst r2. destruct r1; auto.
Qed.

Lemma index_in_range {A} (l : list A) i :
  0 <= i < Z.of_nat (List.length l) -> exists x, index l i = Ok x.
Proof.
  intros H. unfold index.
  destruct (Z.ltb_spec i 0); [lia|].
  destruct (Z.leb_spec 0 i); [|lia].
  destruct (Z.ltb_spec i (Z.of_nat (List.length l))); [|lia]. simpl.
  destruct (nth_error l (Z.to_nat i)) eqn:E; [eauto|].
  apply nth_error_None in E. lia.
Qed.

(** With column indices that are not negative the generator never
    raises. *)
Lemma motif_line_total tc sc mf ws line :
  0 <= tc -> 0 <= sc -> exists r, motif_line tc sc mf ws line = Ok r.
Proof.
  intros Ht Hs. unfold motif_line.
  destruct (String.eqb _ _ || _); [eauto|].
  match goal with |- context [Z.of_nat (List.length ?p) <? mf] =>
    generalize p; intros parts end.
  destruct (_ <? mf); [eauto|].
  destruct (Z.leb_spec (Z.of_nat (List.length parts)) tc); simpl; [eauto|].
  destruct (Z.leb_spec (Z.of_nat (List.length parts)) sc); simpl; [eauto|].
  destruct (index_in_range parts tc) as [x ->]; [lia|].
  destruct (index_in_range parts sc) as [y ->]; [lia|].
  simpl. eauto.
Qed.

Lemma process_lines_reaches a q line target_raw score_txt lines :
  0 <= target_col a -> 0 <= score_col a ->
  In line lines ->
  motif_line (target_col a) (score_col a) (min_fields a) (whitespace a) line
  = Ok (Some (target_raw, score_txt)) ->
  forall (st : run_state) r,
    In r (contribution a (lookup st) q target_raw score_txt) ->
    In r (written (process_lines a q lines st).1).
Proof.
  intros Ht Hs Hin Hm. induction lines as [|l lines IH]; [contradiction|].
  intros st r Hr. simpl.
  destruct Hin as [->|Hin].
  - rewrite Hm.
    destruct (process_lines_effect a q lines (process_pair a q target_raw score_txt st))
      as (_ & more & -> & _).
    destruct (process_pair_effect a q target_raw score_txt st) as [_ ->].
    apply in_or_app. left. apply in_or_app. now right.
  - destruct (motif_line_total (target_col a) (score_col a) (min_fields a)
                               (whitespace a) l Ht Hs) as [[[t s]|] ->].
    + apply IH; [assumption|].
      destruct (process_pair_effect a q t s st) as [-> _]. exact Hr.
    + now apply IH.
Qed.

Lemma process_lines_status a q lines :
  0 <= target_col a -> 0 <= score_col a ->
  forall st : run_state, (process_lines a q lines st).2 = Ok tt.
Proof.
  intros Ht Hs. induction lines as [|l lines IH]; intros st; simpl; [reflexivity|].
  destruct (motif_line_total (target_col a) (score_col a) (min_fields a)
                             (whitespace a) l Ht Hs) as [[[t s]|] ->]; apply IH.
Qed.

Lemma process_files_reaches a q fpath line target_raw score_txt lines files :
  0 <= target_col a -> 0 <= score_col a ->
  In (fpath, lines) files -> In line lines ->
  motif_line (target_col a) (score_col a) (min_fields a) (whitespace a) line
  = Ok (Some (target_raw, score_txt)) ->
  forall (st : run_state) r,
    query_of a (lookup st) fpath = Some q ->
    In r (contribution a (lookup st) q target_raw score_txt) ->
    In r (written (process_files a files st).1) /\
    (process_files a files st).2 = Ok tt.
Proof.
  intros Ht Hs Hf Hin Hm. induction files as [|[p ls] files IH]; [contradiction|].
  assert (Hstat : forall (fs : list (string * list string)) (st : run_state),
             (process_files a fs st).2 = Ok tt).
  { induction fs as [|[p' ls'] fs IHfs]; intros st; simpl; [reflexivity|].
    destruct (query_of a (lookup st) p'); [|apply IHfs].
    pose proof (process_lines_status a s ls' Ht Hs st) as E.
    destruct (process_lines a s ls' st) as [st' o]. simpl in E. subst o. apply IHfs. }
  intros st r Hq Hr. split; [|apply Hstat]. simpl.
  destruct Hf as [[= -> ->]|Hf].
  - rewrite Hq.
    pose proof (process_lines_reaches a q line target_raw score_txt lines
                  Ht Hs Hin Hm st r Hr) as Hreach.
    pose proof (process_lines_status a q lines Ht Hs st) as E.
    destruct (process_lines a q lines st) as [st' o]. simpl in *. subst o.
    destruct (process_files_effect a files st') as (_ & more & -> & _).
    apply in_or_app. now left.
  - destruct (query_of a (lookup st) p) as [q'|]; [|now apply IH].
    pose proof (process_lines_status a q' ls Ht Hs st) as E.
    destruct (process_lines_effect a q' ls st) as (Hl & _).
    destruct (process_lines a q' ls st) as [st' o]. simpl in *. subst o.
    apply IH; [assumption| |]; rewrite Hl; assumption.
Qed.

(** C10, as the code has it. Without a lookup set, [cleanup_id] never
    returns [None], so no line is dropped because an ID is unresolved:
    outside [--dry-run] and with column indices that are not negative, every
    line of a processed file from which the generator yields a pair (a
    line that is not blank, is no [#] comment, has at least [--min-fields]
    fields and covers both columns) with a numeric score puts its record
    into the output, unless it is a self-hit that is filtered; and the run
    ends with status 0. *)
Theorem no_lookup_no_drop (a : arguments) (found : list (string * list string))
        (fpath line target_raw score_txt : string) (lines : list string) (v : F) :
  scop_lookup a = None ->
  dry_run a = false ->
  0 <= target_col a -> 0 <= score_col a ->
  In (fpath, lines) (selected_files a found) ->
  In line lines ->
  motif_line (target_col a) (score_col a) (min_fields a) (whitespace a) line
  = Ok (Some (target_raw, score_txt)) ->
  float_of_string score_txt = Some v ->
  let q := normalize_id (extract_query_id fpath) (negb (no_lower a)) in
  let t := normalize_id target_raw (negb (no_lower a)) in
  (keep_selfhits a = true \/ q <> t) ->
  (forall raw lower_flag, cleanup_id raw lower_flag None = Some (normalize_id raw lower_flag)) /\
  In {| query_id := q; target_id := t; score := v |} (written (main a found).1) /\
  (main a found).2 = Ok 0.
Proof.
  intros Hlk Hdry Ht Hs Hf Hin Hm Hv q t Hself.
  split; [reflexivity|].
  unfold combine_motif_outputs.main.
  destruct (selected_files a found) as [|f files] eqn:E; [contradiction|].
  cbv beta iota. rewrite <- E in *. clear E.
  destruct (process_files_reaches a q fpath line target_raw score_txt lines
              (selected_files a found) Ht Hs Hf Hin Hm (initial_state a)
              {| query_id := q; target_id := t; score := v |}) as [Hr Hstat].
  - simpl. rewrite Hlk. reflexivity.
  - simpl. rewrite Hlk. unfold combine_motif_outputs.contribution. simpl.
    fold t. rewrite Hv, Hdry.
    destruct Hself as [->|Hne]; simpl; [now left|].
    destruct (String.eqb_spec q t); [contradiction|].
    rewrite andb_false_r. now left.
  - destruct (process_files a (selected_files a found) (initial_state a)) as [st' o].
    simpl in *. subst o. auto.
Qed.

End CombinerRun.

(** ** The combiner on concrete files *)

Section CombinerExamples.

Import PyStr combine_motif_outputs.

Lemma rsplit1_no_sep c s : contains c s = false -> rsplit1 c s = None.
Proof.
  induction s as [|d s IH]; simpl; [reflexivity|].
  intros H. apply orb_false_iff in H as [Hd Hs].
  now rewrite (IH Hs), Ascii.eqb_sym, Hd.
Qed.

Lemma rsplit1_last_sep c s t :
  contains c t = false -> rsplit1 c (s +:+ String c t) = Some (s, t).
Proof.
  intros Ht. induction s as [|d s IH].
  - change (rsplit1 c (String c t) = Some (EmptyString, t)). simpl.
    now rewrite (rsplit1_no_sep c t Ht), Ascii.eqb_refl.
  - change (String d s +:+ String c t) with (String d (s +:+ String c t)).
    simpl. now rewrite IH.
Qed.

(** The file name of a path in any directory. *)
Lemma basename_in_dir dir name :
  contains "/" name = false -> basename (dir +:+ "/" +:+ name) = name.
Proof.
  intros H. unfold basename, rsplit1_last.
  change (dir +:+ "/" +:+ name) with (dir +:+ String "/" name).
  now rewrite rsplit1_last_sep.
Qed.

(** C7. The result file [d1abc__A_motif.out], in any directory, with the
    single line [/p/pdb/d1xyz_.pdb<TAB>3.5] (with or without its line end),
    no lookup set and default flags, produces exactly the output row
    [d1abc__a<TAB>d1xyz_<TAB>3.5]: the query ID is the file name without its
    last [_]-separated segment, lowercased; the target is the file name of
    the path without [.pdb], lowercased; the score is 3.5. *)
Theorem example_combined_row (dir : string) :
  let fpath := dir +:+ "/" +:+ "d1abc__A_motif.out" in
  let line := "/p/pdb/d1xyz_.pdb" +:+ tab +:+ "3.5" in
  let row := "d1abc__a" +:+ tab +:+ "d1xyz_" +:+ tab +:+ "3.5" +:+ nl in
  extract_query_id fpath = "d1abc__A" /\
  cleanup_id (extract_query_id fpath) true None = Some "d1abc__a" /\
  cleanup_id "/p/pdb/d1xyz_.pdb" true None = Some "d1xyz_" /\
  option_map PyFloat.repr (PyFloat.of_string "3.5") = Some "3.5" /\
  output_text PyFloat.of_string PyFloat.repr defaults [(fpath, [line])] = Some [row] /\
  output_text PyFloat.of_string PyFloat.repr defaults [(fpath, [line +:+ nl])] = Some [row] /\
  output_text PyFloat.of_string PyFloat.repr defaults [("d1abc__A_motif.out", [line])]
  = Some [row].
Proof.
  intros fpath line row.
  assert (Hq : extract_query_id fpath = "d1abc__A").
  { unfold extract_query_id, fpath. now rewrite basename_in_dir. }
  split; [exact Hq|]. split; [now rewrite Hq|]. split; [reflexivity|].
  split; [reflexivity|].
  unfold output_text, main, selected_files, process_files, query_of.
  cbn [max_files defaults dry_run add_header no_lower negb lookup initial_state
       scop_lookup option_map fst snd].
  rewrite Hq. repeat split; vm_compute; reflexivity.
Qed.

End CombinerExamples.

(** ** Merging the chains of one structure *)

Section MergedMode.

Import PyStr PyList generate_folddisco_input.

Variable path_join : string -> string -> string.
Variable path_exists : string -> bool.
Variable path_glob : string -> string -> list string.

Local Abbreviation main := (main path_join path_exists path_glob).
Local Abbreviation resolve_pdb_path := (resolve_pdb_path path_join path_exists path_glob).



End MergedMode.

(** ** The properties on sample inputs *)

Section SampleRuns.

Import PyStr Samples.

Lemma collapse_ranges_lossless_witness :
  exists r,
    MotifToken.expand_tokens "A"
      (generate_folddisco_input.collapse_ranges "A" [5; 3; 4; 9; 3]) = Some r /\
    StronglySorted Z.lt r /\
    (forall x, In x r <-> In x [5; 3; 4; 9; 3]).
Proof. exact (collapse_ranges_lossless "A" [5; 3; 4; 9; 3]). Defined.



Lemma self_hit_needs_flag_witness :
  let found := [("out/d1abc__motif.out", [hit "/pdb/d1abc_.pdb" "1.5"])] in
  let r := {| combine_motif_outputs.query_id := "d1abc_";
              combine_motif_outputs.target_id := "d1abc_";
              combine_motif_outputs.score := PyFloat.of_decimal false 15 (-1) |} in
  In r (combine_motif_outputs.written
          (combine_motif_outputs.main PyFloat.of_string keep_selfhits_args found).1) /\
  combine_motif_outputs.query_id r = combine_motif_outputs.target_id r /\
  combine_motif_outputs.keep_selfhits keep_selfhits_args = true.
Proof.
  intros found r.
  assert (H1 : In r (combine_motif_outputs.written
                       (combine_motif_outputs.main PyFloat.of_string
                          keep_selfhits_args found).1))
    by (vm_compute; left; reflexivity).
  assert (H2 : combine_motif_outputs.query_id r = combine_motif_outputs.target_id r)
    by reflexivity.
  split; [exact H1|]. split; [exact H2|].
  exact (self_hit_needs_flag PyFloat.of_string keep_selfhits_args found r H1 H2).
Defined.

Lemma cleanup_id_repairs_by_underscore_witness :
  let valid : gset string := {[ "d1abc_" ]} in
  let x := combine_motif_outputs.normalize_id "/pdb/D1ABC.pdb" true in
  (forall y, combine_motif_outputs.cleanup_id "/pdb/D1ABC.pdb" true (Some valid) = Some y ->
             y ∈ valid /\ (y = x \/ y = x +:+ "_" \/ x = y +:+ "_")) /\
  (x ∉ valid -> x +:+ "_" ∉ valid -> (forall y, x = y +:+ "_" -> y ∉ valid) ->
   combine_motif_outputs.cleanup_id "/pdb/D1ABC.pdb" true (Some valid) = None) /\
  combine_motif_outputs.lookup
    (combine_motif_outputs.main PyFloat.of_string combine_motif_outputs.defaults
       [("d1abc__motif.out", [hit "/pdb/d1xyz_.pdb" "1.5"])]).1
  = option_map combine_motif_outputs.load_lookup
      (combine_motif_outputs.scop_lookup combine_motif_outputs.defaults).
Proof.
  exact (cleanup_id_repairs_by_underscore PyFloat.of_string "/pdb/D1ABC.pdb" true
           {[ "d1abc_" ]} combine_motif_outputs.defaults
           [("d1abc__motif.out", [hit "/pdb/d1xyz_.pdb" "1.5"])]).
Defined.

Lemma non_numeric_score_skipped_witness :
  let found := [("d1abc__A_motif.out",
                 [hit "/p/pdb/d1xyz_.pdb" "n/a"; hit "/p/pdb/d1uvw_.pdb" "3.5"])] in
  combine_motif_outputs.non_numeric_score PyFloat.of_string combine_motif_outputs.defaults
    (hit "/p/pdb/d1xyz_.pdb" "n/a") = true /\
  combine_motif_outputs.written
    (combine_motif_outputs.main PyFloat.of_string combine_motif_outputs.defaults found).1
  = combine_motif_outputs.written
      (combine_motif_outputs.main PyFloat.of_string combine_motif_outputs.defaults
         (combine_motif_outputs.without_non_numeric PyFloat.of_string
            combine_motif_outputs.defaults found)).1 /\
  (combine_motif_outputs.main PyFloat.of_string combine_motif_outputs.defaults found).2
  = Ok 0.
Proof.
  intros found. split; [reflexivity|].
  destruct (non_numeric_score_skipped PyFloat.of_string combine_motif_outputs.defaults found)
    as (_ & Hw & Hs).
  split; [exact Hw|]. rewrite Hs. reflexivity.
Defined.

Lemma no_lookup_no_drop_witness :
  let a := combine_motif_outputs.defaults in
  let line := hit "/p/pdb/d1xyz_.pdb" "3.5" in
  let found := [("d1abc__A_motif.out", [line])] in
  combine_motif_outputs.scop_lookup a = None /\
  combine_motif_outputs.dry_run a = false /\
  combine_motif_outputs.motif_line 0 1 2 false line = Ok (Some ("/p/pdb/d1xyz_.pdb", "3.5")) /\
  PyFloat.of_string "3.5" = Some (PyFloat.of_decimal false 35 (-1)) /\
  In {| combine_motif_outputs.query_id := "d1abc__a";
        combine_motif_outputs.target_id := "d1xyz_";
        combine_motif_outputs.score := PyFloat.of_decimal false 35 (-1) |}
     (combine_motif_outputs.written
        (combine_motif_outputs.main PyFloat.of_string a found).1) /\
  (combine_motif_outputs.main PyFloat.of_string a found).2 = Ok 0.
Proof.
  intros a line found.
  split; [reflexivity|]. split; [reflexivity|]. split; [reflexivity|].
  split; [reflexivity|].
  refine (proj2 (no_lookup_no_drop PyFloat.of_string a found "d1abc__A_motif.out" line
                   "/p/pdb/d1xyz_.pdb" "3.5" [line] (PyFloat.of_decimal false 35 (-1))
                   eq_refl eq_refl _ _ _ _ eq_refl eq_refl _)).
  - simpl. lia.
  - simpl. lia.
  - left. reflexivity.
  - left. reflexivity.
  - right. vm_compute. discriminate.
Defined.

(** C10 fails as stated on a comment line: [#d1xyz_<TAB>3.5] has two
    fields, both columns and a numeric score, its target differs from the
    query, and yet the generator passes it over and nothing is written. *)
Lemma no_lookup_no_drop_counterexample :
  let a := combine_motif_outputs.defaults in
  let line := hit "#d1xyz_" "3.5" in
  let found := [("d1abc__A_motif.out", [line])] in
  split "009" (strip line) = ["#d1xyz_"; "3.5"] /\
  PyFloat.of_string "3.5" = Some (PyFloat.of_decimal false 35 (-1)) /\
  combine_motif_outputs.cleanup_id "#d1xyz_" true None
  <> combine_motif_outputs.cleanup_id
       (combine_motif_outputs.extract_query_id "d1abc__A_motif.out") true None /\
  combine_motif_outputs.motif_line 0 1 2 false line = Ok None /\
  combine_motif_outputs.written
    (combine_motif_outputs.main PyFloat.of_string a found).1 = [] /\
  combine_motif_outputs.output_text PyFloat.of_string PyFloat.repr a found = Some [].
Proof.
  intros a line found. split; [reflexivity|]. split; [reflexivity|].
  split; [vm_compute; discriminate|]. split; [reflexivity|].
  split; vm_compute; reflexivity.
Qed.

End SampleRuns.

(** * Further properties of the two scripts *)

(** ** Splitting and joining strings *)

Section SplitJoin.

Import PyStr.

Lemma app_String c (a b : string) : String c a +:+ b = String c (a +:+ b).
Proof. reflexivity. Qed.


Lemma app_assoc_s (a b c : string) : (a +:+ b) +:+ c = a +:+ (b +:+ c).
Proof. induction a as [|d a IH]; [reflexivity|]. rewrite !app_String, IH. reflexivity. Qed.

Lemma contains_app c (a b : string) : contains c (a +:+ b) = contains c a || contains c b.
Proof.
  induction a as [|d a IH]; [reflexivity|]. rewrite app_String. simpl.
  rewrite IH. apply orb_assoc.
Qed.

Lemma split_not_nil c s : split c s <> [].
Proof.
  induction s as [|d s IH]; simpl; [discriminate|].
  destruct (Ascii.eqb d c); [discriminate|]. destruct (split c s); discriminate.
Qed.

Lemma split_no_sep c s : contains c s = false -> split c s = [s].
Proof.
  induction s as [|d s IH]; simpl; [reflexivity|].
  intros H. apply orb_false_iff in H as [Hd Hs].
  rewrite Ascii.eqb_sym, Hd, (IH Hs). reflexivity.
Qed.

Lemma split_app c a b :
  contains c a = false ->
  split c (a +:+ String c b) = a :: split c b.
Proof.
  induction a as [|d a IH]; intros H.
  - simpl. rewrite Ascii.eqb_refl. reflexivity.
  - simpl in H. apply orb_false_iff in H as [Hd Ha].
    rewrite app_String. simpl. rewrite Ascii.eqb_sym, Hd, (IH Ha). reflexivity.
Qed.

Lemma join_cons sep x y ys : join sep (x :: y :: ys) = x +:+ sep +:+ join sep (y :: ys).
Proof. reflexivity. Qed.


Lemma split_parts_no_sep c s : Forall (fun p => contains c p = false) (split c s).
Proof.
  induction s as [|d s IH]; simpl; [repeat constructor|].
  destruct (Ascii.eqb d c) eqn:E; [constructor; [reflexivity|exact IH]|].
  destruct (split c s) as [|w ws]; [repeat constructor; simpl; rewrite Ascii.eqb_sym, E; reflexivity|].
  inversion IH; subst. constructor; [|assumption].
  simpl. rewrite Ascii.eqb_sym, E. assumption.
Qed.

Lemma join_split c s : join (String c "") (split c s) = s.
Proof.
  induction s as [|d s IH]; [reflexivity|]. simpl.
  destruct (Ascii.eqb_spec d c) as [->|Hne].
  - pose proof (split_not_nil c s) as Hn.
    destruct (split c s) as [|w ws]; [congruence|].
    rewrite join_cons, IH. reflexivity.
  - pose proof (split_not_nil c s) as Hn.
    destruct (split c s) as [|w ws]; [congruence|].
    destruct ws as [|w' ws].
    + simpl in *. rewrite IH. reflexivity.
    + rewrite join_cons in *. rewrite app_String, IH. reflexivity.
Qed.

Lemma split_snoc c a b :
  contains c b = false ->
  split c (a +:+ String c b) = split c a ++ [b].
Proof.
  intros Hb. induction a as [|d a IH].
  - simpl. rewrite Ascii.eqb_refl. rewrite (split_no_sep _ _ Hb). reflexivity.
  - rewrite app_String. simpl. rewrite IH.
    destruct (Ascii.eqb d c); [reflexivity|].
    pose proof (split_not_nil c a) as Hn.
    destruct (split c a) as [|w ws]; [congruence|]. reflexivity.
Qed.

Lemma join_snoc sep l x :
  l <> [] -> join sep (l ++ [x]) = join sep l +:+ sep +:+ x.
Proof.
  induction l as [|y l IH]; intros Hne; [congruence|].
  destruct l as [|z l].
  - reflexivity.
  - change ((y :: z :: l) ++ [x]) with (y :: (z :: l) ++ [x]).
    change ((z :: l) ++ [x]) with (z :: (l ++ [x])) at 1.
    rewrite join_cons. change (z :: l ++ [x]) with ((z :: l) ++ [x]).
    rewrite IH by discriminate. rewrite join_cons.
    rewrite !app_assoc_s. reflexivity.
Qed.

Lemma contains_split_length c s :
  contains c s = true -> (2 <= List.length (split c s))%nat.
Proof.
  induction s as [|d s IH]; simpl; [discriminate|].
  rewrite Ascii.eqb_sym.
  destruct (Ascii.eqb d c); simpl.
  - intros _. pose proof (split_not_nil c s). destruct (split c s); [congruence|simpl; lia].
  - intros H. specialize (IH H). destruct (split c s) as [|w ws]; simpl in *; lia.
Qed.

End SplitJoin.

Section ChainAndBase.

Import PyStr generate_folddisco_input.

Lemma is_chain_no_underscore c : is_chain c = true -> contains "_" c = false.
Proof.
  intros H. destruct c as [|a [|? ?]]; try discriminate H.
  change (contains "_" (String a "")) with (Ascii.eqb "_" a || false).
  rewrite orb_false_r.
  destruct (Ascii.eqb_spec "_"%char a) as [<-|]; [discriminate H|reflexivity].
Qed.

(** X7. For an identifier of the form [b_c] whose last part [c] is a
    single letter or digit, [base_id] returns [b] and [extract_chain]
    returns [c], whatever underscores [b] itself contains. *)
Theorem chain_suffix_split (b c : string) :
  is_chain c = true ->
  base_id (b +:+ "_" +:+ c) = b /\ extract_chain (b +:+ "_" +:+ c) = c.
Proof.
  intros Hc. pose proof (is_chain_no_underscore c Hc) as Hn.
  unfold base_id, extract_chain.
  change (b +:+ "_" +:+ c) with (b +:+ String "_" c).
  assert (Hu : contains "_" (b +:+ String "_" c) = true).
  { rewrite contains_app.
    change (contains "_" (String "_" c)) with (Ascii.eqb "_" "_" || contains "_" c).
    rewrite Ascii.eqb_refl. apply orb_true_r. }
  rewrite Hu, (split_snoc "_" b c Hn), last_last, Hc, removelast_last.
  split; [apply join_split|reflexivity].
Qed.

Lemma chain_suffix_split_witness :
  is_chain "B" = true /\
  base_id ("d1y5ia2" +:+ "_" +:+ "B") = "d1y5ia2" /\
  extract_chain ("d1y5ia2" +:+ "_" +:+ "B") = "B".
Proof. split; [reflexivity|]. apply (chain_suffix_split "d1y5ia2" "B"). reflexivity. Defined.

(** X8. [extract_chain] always returns exactly one character, and
    [base_id] either leaves the identifier alone or removes exactly the
    final [_] and the chain that [extract_chain] returns. *)
Theorem base_id_removes_chain (id_str : string) :
  String.length (extract_chain id_str) = 1%nat /\
  (base_id id_str = id_str \/
   (id_str = base_id id_str +:+ "_" +:+ extract_chain id_str /\
    is_chain (extract_chain id_str) = true)).
Proof.
  unfold base_id, extract_chain.
  destruct (contains "_" id_str) eqn:Hc; simpl.
  - destruct (is_chain (List.last (split "_" id_str) "")) eqn:Hl.
    + split.
      * destruct (List.last (split "_" id_str) "") as [|a [|? ?]]; try discriminate. reflexivity.
      * right. split; [|exact Hl].
        pose proof (contains_split_length _ _ Hc) as Hlen.
        pose proof (join_split "_" id_str) as Hj.
        rewrite (app_removelast_last "" (split_not_nil "_" id_str)) in Hj at 1.
        rewrite join_snoc in Hj.
        -- symmetry. exact Hj.
        -- intros E. 
           rewrite (app_removelast_last "" (split_not_nil "_" id_str)) in Hlen.
           rewrite E in Hlen. simpl in Hlen. lia.
    + split; [|left; reflexivity].
      destruct (search_trailing_alnum id_str); reflexivity.
  - split; [|left; reflexivity].
    destruct (search_trailing_alnum id_str); reflexivity.
Qed.

End ChainAndBase.

(** ** Reading identifiers and scores *)

Section ReadInputs.

Import PyStr generate_folddisco_input.

Lemma take_nonspace_idem s : take_nonspace (take_nonspace s) = take_nonspace s.
Proof.
  induction s as [|c s IH]; simpl; [reflexivity|].
  destruct (isspace c) eqn:E; simpl; [reflexivity|]. rewrite E, IH. reflexivity.
Qed.

Lemma take_nonspace_prefix s :
  exists rest, s = take_nonspace s +:+ rest /\
               (rest = "" \/ exists c r, rest = String c r /\ isspace c = true).
Proof.
  induction s as [|c s (rest & E & Hr)]; simpl.
  - exists "". split; [reflexivity|left; reflexivity].
  - destruct (isspace c) eqn:Hc.
    + exists (String c s). split; [reflexivity|]. right. eauto.
    + exists rest. split; [|exact Hr]. rewrite app_String, <- E. reflexivity.
Qed.

Lemma take_nonspace_app s c rest :
  take_nonspace s = s -> isspace c = true ->
  take_nonspace (s +:+ String c rest) = s.
Proof.
  induction s as [|d s IH]; intros Hs Hc.
  - simpl. rewrite Hc. reflexivity.
  - rewrite app_String. simpl in *. destruct (isspace d); [discriminate|].
    injection Hs as Hs. rewrite (IH Hs Hc). reflexivity.
Qed.

Lemma match_id_Some line raw :
  match_id line = Some raw ->
  raw <> "" /\ take_nonspace raw = raw /\
  exists rest, line = ">" +:+ raw +:+ rest /\
               (rest = "" \/ exists c r, rest = String c r /\ isspace c = true).
Proof.
  unfold match_id. destruct line as [|c rest0]; [discriminate|].
  destruct (Ascii.eqb_spec c ">") as [->|Hne].
  - destruct (take_nonspace rest0) eqn:E; [discriminate|].
    intros [= <-]. split; [discriminate|]. split.
    + rewrite <- E. apply take_nonspace_idem.
    + destruct (take_nonspace_prefix rest0) as (rest & E' & Hr).
      exists rest. rewrite E in E'. split; [|exact Hr].
      change (">" +:+ String a s +:+ rest) with (String ">" (String a s +:+ rest)).
      rewrite <- E'. reflexivity.
  - intros H. exfalso.
    destruct c as [[] [] [] [] [] [] [] []]; try discriminate H. apply Hne. reflexivity.
Qed.

(** X1. Every identifier that [read_ids] returns is a non-empty word
    without white space, and it stands right after a [>] that opens one of
    the lines, followed by the end of the line or by a white-space
    character. *)
Theorem read_ids_wellformed (lines : list string) (raw : string) :
  In raw (read_ids lines) ->
  raw <> "" /\ take_nonspace raw = raw /\
  exists line rest,
    In line lines /\ line = ">" +:+ raw +:+ rest /\
    (rest = "" \/ exists c r, rest = String c r /\ isspace c = true).
Proof.
  induction lines as [|line lines IH]; simpl; [intros []|].
  destruct (match_id line) as [r|] eqn:E.
  - intros [<-|H].
    + destruct (match_id_Some _ _ E) as (H1 & H2 & rest & H3 & H4).
      split; [exact H1|]. split; [exact H2|]. exists line, rest. auto.
    + destruct (IH H) as (H1 & H2 & l & rest & H3 & H4).
      split; [exact H1|]. split; [exact H2|]. exists l, rest. auto.
  - intros H. destruct (IH H) as (H1 & H2 & l & rest & H3 & H4).
    split; [exact H1|]. split; [exact H2|]. exists l, rest. auto.
Qed.

Lemma read_ids_wellformed_witness :
  In "d1abc_" (read_ids [">d1abc_ a.1.1.1"; "MKV"]) /\
  "d1abc_" <> "" /\ take_nonspace "d1abc_" = "d1abc_" /\
  exists line rest,
    In line [">d1abc_ a.1.1.1"; "MKV"] /\ line = ">" +:+ "d1abc_" +:+ rest /\
    (rest = "" \/ exists c r, rest = String c r /\ isspace c = true).
Proof.
  assert (H : In "d1abc_" (read_ids [">d1abc_ a.1.1.1"; "MKV"])) by (left; reflexivity).
  split; [exact H|]. exact (read_ids_wellformed _ _ H).
Defined.

Lemma match_id_line raw c rest :
  raw <> "" -> take_nonspace raw = raw -> isspace c = true ->
  match_id (">" +:+ raw +:+ String c rest) = Some raw.
Proof.
  intros Hne Hs Hc. unfold match_id.
  change (">" +:+ raw +:+ String c rest) with (String ">" (raw +:+ String c rest)).
  cbv iota beta. rewrite (take_nonspace_app _ _ _ Hs Hc).
  destruct raw; [congruence|reflexivity].
Qed.

(** X2. Identifiers that are non-empty and free of white space, written
    one per line as [>ID], are read back by [read_ids] unchanged and in
    order. *)
Theorem read_ids_roundtrip (ids : list string) :
  Forall (fun raw => raw <> "" /\ take_nonspace raw = raw) ids ->
  read_ids (map (fun raw => ">" +:+ raw +:+ String "010" "") ids) = ids.
Proof.
  induction 1 as [|raw ids [Hne Hs] _ IH]; [reflexivity|].
  rewrite map_cons. cbn [read_ids].
  rewrite (match_id_line raw "010" "" Hne Hs eq_refl), IH. reflexivity.
Qed.

Lemma read_ids_roundtrip_witness :
  Forall (fun raw => raw <> "" /\ take_nonspace raw = raw) ["d1twfa__A"; "d1twfa__B"] /\
  read_ids (map (fun raw => ">" +:+ raw +:+ String "010" "") ["d1twfa__A"; "d1twfa__B"])
  = ["d1twfa__A"; "d1twfa__B"].
Proof.
  assert (H : Forall (fun raw => raw <> "" /\ take_nonspace raw = raw)
                     ["d1twfa__A"; "d1twfa__B"])
    by (repeat constructor; discriminate).
  split; [exact H|]. exact (read_ids_roundtrip _ H).
Defined.

Lemma digit_not_space c : between 48 57 c = true -> isspace c = false.
Proof.
  unfold between, isspace, between. intros H.
  apply andb_true_iff in H as [H1 H2].
  apply N.leb_le in H1. apply N.leb_le in H2.
  repeat rewrite orb_false_iff. repeat split;
    try (apply andb_false_iff; (left; apply N.leb_gt; lia) || (right; apply N.leb_gt; lia));
    apply N.eqb_neq; lia.
Qed.

Lemma all_digits_lstrip s : all_digits s = true -> lstrip s = s.
Proof.
  destruct s as [|c s]; simpl; [reflexivity|].
  intros H. apply andb_true_iff in H as [Hc _].
  rewrite (digit_not_space c Hc). reflexivity.
Qed.

Lemma all_digits_rstrip s : all_digits s = true -> rstrip s = s.
Proof.
  induction s as [|c s IH]; simpl; [reflexivity|].
  intros H. apply andb_true_iff in H as [Hc Hs].
  rewrite (IH Hs), (digit_not_space c Hc). destruct s; reflexivity.
Qed.

Lemma rstrip_space_end s c : isspace c = true -> rstrip (s +:+ String c "") = rstrip s.
Proof.
  intros Hc. induction s as [|d s IH].
  - simpl. rewrite Hc. reflexivity.
  - rewrite app_String. simpl. rewrite IH. reflexivity.
Qed.

Lemma length_list_ascii s : List.length (list_ascii_of_string s) = String.length s.
Proof. induction s; simpl; congruence. Qed.

(** X3. A line that consists of decimal digits only is read by
    [read_scores] as one score per digit, each the float of that digit,
    whether or not the line still carries its line end: a line [12] gives
    the two scores 1.0 and 2.0, not the score 12.0. *)
Theorem read_scores_digit_line (s : string) :
  s <> "" -> all_digits s = true ->
  score_row s = map digit_score (list_ascii_of_string s) /\
  score_row (s +:+ String "010" "") = score_row s /\
  List.length (score_row s) = String.length s /\
  Forall (fun f => exists d, 0 <= d <= 9 /\ f = PyFloat.of_Z d) (score_row s).
Proof.
  intros Hne Hd.
  assert (Hstrip : strip s = s).
  { unfold strip. rewrite (all_digits_lstrip s Hd). apply all_digits_rstrip, Hd. }
  assert (Hstrip' : strip (s +:+ String "010" "") = s).
  { unfold strip.
    assert (E : lstrip (s +:+ String "010" "") = s +:+ String "010" "").
    { destruct s as [|c s]; [congruence|]. rewrite app_String. simpl in *.
      apply andb_true_iff in Hd as [Hc _]. rewrite (digit_not_space c Hc). reflexivity. }
    rewrite E, rstrip_space_end by reflexivity. apply all_digits_rstrip, Hd. }
  assert (E : score_row s = map digit_score (list_ascii_of_string s)).
  { unfold score_row. rewrite Hstrip. unfold is_digit_string. rewrite Hd.
    destruct (String.eqb_spec s ""); [congruence|]. reflexivity. }
  split; [exact E|]. split.
  - unfold score_row at 1. rewrite Hstrip'. unfold score_row. rewrite Hstrip. reflexivity.
  - rewrite E. split; [rewrite length_map; apply length_list_ascii|].
    clear - Hd. induction s as [|c s IH]; simpl; [constructor|].
    simpl in Hd. apply andb_true_iff in Hd as [Hc Hs].
    constructor; [|apply IH, Hs].
    exists (Z.of_N (ord c) - 48). split; [|reflexivity].
    unfold between in Hc. apply andb_true_iff in Hc as [H1 H2].
    apply N.leb_le in H1. apply N.leb_le in H2. lia.
Qed.

Lemma read_scores_digit_line_witness :
  "5570" <> "" /\ all_digits "5570" = true /\
  score_row "5570" = map digit_score (list_ascii_of_string "5570") /\
  score_row ("5570" +:+ String "010" "") = score_row "5570" /\
  List.length (score_row "5570") = String.length "5570" /\
  Forall (fun f => exists d, 0 <= d <= 9 /\ f = PyFloat.of_Z d) (score_row "5570").
Proof.
  assert (H1 : "5570" <> "") by discriminate.
  split; [exact H1|]. split; [reflexivity|].
  exact (read_scores_digit_line "5570" H1 eq_refl).
Defined.

End ReadInputs.

(** ** Score lines of separated tokens *)

Section ReversedWords.

Import PyStr.



Lemma contains_rev_app c s : forall a,
  contains c (String.rev_app s a) = contains c s || contains c a.
Proof.
  induction s as [|d s IH]; intros a; simpl; [reflexivity|].
  rewrite IH. simpl. destruct (Ascii.eqb c d), (contains c s); reflexivity.
Qed.

Lemma contains_rev c s : contains c (String.rev s) = contains c s.
Proof. unfold String.rev. rewrite contains_rev_app. simpl. apply orb_false_r. Qed.

Lemma split_ws_go_words s :
  forall cur,
    (forall w, cur = Some w -> forall c, isspace c = true -> contains c w = false) ->
    Forall (fun w => forall c, isspace c = true -> contains c w = false)
           (split_ws_go cur s).
Proof.
  induction s as [|d s IH]; intros cur Hcur; simpl.
  - destruct cur as [w|]; [|constructor]. repeat constructor.
    intros c Hc. rewrite contains_rev. apply (Hcur w eq_refl c Hc).
  - destruct (isspace d) eqn:Ed.
    + destruct cur as [w|]; [constructor|]; try (apply IH; discriminate).
      intros c Hc. rewrite contains_rev. apply (Hcur w eq_refl c Hc).
    + apply IH. intros w [= <-] c Hc. simpl.
      destruct (Ascii.eqb_spec c d) as [->|_]; [congruence|]. simpl.
      destruct cur as [w|]; [apply (Hcur w eq_refl c Hc)|reflexivity].
Qed.

Lemma split_ws_no_tab s : Forall (fun w => contains "009" w = false) (split_ws s).
Proof.
  eapply List.Forall_impl; [|apply (split_ws_go_words s None); discriminate].
  intros w Hw. apply Hw. reflexivity.
Qed.

End ReversedWords.

Section ScoreTokens.

Import PyStr generate_folddisco_input.













End ScoreTokens.

(** ** The runs of a collapsed motif *)

Section CollapseShape.

Import PyStr PyList MotifToken generate_folddisco_input.

Lemma token_bounds_run chain start prev :
  token_bounds chain (run_token chain start prev) = Some (start, prev).
Proof.
  unfold token_bounds, run_token. destruct (Z.eqb_spec start prev) as [->|Hne].
  - rewrite strip_prefix_app. apply bounds_single.
  - rewrite strip_prefix_app. apply bounds_range.
Qed.

Lemma tokens_bounds_snoc chain toks tok rs r :
  tokens_bounds chain toks = Some rs ->
  token_bounds chain tok = Some r ->
  tokens_bounds chain (toks ++ [tok]) = Some (rs ++ [r]).
Proof.
  revert rs. induction toks as [|t toks IH]; intros rs Hrs Hr; simpl in *.
  - injection Hrs as <-. rewrite Hr. reflexivity.
  - destruct (token_bounds chain t); [|discriminate].
    destruct (tokens_bounds chain toks); [|discriminate].
    injection Hrs as <-. rewrite (IH _ eq_refl Hr). reflexivity.
Qed.

Lemma collapse_loop_bounds chain rest :
  forall tokens start prev done,
    tokens_bounds chain tokens = Some done ->
    tokens_bounds chain (collapse_loop chain tokens start prev rest)
    = Some (done ++ runs_from start prev rest).
Proof.
  induction rest as [|x rest IH]; intros tokens start prev done Hdone; simpl.
  - apply tokens_bounds_snoc; [exact Hdone|apply token_bounds_run].
  - destruct (x =? prev + 1).
    + apply IH. exact Hdone.
    + rewrite (IH _ _ _ (done ++ [(start, prev)])).
      * rewrite <- app_assoc. reflexivity.
      * apply tokens_bounds_snoc; [exact Hdone|apply token_bounds_run].
Qed.

Lemma runs_from_shape rest :
  forall start prev,
    start <= prev -> StronglySorted Z.lt (prev :: rest) ->
    exists hi tl,
      runs_from start prev rest = (start, hi) :: tl /\
      Forall (fun r => r.1 <= r.2) (runs_from start prev rest) /\
      StronglySorted (fun r r' => r.2 + 1 < r'.1) (runs_from start prev rest) /\
      (forall x, (exists r, In r (runs_from start prev rest) /\ r.1 <= x <= r.2)
                 <-> start <= x <= prev \/ In x rest).
Proof.
  induction rest as [|y rest IH]; intros start prev Hle Hs; simpl.
  - exists prev, []. split; [reflexivity|].
    split; [repeat constructor; simpl; lia|].
    split; [repeat constructor|].
    intros x. split.
    + intros (r & [<-|[]] & Hx). simpl in Hx. lia.
    + intros [Hx|[]]. exists (start, prev). simpl. auto.
  - inversion Hs as [|? ? Hs' Hall]; subst.
    pose proof (Forall_inv Hall) as Hpy.
    destruct (Z.eqb_spec y (prev + 1)) as [->|Hne].
    + destruct (IH start (prev + 1) ltac:(lia) Hs') as (hi & tl & E & Hf & Hg & Hm).
      exists hi, tl. split; [exact E|]. split; [exact Hf|]. split; [exact Hg|].
      intros x. rewrite Hm. simpl. split.
      * intros [?|?]; [|auto].
        destruct (Z.eq_dec x (prev + 1)); [right; left; lia|left; lia].
      * intros [?|[?|?]]; [left; lia|left; lia|auto].
    + destruct (IH y y ltac:(lia) Hs') as (hi & tl & E & Hf & Hg & Hm).
      exists prev, (runs_from y y rest). split; [reflexivity|].
      split; [constructor; [simpl; lia|exact Hf]|].
      split.
      * constructor; [exact Hg|].
        apply List.Forall_forall. intros r Hr. simpl.
        assert (Hyr : y <= r.1).
        { rewrite E in Hg, Hr. destruct Hr as [<-|Hr]; [simpl; lia|].
          inversion Hg as [|? ? _ Hall']; subst.
          rewrite List.Forall_forall in Hall'. specialize (Hall' r Hr). simpl in Hall'.
          rewrite E in Hf. apply Forall_inv in Hf. simpl in Hf. lia. }
        lia.
      * intros x. split.
        -- intros (r & [<-|Hr] & Hx); [left; simpl in Hx; lia|].
           assert (Hx' : y <= x <= y \/ In x rest) by (apply Hm; eauto).
           destruct Hx' as [?|?]; [right; left; lia|right; right; assumption].
        -- intros [Hx|[<-|Hx]].
           ++ exists (start, prev). simpl. auto.
           ++ assert (Hy : y <= y <= y) by lia.
              destruct (proj2 (Hm y) (or_introl Hy)) as (r & Hr & Hyx).
              exists r. split; [right; exact Hr|exact Hyx].
           ++ destruct (proj2 (Hm x) (or_intror Hx)) as (r & Hr & Hyx).
              exists r. split; [right; exact Hr|exact Hyx].
Qed.

(** X5. The tokens of [collapse_ranges] are the maximal runs of the
    index set: read as bounds [lo-hi] they are non-empty intervals in
    ascending order, two consecutive ones are separated by at least one
    missing integer, they cover exactly the input indices, and a non-empty
    input gives at least one token. *)
Theorem collapse_ranges_maximal (chain : string) (indices : list Z) :
  exists runs,
    tokens_bounds chain (collapse_ranges chain indices) = Some runs /\
    Forall (fun r => r.1 <= r.2) runs /\
    StronglySorted (fun r r' => r.2 + 1 < r'.1) runs /\
    (forall x, In x indices <-> exists r, In r runs /\ r.1 <= x <= r.2) /\
    (indices <> [] -> runs <> []).
Proof.
  unfold collapse_ranges.
  destruct indices as [|i0 indices'] eqn:E.
  { exists []. split; [reflexivity|]. split; [constructor|]. split; [constructor|].
    split; [|congruence]. intros x. split; [intros []|intros (r & [] & _)]. }
  rewrite <- E.
  pose proof (sorted_set_sorted indices) as Hs.
  pose proof (fun x => sorted_set_In x indices) as Hin.
  destruct (sorted_set indices) as [|j0 rest].
  { exfalso. apply (proj2 (Hin i0)). rewrite E. left. reflexivity. }
  destruct (runs_from_shape rest j0 j0 ltac:(lia) Hs) as (hi & tl & Er & Hf & Hg & Hm).
  exists (runs_from j0 j0 rest).
  split; [apply (collapse_loop_bounds chain rest [] j0 j0 []); reflexivity|].
  split; [exact Hf|]. split; [exact Hg|].
  split.
  - intros x. rewrite <- Hin, Hm. simpl. split; [intros [<-|?]; [left; lia|auto]|].
    intros [?|?]; [left; lia|auto].
  - intros _. rewrite Er. discriminate.
Qed.

Lemma sorted_unique (a b : list Z) :
  StronglySorted Z.lt a -> StronglySorted Z.lt b ->
  (forall x, In x a <-> In x b) -> a = b.
Proof.
  revert b. induction a as [|x a IH]; intros b Ha Hb Hab.
  - destruct b as [|y b]; [reflexivity|]. exfalso. apply (proj2 (Hab y)). left. reflexivity.
  - destruct b as [|y b]; [exfalso; apply (proj1 (Hab x)); left; reflexivity|].
    inversion Ha as [|? ? Ha' Hxa]; subst. inversion Hb as [|? ? Hb' Hyb]; subst.
    rewrite List.Forall_forall in Hxa, Hyb.
    assert (x = y).
    { destruct (proj1 (Hab x) (or_introl eq_refl)) as [->|Hx]; [reflexivity|].
      destruct (proj2 (Hab y) (or_introl eq_refl)) as [->|Hy]; [reflexivity|].
      specialize (Hxa _ Hy). specialize (Hyb _ Hx). lia. }
    subst y. f_equal. apply IH; [assumption|assumption|].
    intros z. split; intros Hz.
    + destruct (proj1 (Hab z) (or_intror Hz)) as [->|?]; [|assumption].
      specialize (Hxa _ Hz). lia.
    + destruct (proj2 (Hab z) (or_intror Hz)) as [->|?]; [|assumption].
      specialize (Hyb _ Hz). lia.
Qed.

(** X6. [collapse_ranges] depends on the set of its indices only: two
    lists with the same members, in any order and with any repetitions,
    give the same tokens. *)
Theorem collapse_ranges_set (chain : string) (indices indices' : list Z) :
  (forall x, In x indices <-> In x indices') ->
  collapse_ranges chain indices = collapse_ranges chain indices'.
Proof.
  intros H. unfold collapse_ranges.
  assert (E : sorted_set indices = sorted_set indices').
  { apply sorted_unique; try apply sorted_set_sorted.
    intros x. rewrite !sorted_set_In. apply H. }
  rewrite E.
  destruct indices as [|i l], indices' as [|i' l']; try reflexivity.
  exfalso. apply (proj2 (H i')). left. reflexivity.
Qed.

Lemma collapse_ranges_set_witness :
  (forall x, In x [3; 1; 2; 3; 7] <-> In x [7; 2; 1; 3]) /\
  collapse_ranges "A" [3; 1; 2; 3; 7] = collapse_ranges "A" [7; 2; 1; 3].
Proof.
  assert (H : forall x, In x [3; 1; 2; 3; 7] <-> In x [7; 2; 1; 3])
    by (intros x; simpl; intuition).
  split; [exact H|]. apply (collapse_ranges_set "A" _ _ H).
Defined.

End CollapseShape.

(** ** Locating the structure file *)

Section ResolvePath.

Import PyStr generate_folddisco_input.

Variable path_join : string -> string -> string.
Variable path_exists : string -> bool.
Variable path_glob : string -> string -> list string.

Local Abbreviation resolve_pdb_path := (resolve_pdb_path path_join path_exists path_glob).

Lemma find_app_first {A} (f : A -> bool) (l1 l2 : list A) x :
  Forall (fun y => f y = false) l1 -> f x = true ->
  List.find f (l1 ++ x :: l2) = Some x.
Proof.
  induction 1 as [|y l1 Hy _ IH]; simpl; intros Hx.
  - now rewrite Hx.
  - rewrite Hy. auto.
Qed.

(** X9. [resolve_pdb_path] tries [<id>_.pdb], [<id>.pdb], [<base>_.pdb]
    and [<base>.pdb] in the directory, in this order, and returns the
    first of them that exists: a candidate that exists, with none before
    it that does, is the result, whatever the later candidates are and
    whatever a glob would find. *)
Theorem resolve_pdb_path_first_existing (pdb_dir original_id c : string)
        (earlier later : list string) :
  let b := base_id original_id in
  [ path_join pdb_dir (original_id +:+ "_.pdb");
    path_join pdb_dir (original_id +:+ ".pdb");
    path_join pdb_dir (b +:+ "_.pdb");
    path_join pdb_dir (b +:+ ".pdb") ] = earlier ++ c :: later ->
  Forall (fun p => path_exists p = false) earlier ->
  path_exists c = true ->
  resolve_pdb_path pdb_dir original_id = c.
Proof.
  intros b Hc Hearlier Hex. unfold generate_folddisco_input.resolve_pdb_path.
  fold b. rewrite Hc, (find_app_first _ _ _ _ Hearlier Hex). reflexivity.
Qed.

End ResolvePath.

(** ** The ranking of residues *)

Section Ranking.

Import PyStr PyList generate_folddisco_input FloatOrder.

Lemma ltb_rank x y :
  PyFloat.isnan x = false -> PyFloat.isnan y = false ->
  PyFloat.ltb x y = true <-> lex_lt (rank x) (rank y).
Proof.
  unfold PyFloat.ltb, SFltb, lex_lt.
  destruct x as [sx|sx| |sx mx ex], y as [sy|sy| |sy my ey]; simpl;
    try discriminate; intros _ _;
    try (destruct sx); try (destruct sy); simpl;
    try (destruct (Z.compare_spec ex ey); simpl);
    try (change (PosDef.Pos.compare_cont Eq mx my) with (Pos.compare mx my);
         destruct (Pos.compare_spec mx my); simpl);
    (split; intros ?; try discriminate; try reflexivity; try lia).
Qed.

Lemma ltb_nan_l x y : PyFloat.isnan x = true -> PyFloat.ltb x y = false.
Proof. destruct x; try discriminate; reflexivity. Qed.

Lemma ltb_nan_r x y : PyFloat.isnan y = true -> PyFloat.ltb x y = false.
Proof. destruct x, y; try discriminate; reflexivity. Qed.

Lemma ltb_asym x y : PyFloat.ltb x y = true -> PyFloat.ltb y x = false.
Proof.
  intros H.
  destruct (PyFloat.isnan x) eqn:Hx; [rewrite ltb_nan_l in H by assumption; discriminate|].
  destruct (PyFloat.isnan y) eqn:Hy; [rewrite ltb_nan_r in H by assumption; discriminate|].
  apply (ltb_rank x y Hx Hy) in H.
  destruct (PyFloat.ltb y x) eqn:E; [|reflexivity].
  apply (ltb_rank y x Hy Hx) in E. unfold lex_lt in *. lia.
Qed.

Lemma ltb_neg_trans x y z :
  PyFloat.isnan y = false ->
  PyFloat.ltb x y = false -> PyFloat.ltb y z = false -> PyFloat.ltb x z = false.
Proof.
  intros Hy Hxy Hyz.
  destruct (PyFloat.ltb x z) eqn:E; [|reflexivity].
  destruct (PyFloat.isnan x) eqn:Hx; [rewrite ltb_nan_l in E by assumption; discriminate|].
  destruct (PyFloat.isnan z) eqn:Hz; [rewrite ltb_nan_r in E by assumption; discriminate|].
  apply (ltb_rank x z Hx Hz) in E.
  assert (~ lex_lt (rank x) (rank y)) by (rewrite <- ltb_rank by assumption; congruence).
  assert (~ lex_lt (rank y) (rank z)) by (rewrite <- ltb_rank by assumption; congruence).
  unfold lex_lt in *. lia.
Qed.

Lemma insert_desc_In {A} (x y : A * PyFloat.float) l :
  In y (insert_desc x l) <-> y = x \/ In y l.
Proof.
  split; intros H.
  - apply (Permutation_in _ (insert_desc_perm x l)) in H. destruct H; auto.
  - apply (Permutation_in _ (Permutation_sym (insert_desc_perm x l))).
    destruct H; [left; auto|right; auto].
Qed.

Lemma insert_desc_sorted x l :
  Forall (fun y => PyFloat.isnan (snd y) = false) l ->
  Forall (fun y => fst x < fst y) l ->
  StronglySorted before l -> StronglySorted before (insert_desc x l).
Proof.
  induction l as [|y l IH]; intros Hnan Hidx Hs; simpl.
  - repeat constructor.
  - inversion Hnan as [|? ? Hy Hnan']; subst.
    inversion Hidx as [|? ? Hxy Hidx']; subst.
    inversion Hs as [|? ? Hs' Hall]; subst.
    destruct (PyFloat.ltb (snd x) (snd y)) eqn:E.
    + constructor; [apply IH; assumption|].
      apply List.Forall_forall. intros z Hz. apply insert_desc_In in Hz.
      destruct Hz as [->|Hz]; [left; exact E|].
      rewrite List.Forall_forall in Hall. auto.
    + constructor; [exact Hs|].
      constructor; [right; split; assumption|].
      apply List.Forall_forall. intros z Hz.
      rewrite List.Forall_forall in Hall, Hidx'.
      right. split; [|auto].
      apply (ltb_neg_trans _ (snd y)); [assumption|assumption|].
      destruct (Hall z Hz) as [H|[H _]]; [apply ltb_asym; exact H|exact H].
Qed.

Lemma enumerate_In {A} (l : list A) (d : A) :
  forall start i v,
    In (i, v) (enumerate start l) <->
    start <= i < start + Z.of_nat (List.length l) /\ v = nth (Z.to_nat (i - start)) l d /\
    nth_error l (Z.to_nat (i - start)) = Some v.
Proof.
  induction l as [|x l IH]; intros start i v; simpl.
  - split; [tauto|lia].
  - rewrite IH. split.
    + intros [[= <- <-]|(Hr & -> & Hn)].
      * rewrite Z.sub_diag. simpl. split; [lia|auto].
      * replace (Z.to_nat (i - start)) with (S (Z.to_nat (i - (start + 1)))) by lia.
        simpl. split; [lia|auto].
    + intros (Hr & Hv & Hn).
      destruct (Z.eq_dec i start) as [->|Hne].
      * left. rewrite Z.sub_diag in Hn. simpl in Hn. congruence.
      * right.
        replace (Z.to_nat (i - start)) with (S (Z.to_nat (i - (start + 1)))) in Hv, Hn by lia.
        simpl in Hv, Hn. split; [lia|auto].
Qed.

Lemma sort_desc_sorted (l : list (Z * PyFloat.float)) :
  Forall (fun y => PyFloat.isnan (snd y) = false) l ->
  StronglySorted Z.lt (map fst l) ->
  StronglySorted before (sort_desc l).
Proof.
  induction l as [|x l IH]; intros Hnan Hs; simpl.
  - constructor.
  - inversion Hnan as [|? ? Hx Hnan']; subst.
    simpl in Hs. inversion Hs as [|? ? Hs' Hall]; subst.
    apply insert_desc_sorted.
    + apply List.Forall_forall. intros y Hy.
      apply (Permutation_in _ (sort_desc_perm l)) in Hy.
      rewrite List.Forall_forall in Hnan'. auto.
    + apply List.Forall_forall. intros y Hy.
      apply (Permutation_in _ (sort_desc_perm l)) in Hy.
      rewrite List.Forall_forall in Hall. apply Hall. apply in_map. exact Hy.
    + apply IH; assumption.
Qed.

Lemma enumerate_fst_sorted {A} (l : list A) :
  forall start, StronglySorted Z.lt (map fst (enumerate start l)).
Proof.
  induction l as [|x l IH]; intros start; simpl; constructor; [apply IH|].
  apply List.Forall_forall. intros i Hi. apply enumerate_fst_bounds in Hi. lia.
Qed.

Lemma indexed_scores_In scores i v :
  In (i, v) (indexed_scores scores) <->
  1 <= i <= Z.of_nat (List.length scores) /\ v = rank_score scores i.
Proof.
  unfold indexed_scores, rank_score.
  rewrite (enumerate_In _ S754_nan). rewrite length_map.
  rewrite nth_error_map.
  split.
  - intros (Hr & _ & Hn). split; [lia|].
    destruct (nth_error scores (Z.to_nat (i - 1))) as [s|] eqn:E; [|discriminate].
    simpl in Hn. injection Hn as <-.
    rewrite (nth_error_nth _ _ _ E). reflexivity.
  - intros (Hr & ->).
    destruct (nth_error scores (Z.to_nat (i - 1))) as [s|] eqn:E.
    + rewrite (nth_error_nth _ _ _ E). simpl. split; [lia|split; [|reflexivity]].
      rewrite (nth_error_nth (map _ scores) _ S754_nan (x := if PyFloat.isnan s then very_low else s));
        [reflexivity|].
      rewrite nth_error_map, E. reflexivity.
    + apply nth_error_None in E. lia.
Qed.

Lemma indexed_scores_not_nan scores :
  Forall (fun y => PyFloat.isnan (snd y) = false) (indexed_scores scores).
Proof.
  apply List.Forall_forall. intros [i v] H. apply indexed_scores_In in H.
  destruct H as [_ ->]. unfold rank_score. simpl.
  destruct (PyFloat.isnan (nth _ scores S754_nan)) eqn:E; [reflexivity|exact E].
Qed.

Lemma sorted_scores_sorted scores :
  StronglySorted before (sort_desc (indexed_scores scores)).
Proof.
  apply sort_desc_sorted; [apply indexed_scores_not_nan|].
  apply enumerate_fst_sorted.
Qed.

Lemma before_outranks scores x y :
  In x (indexed_scores scores) -> In y (indexed_scores scores) ->
  before x y -> outranks scores (fst x) (fst y) = true.
Proof.
  destruct x as [i v], y as [j w]. intros Hx Hy.
  apply indexed_scores_In in Hx, Hy. destruct Hx as [_ ->], Hy as [_ ->].
  unfold before, outranks. simpl. intros [->|[-> H]]; [reflexivity|].
  simpl. apply Z.ltb_lt in H. rewrite H. apply orb_true_r.
Qed.

Lemma StronglySorted_app_inv {A} (R : A -> A -> Prop) l1 l2 :
  StronglySorted R (l1 ++ l2) ->
  StronglySorted R l1 /\ StronglySorted R l2 /\
  forall x y, In x l1 -> In y l2 -> R x y.
Proof.
  induction l1 as [|a l1 IH]; simpl; intros H.
  - split; [constructor|]. split; [exact H|]. intros ? ? [].
  - inversion H as [|? ? Hs Hall]; subst. destruct (IH Hs) as (H1 & H2 & H3).
    rewrite List.Forall_forall in Hall.
    split.
    + constructor; [exact H1|]. apply List.Forall_forall. intros x Hx.
      apply Hall. apply in_or_app. auto.
    + split; [exact H2|]. intros x y [<-|Hx] Hy.
      * apply Hall. apply in_or_app. auto.
      * auto.
Qed.

Lemma StronglySorted_map {A B} (f : A -> B) (R : A -> A -> Prop) (S : B -> B -> Prop) l :
  (forall x y, In x l -> In y l -> R x y -> S (f x) (f y)) ->
  StronglySorted R l -> StronglySorted S (map f l).
Proof.
  induction l as [|a l IH]; intros Himp H; simpl; [constructor|].
  inversion H as [|? ? Hs Hall]; subst. constructor.
  - apply IH; [|exact Hs]. intros x y Hx Hy. apply Himp; simpl; auto.
  - apply List.Forall_forall. intros b Hb. apply in_map_iff in Hb.
    destruct Hb as (x & <- & Hx). rewrite List.Forall_forall in Hall.
    apply Himp; simpl; auto.
Qed.

Lemma slice_to_split {A} k (l : list A) : exists rest, l = slice_to k l ++ rest.
Proof.
  unfold slice_to. destruct (k <? 0); eexists; symmetry; apply firstn_skipn.
Qed.

(** X10. The residues that [select_indices] returns are the best-ranked
    ones, in ranking order: they are listed by decreasing score, equal
    scores in the order of the residues, a NaN counting as [-1e9]; and
    every selected residue outranks every residue that was not selected. *)
Theorem select_indices_top (scores : list PyFloat.float) (percent : PyFloat.float)
        (min_res : Z) (sel : list Z) :
  select_indices scores percent min_res = Ok sel ->
  StronglySorted (fun i j => outranks scores i j = true) sel /\
  (forall i j, In i sel -> 1 <= j <= Z.of_nat (List.length scores) -> ~ In j sel ->
               outranks scores i j = true).
Proof.
  intros Hsel.
  destruct scores as [|s0 scores'] eqn:Escores.
  { injection Hsel as <-. split; [constructor|]. intros ? ? []. }
  rewrite <- Escores in *.
  rewrite select_indices_unfold in Hsel by (rewrite Escores; discriminate).
  destruct (ceil_share _ percent) as [c| |]; try discriminate.
  simpl in Hsel. injection Hsel as <-.
  set (sorted := sort_desc (indexed_scores scores)).
  destruct (slice_to_split (Z.max min_res c) sorted) as [rest Hsplit].
  pose proof (sorted_scores_sorted scores) as Hs. fold sorted in Hs.
  assert (Hin : forall x, In x sorted -> In x (indexed_scores scores)).
  { intros x Hx. apply (Permutation_in _ (sort_desc_perm _)) in Hx. exact Hx. }
  rewrite Hsplit in Hs. apply StronglySorted_app_inv in Hs.
  destruct Hs as (Hs1 & _ & Hcross).
  assert (Hsub : forall x, In x (slice_to (Z.max min_res c) sorted) -> In x sorted).
  { intros x Hx. rewrite Hsplit. apply in_or_app. auto. }
  split.
  - eapply StronglySorted_map; [|exact Hs1].
    intros x y Hx Hy. apply before_outranks; auto.
  - intros i j Hi Hj Hnot.
    apply in_map_iff in Hi. destruct Hi as (x & <- & Hx).
    assert (Hjin : In (j, rank_score scores j) sorted).
    { apply (Permutation_in _ (Permutation_sym (sort_desc_perm _))).
      apply indexed_scores_In. auto. }
    rewrite Hsplit in Hjin. apply in_app_or in Hjin. destruct Hjin as [Hjin|Hjin].
    + exfalso. apply Hnot. apply in_map_iff. exists (j, rank_score scores j). auto.
    + apply (before_outranks scores x (j, rank_score scores j)).
      * auto.
      * apply indexed_scores_In. auto.
      * apply Hcross; assumption.
Qed.

End Ranking.

(** ** The label of the percentage *)

Section PercentString.

Import PyStr generate_folddisco_input.

Lemma uint_string_no_dot d : contains "." (NilEmpty.string_of_uint d) = false.
Proof. induction d; simpl; auto. Qed.

Lemma of_int_no_dot n : contains "." (of_int n) = false.
Proof.
  unfold of_int, NilZero.string_of_int, NilZero.string_of_uint.
  destruct (Z.to_int n) as [d|d]; simpl.
  - destruct d; try apply (uint_string_no_dot (_ _)); reflexivity.
  - destruct d; try apply (uint_string_no_dot (_ _)); reflexivity.
Qed.

Lemma join_no_char c sep parts :
  contains c sep = false ->
  Forall (fun p => contains c p = false) parts ->
  contains c (join sep parts) = false.
Proof.
  intros Hsep. induction 1 as [|p parts Hp Hall IH]; [reflexivity|].
  destruct parts as [|q parts]; [exact Hp|].
  rewrite join_cons, !contains_app, Hp, Hsep, IH. reflexivity.
Qed.

(** X12. The label of the percentage that [main] puts into directory
    and file names contains no dot: an integral percentage is printed as
    an integer, any other with [p] in place of the point. *)
Theorem percent_str_no_dot (p : PyFloat.float) (s : string) :
  percent_str p = Ok s -> contains "." s = false.
Proof.
  unfold percent_str. destruct (PyFloat.trunc p) as [n| |]; try discriminate.
  unfold mbind, outcome_bind.
  destruct (PyFloat.eqb p (PyFloat.of_Z n)); intros [= <-].
  - apply of_int_no_dot.
  - apply join_no_char; [reflexivity|apply split_parts_no_sep].
Qed.

Lemma percent_str_no_dot_witness :
  percent_str (PyFloat.div (PyFloat.of_Z 5) (PyFloat.of_Z 2)) = Ok "2p5" /\
  contains "." "2p5" = false.
Proof.
  assert (H : percent_str (PyFloat.div (PyFloat.of_Z 5) (PyFloat.of_Z 2)) = Ok "2p5")
    by (vm_compute; reflexivity).
  split; [exact H|]. exact (percent_str_no_dot _ _ H).
Defined.

End PercentString.

(** ** Percentages that are not finite; lines read by column *)

Section BadPercent.

Import PyStr PyList generate_folddisco_input.

Variable path_join : string -> string -> string.
Variable path_exists : string -> bool.
Variable path_glob : string -> string -> list string.

Lemma of_int_length (n : nat) :
  (1 <= n)%nat -> Z.of_nat n < 2 ^ 63 ->
  exists m e, PyFloat.of_int (Z.of_nat n) = Ok (S754_finite false m e).
Proof.
  intros H1 H2. destruct (Z.of_nat n) as [|p|p] eqn:E; try lia.
  destruct (of_Z_positive p) as (m & e & Hf & _).
  { assert (Z.log2 (Zpos p) < 63) by (apply Z.log2_lt_pow2; lia). lia. }
  exists m, e. unfold PyFloat.of_int. rewrite Hf. reflexivity.
Qed.

(** X11. A percentage that is not a finite number makes the generator
    raise: on a non-empty score row [select_indices] raises [ValueError]
    for NaN and [OverflowError] for an infinity, although it returns the
    empty list for an empty row, and [main] raises the same exceptions
    before it looks at any identifier, once the two checks of the command
    line have passed. *)
Theorem nonfinite_percent_raises (a : arguments) (ids : list string)
        (score_lines : list (list PyFloat.float)) (scores : list PyFloat.float) :
  List.length score_lines = List.length ids ->
  (with_output_path a = true -> exists c d, output_dir a = Some (String c d)) ->
  scores <> [] -> Z.of_nat (List.length scores) < 2 ^ 63 ->
  select_indices scores S754_nan (min_residues a) = Raise ValueError /\
  (forall s, select_indices scores (S754_infinity s) (min_residues a) = Raise OverflowError) /\
  (forall p, select_indices [] p (min_residues a) = Ok []) /\
  (percent a = S754_nan ->
   main path_join path_exists path_glob a ids score_lines = Raise ValueError) /\
  (forall s, percent a = S754_infinity s ->
   main path_join path_exists path_glob a ids score_lines = Raise OverflowError).
Proof.
  intros Hlen Hdir Hne Hshort.
  destruct (of_int_length (List.length scores)) as (m & e & Hf);
    [destruct scores; [contradiction|simpl; lia]|exact Hshort|].
  assert (Hexit : with_output_path a
                  && negb (bool_decide (is_Some (match output_dir a with
                                                 | Some "" => None
                                                 | d => d
                                                 end))) = false).
  { destruct (with_output_path a); [|reflexivity].
    destruct (Hdir eq_refl) as (c & d & ->). reflexivity. }
  split; [|split; [|split; [|split]]].
  - rewrite select_indices_unfold by assumption. unfold ceil_share. rewrite Hf.
    reflexivity.
  - intros s. rewrite select_indices_unfold by assumption. unfold ceil_share.
    rewrite Hf. destruct s; reflexivity.
  - reflexivity.
  - intros Hp. unfold main. rewrite Hlen, Nat.eqb_refl, Hexit, Hp. reflexivity.
  - intros s Hp. unfold main. rewrite Hlen, Nat.eqb_refl, Hexit, Hp. reflexivity.
Qed.

End BadPercent.

Section MotifLines.

Import PyStr combine_motif_outputs.




End MotifLines.

(** ** Grouping chains by base ID *)

Section Grouping.

Import PyStr PyList generate_folddisco_input.

Lemma mem_In b (keys : list string) : existsb (String.eqb b) keys = true <-> In b keys.
Proof.
  rewrite existsb_exists. split.
  - intros (x & Hx & E). apply String.eqb_eq in E. congruence.
  - intros H. exists b. split; [exact H|apply String.eqb_refl].
Qed.

Lemma mem_spec b (keys : list string) : reflect (In b keys) (existsb (String.eqb b) keys).
Proof.
  destruct (existsb (String.eqb b) keys) eqn:E; constructor.
  - apply mem_In, E.
  - intros H. apply mem_In in H. congruence.
Qed.

Lemma first_occurrences_snoc l b :
  first_occurrences (l ++ [b]) =
  if existsb (String.eqb b) (first_occurrences l) then first_occurrences l
  else first_occurrences l ++ [b].
Proof. unfold first_occurrences. rewrite fold_left_app. reflexivity. Qed.

Lemma first_occurrences_spec l :
  List.NoDup (first_occurrences l) /\ forall b, In b (first_occurrences l) <-> In b l.
Proof.
  induction l as [|b l [Hnd Hin]] using rev_ind.
  - split; [constructor|reflexivity].
  - rewrite first_occurrences_snoc.
    destruct (mem_spec b (first_occurrences l)) as [Hb|Hb].
    + split; [exact Hnd|]. intros c. rewrite in_app_iff, Hin. simpl.
      split; [auto|]. intros [?|[<-|[]]]; [assumption|]. apply Hin, Hb.
    + split.
      * apply List.NoDup_app; [exact Hnd|repeat constructor; intros []|].
        intros x Hx [<-|[]]. exact (Hb Hx).
      * intros c. rewrite !in_app_iff, Hin. reflexivity.
Qed.

Lemma values_of_snoc {V} b' (es : list (string * V)) b v :
  values_of b' (es ++ [(b, v)]) = values_of b' es ++ (if String.eqb b b' then [v] else []).
Proof.
  unfold values_of. rewrite List.filter_app, map_app. simpl.
  destruct (String.eqb b b'); reflexivity.
Qed.

Lemma values_of_absent {V} b (es : list (string * V)) :
  ~ In b (map fst es) -> values_of b es = [].
Proof.
  unfold values_of. induction es as [|[k v] es IH]; simpl; [reflexivity|].
  intros H. destruct (String.eqb_spec k b) as [->|Hne]; [exfalso; auto|].
  apply IH. auto.
Qed.

Lemma dict_append_keyed {V} (f : string -> list V) b v keys :
  List.NoDup keys ->
  dict_append b v (map (fun k => (k, f k)) keys) =
  if existsb (String.eqb b) keys
  then map (fun k => (k, f k ++ (if String.eqb b k then [v] else []))) keys
  else map (fun k => (k, f k)) keys ++ [(b, [v])].
Proof.
  induction keys as [|k keys IH]; intros Hnd; simpl.
  - reflexivity.
  - inversion Hnd as [|? ? Hk Hnd']; subst.
    rewrite (String.eqb_sym b k).
    destruct (String.eqb_spec k b) as [->|Hne].
    + simpl. f_equal.
      apply map_ext_in. intros k Hkin.
      destruct (String.eqb_spec b k) as [->|_]; [contradiction|].
      rewrite app_nil_r. reflexivity.
    + rewrite (IH Hnd'). simpl.
      destruct (existsb (String.eqb b) keys); [|reflexivity].
      rewrite app_nil_r. reflexivity.
Qed.

(** The dictionary [chain_sel_map] after the given entries were appended
    one by one. *)
Lemma fold_dict_append {V} (es' : list (string * V)) :
  forall es,
    fold_left (fun d e => dict_append e.1 e.2 d) es'
      (map (fun b => (b, values_of b es)) (first_occurrences (map fst es)))
    = map (fun b => (b, values_of b (es ++ es')))
          (first_occurrences (map fst (es ++ es'))).
Proof.
  induction es' as [|[b v] es' IH]; intros es; simpl.
  - rewrite app_nil_r. reflexivity.
  - replace (es ++ (b, v) :: es') with ((es ++ [(b, v)]) ++ es')
      by (rewrite <- app_assoc; reflexivity).
    rewrite <- IH. f_equal.
    destruct (first_occurrences_spec (map fst es)) as [Hnd Hin].
    rewrite (dict_append_keyed (fun k => values_of k es) b v _ Hnd).
    replace (map fst (es ++ [(b, v)])) with (map fst es ++ [b])
      by (rewrite map_app; reflexivity).
    rewrite first_occurrences_snoc.
    destruct (mem_spec b (first_occurrences (map fst es))) as [Hb|Hb].
    + apply map_ext. intros k. rewrite values_of_snoc. reflexivity.
    + rewrite map_app. simpl. f_equal.
      * apply map_ext_in. intros k Hk. rewrite values_of_snoc.
        destruct (String.eqb_spec b k) as [->|_]; [contradiction|].
        rewrite app_nil_r. reflexivity.
      * rewrite values_of_snoc, String.eqb_refl.
        rewrite values_of_absent by (intros H; apply Hb, Hin, H). reflexivity.
Qed.

Lemma group_chains_entries a pairs :
  forall d m,
    group_chains a pairs d = Ok m ->
    m = fold_left (fun d e => dict_append e.1 e.2 d) (chain_entries a pairs) d.
Proof.
  induction pairs as [|[id_str scores] pairs IH]; intros d m; simpl.
  - intros [= <-]. reflexivity.
  - destruct scores as [|s scores]; [apply IH|].
    unfold chain_entries in *. simpl flat_map.
    destruct (select_indices (s :: scores) (percent a) (min_residues a)) as [sel| |];
      simpl; try discriminate.
    destruct sel as [|i sel]; [apply IH|].
    rewrite fold_left_app. simpl. apply IH.
Qed.

End Grouping.

(** ** The rows of the generator *)

Section GeneratorRun.

Import PyStr PyList generate_folddisco_input.

Variable path_join : string -> string -> string.
Variable path_exists : string -> bool.
Variable path_glob : string -> string -> list string.

Local Abbreviation main := (main path_join path_exists path_glob).
Local Abbreviation per_chain_rows := (per_chain_rows path_join).
Local Abbreviation merged_row := (merged_row path_join path_exists path_glob).
Local Abbreviation resolve_pdb_path := (resolve_pdb_path path_join path_exists path_glob).

Lemma select_indices_total scores p m :
  scores <> [] -> Z.of_nat (List.length scores) < 2 ^ 63 ->
  PyFloat.moderate p = true ->
  exists sel, select_indices scores p m = Ok sel /\
              ((1 <= m \/ exists mm e, p = S754_finite false mm e) -> sel <> []).
Proof.
  intros Hne Hlen Hp.
  destruct (ceil_share_defined (List.length scores) p) as (c & Hc & Hpos);
    [destruct scores; [contradiction|simpl; lia]|assumption|assumption|].
  rewrite select_indices_unfold by assumption. rewrite Hc.
  eexists. split; [reflexivity|]. intros Hcond E.
  assert (Hk : 1 <= Z.max m c).
  { destruct Hcond as [?|(mm & e & ->)]; [lia|]. specialize (Hpos _ _ eq_refl). lia. }
  pose proof (selected_length scores (Z.max m c)) as Hl. rewrite E in Hl.
  destruct (Z.ltb_spec (Z.max m c) 0); [lia|].
  destruct scores; [contradiction|]. simpl in Hl. lia.
Qed.

Lemma collapse_loop_not_nil chain rest :
  forall tokens start prev, collapse_loop chain tokens start prev rest <> [].
Proof.
  induction rest as [|x rest IH]; intros tokens start prev; simpl.
  - intros E. apply app_eq_nil in E as [_ E]. discriminate.
  - destruct (x =? prev + 1); apply IH.
Qed.

Lemma collapse_ranges_not_nil chain indices :
  indices <> [] -> collapse_ranges chain indices <> [].
Proof.
  intros Hne. unfold collapse_ranges. destruct indices as [|i l]; [contradiction|].
  pose proof (proj2 (sorted_set_In i (i :: l)) (or_introl eq_refl)) as Hin.
  destruct (sorted_set (i :: l)); [destruct Hin|]. apply collapse_loop_not_nil.
Qed.





Lemma group_chains_grouped a pairs m :
  group_chains a pairs [] = Ok m ->
  m = map (fun b => (b, values_of b (chain_entries a pairs)))
          (first_occurrences (map fst (chain_entries a pairs))).
Proof.
  intros H. apply group_chains_entries in H. rewrite H.
  apply (fold_dict_append (chain_entries a pairs) []).
Qed.




Lemma chain_entries_keys a pairs :
  PyFloat.moderate (percent a) = true ->
  (1 <= min_residues a \/ exists m e, percent a = S754_finite false m e) ->
  Forall (fun row : list PyFloat.float => Z.of_nat (List.length row) < 2 ^ 63) (map snd pairs) ->
  map fst (chain_entries a pairs) = map (fun p => base_id p.1) (List.filter has_scores pairs).
Proof.
  intros Hp Hcond. unfold chain_entries.
  induction pairs as [|[id_str scores] pairs IH]; intros Hshort; [reflexivity|].
  simpl in Hshort. inversion Hshort as [|? ? Hs Hshort']; subst.
  simpl flat_map. rewrite map_app, (IH Hshort').
  destruct scores as [|s scores]; [reflexivity|].
  destruct (select_indices_total (s :: scores) (percent a) (min_residues a))
    as (sel & Hsel & Hnn); [discriminate|exact Hs|exact Hp|].
  rewrite Hsel. destruct sel as [|i sel]; [exfalso; apply (Hnn Hcond); reflexivity|].
  reflexivity.
Qed.

(** X15. In merged mode the rows that [main] returns are the groups of
    [chain_sel_map]: one row per base ID, in the order in which the base
    IDs first occur, no base ID twice, each row built from the chains and
    selections of all the identifiers with that base ID, in their
    order. *)
Theorem merged_rows_grouped (a : arguments) (ids : list string)
        (score_lines : list (list PyFloat.float)) (rows : list manifest_row) :
  per_chain a = false ->
  main a ids score_lines = Ok rows ->
  let entries := chain_entries a (combine ids score_lines) in
  exists out_dir,
    rows = map (fun b => merged_row a out_dir (b, values_of b entries))
               (first_occurrences (map fst entries)) /\
    List.NoDup (first_occurrences (map fst entries)) /\
    (forall b, In b (first_occurrences (map fst entries)) <-> In b (map fst entries)).
Proof.
  intros Hpc H entries. unfold generate_folddisco_input.main in H.
  destruct (negb _); [discriminate|].
  destruct (_ && _); [discriminate|].
  destruct (percent_str (percent a)) as [ps| |]; try discriminate.
  unfold mbind at 1, outcome_bind at 1 in H. rewrite Hpc in H.
  destruct (group_chains a (combine ids score_lines) []) as [m| |] eqn:E; try discriminate.
  unfold mbind, outcome_bind in H. injection H as <-.
  eexists. split; [|apply first_occurrences_spec].
  rewrite (group_chains_grouped _ _ _ E), map_map. reflexivity.
Qed.

(** X16. In merged mode, with a moderate percentage, a minimum of at
    least one residue (or a positive percentage) and score rows shorter
    than [2^63], the rows that [main] returns are the resolved structure
    files of the base IDs of all identifiers with a non-empty score
    line, each base ID once, at its first occurrence. *)
Theorem merged_covers_ids (a : arguments) (ids : list string)
        (score_lines : list (list PyFloat.float)) (rows : list manifest_row) :
  per_chain a = false ->
  PyFloat.moderate (percent a) = true ->
  (1 <= min_residues a \/ exists m e, percent a = S754_finite false m e) ->
  Forall (fun row : list PyFloat.float => Z.of_nat (List.length row) < 2 ^ 63) score_lines ->
  main a ids score_lines = Ok rows ->
  map row_pdb rows
  = map (resolve_pdb_path (pdb_dir a))
        (first_occurrences
           (map (fun p => base_id p.1) (List.filter has_scores (combine ids score_lines)))).
Proof.
  intros Hpc Hp Hcond Hshort H.
  assert (Hcomb : Forall (fun row : list PyFloat.float => Z.of_nat (List.length row) < 2 ^ 63)
                         (map snd (combine ids score_lines))).
  { apply List.Forall_forall. intros row Hrow. apply in_map_iff in Hrow.
    destruct Hrow as ([i r] & <- & Hin). apply in_combine_r in Hin.
    rewrite List.Forall_forall in Hshort. auto. }
  unfold generate_folddisco_input.main in H.
  destruct (negb _); [discriminate|].
  destruct (_ && _); [discriminate|].
  destruct (percent_str (percent a)) as [ps| |]; try discriminate.
  unfold mbind at 1, outcome_bind at 1 in H. rewrite Hpc in H.
  destruct (group_chains a (combine ids score_lines) []) as [m| |] eqn:E; try discriminate.
  unfold mbind, outcome_bind in H. injection H as <-.
  rewrite (group_chains_grouped _ _ _ E), !map_map.
  rewrite (chain_entries_keys a _ Hp Hcond Hcomb). reflexivity.
Qed.

End GeneratorRun.

Section GeneratorSamples.

Import PyStr PyList generate_folddisco_input.


Lemma resolve_pdb_path_first_existing_witness :
  [ "/pdb/d1twfa__.pdb"; "/pdb/d1twfa_.pdb"; "/pdb/d1twfa__.pdb"; "/pdb/d1twfa_.pdb" ]
  = ["/pdb/d1twfa__.pdb"] ++ "/pdb/d1twfa_.pdb" :: ["/pdb/d1twfa__.pdb"; "/pdb/d1twfa_.pdb"] /\
  Forall (fun p => Samples.only_d1twfa p = false) ["/pdb/d1twfa__.pdb"] /\
  Samples.only_d1twfa "/pdb/d1twfa_.pdb" = true /\
  generate_folddisco_input.resolve_pdb_path Samples.join_path Samples.only_d1twfa
    Samples.no_glob "/pdb" "d1twfa_" = "/pdb/d1twfa_.pdb".
Proof.
  assert (H : Forall (fun p => Samples.only_d1twfa p = false) ["/pdb/d1twfa__.pdb"])
    by (repeat constructor).
  split; [reflexivity|]. split; [exact H|]. split; [reflexivity|].
  exact (resolve_pdb_path_first_existing Samples.join_path Samples.only_d1twfa
           Samples.no_glob "/pdb" "d1twfa_" "/pdb/d1twfa_.pdb"
           ["/pdb/d1twfa__.pdb"] ["/pdb/d1twfa__.pdb"; "/pdb/d1twfa_.pdb"]
           eq_refl H eq_refl).
Defined.

End GeneratorSamples.

(** ** The motif column *)

Section MotifColumn.

Import PyStr PyList generate_folddisco_input.

Variable path_join : string -> string -> string.
Variable path_exists : string -> bool.
Variable path_glob : string -> string -> list string.

Local Abbreviation main := (main path_join path_exists path_glob).
Local Abbreviation per_chain_rows := (per_chain_rows path_join).
Local Abbreviation merged_row := (merged_row path_join path_exists path_glob).

Lemma uint_string_digits d c :
  contains c (NilEmpty.string_of_uint d) = true -> between 48 57 c = true.
Proof.
  induction d; simpl; try discriminate; intros H;
    apply orb_true_iff in H as [H|H]; auto;
    apply Ascii.eqb_eq in H; subst c; reflexivity.
Qed.

Lemma of_int_no_char c n :
  between 48 57 c = false -> c <> "-"%char -> contains c (of_int n) = false.
Proof.
  intros Hd Hm.
  assert (Hu : forall d, contains c (NilEmpty.string_of_uint d) = false).
  { intros d. destruct (contains c (NilEmpty.string_of_uint d)) eqn:E; [|reflexivity].
    apply uint_string_digits in E. congruence. }
  assert (Hz : forall d, contains c (NilZero.string_of_uint d) = false).
  { intros d. unfold NilZero.string_of_uint.
    destruct d; try apply (Hu (_ _)). simpl.
    destruct (Ascii.eqb_spec c "0") as [->|_]; [discriminate Hd|reflexivity]. }
  unfold of_int, NilZero.string_of_int.
  destruct (Z.to_int n) as [d|d]; [apply Hz|].
  simpl. rewrite Hz. destruct (Ascii.eqb_spec c "-"); [contradiction|reflexivity].
Qed.

Lemma run_token_no_char c chain start prev :
  contains c chain = false -> between 48 57 c = false -> c <> "-"%char ->
  contains c (run_token chain start prev) = false.
Proof.
  intros Hc Hd Hm. unfold run_token.
  destruct (start =? prev); rewrite !contains_app, Hc, !of_int_no_char by assumption;
    [reflexivity|].
  simpl. destruct (Ascii.eqb_spec c "-"); [contradiction|reflexivity].
Qed.

Lemma run_token_not_empty chain start prev : chain <> "" -> run_token chain start prev <> "".
Proof.
  intros Hne. unfold run_token. destruct chain as [|a chain]; [contradiction|].
  destruct (start =? prev); discriminate.
Qed.

Lemma collapse_loop_tokens (P : string -> Prop) chain rest :
  (forall start prev, P (run_token chain start prev)) ->
  forall tokens start prev,
    Forall P tokens -> Forall P (collapse_loop chain tokens start prev rest).
Proof.
  intros Hrun. induction rest as [|x rest IH]; intros tokens start prev Ht; simpl.
  - apply Forall_app. split; [exact Ht|]. repeat constructor. apply Hrun.
  - destruct (x =? prev + 1); apply IH; [exact Ht|].
    apply Forall_app. split; [exact Ht|]. repeat constructor. apply Hrun.
Qed.

Lemma collapse_ranges_tokens (P : string -> Prop) chain indices :
  (forall start prev, P (run_token chain start prev)) ->
  Forall P (collapse_ranges chain indices).
Proof.
  intros Hrun. unfold collapse_ranges. destruct indices; [constructor|].
  destruct (sorted_set _); [constructor|].
  apply collapse_loop_tokens; [exact Hrun|constructor].
Qed.

Lemma extract_chain_char id_str :
  exists a, extract_chain id_str = String a "" /\ isalpha a || isdigit a = true.
Proof.
  unfold extract_chain.
  destruct (contains "_" id_str && is_chain (List.last (split "_" id_str) "")) eqn:E.
  - apply andb_true_iff in E as [_ E].
    destruct (List.last (split "_" id_str) "") as [|a [|? ?]]; try discriminate.
    exists a. auto.
  - unfold search_trailing_alnum.
    destruct (last_char _) as [c|]; [|exists "A"%char; auto].
    destruct (is_ascii_alnum c) eqn:Ec; [|exists "A"%char; auto].
    exists c. split; [reflexivity|].
    unfold is_ascii_alnum in Ec. unfold isalpha, isdigit.
    destruct (between 65 90 c); [reflexivity|].
    destruct (between 97 122 c); [reflexivity|].
    simpl in Ec. rewrite Ec. simpl. rewrite !orb_true_r. reflexivity.
Qed.

Lemma digit_is_isdigit c : isalpha c || isdigit c = false -> between 48 57 c = false.
Proof.
  intros H. apply orb_false_iff in H as [_ H]. unfold isdigit in H.
  repeat (apply orb_false_iff in H as [H _]). exact H.
Qed.

Lemma chain_tokens_well_formed id_str indices :
  Forall (fun t => t <> "" /\
                   forall c, isalpha c || isdigit c = false -> c <> "-"%char ->
                             contains c t = false)
         (collapse_ranges (extract_chain id_str) indices).
Proof.
  destruct (extract_chain_char id_str) as (a & -> & Ha).
  apply collapse_ranges_tokens. intros start prev. split.
  - apply run_token_not_empty. discriminate.
  - intros c Hc Hm. apply run_token_no_char; [|apply digit_is_isdigit, Hc|exact Hm].
    simpl. rewrite orb_false_r.
    destruct (Ascii.eqb_spec c a) as [->|_]; [congruence|reflexivity].
Qed.

Lemma join_well_formed tokens :
  tokens <> [] ->
  Forall (fun t => t <> "" /\
                   forall c, isalpha c || isdigit c = false -> c <> "-"%char ->
                             contains c t = false) tokens ->
  well_formed_motif (join "," tokens).
Proof.
  intros Hne Hall. split.
  - destruct tokens as [|t ts]; [contradiction|].
    inversion Hall as [|? ? [Ht _] _]; subst.
    destruct ts as [|u ts]; [exact Ht|].
    rewrite join_cons. destruct t; [contradiction|discriminate].
  - intros c Hc Hm Hcomma. apply join_no_char.
    + simpl. destruct (Ascii.eqb_spec c ","); [contradiction|reflexivity].
    + eapply List.Forall_impl; [|exact Hall]. intros t [_ Ht]. auto.
Qed.

Lemma per_chain_rows_motifs a od pairs :
  forall rows,
    per_chain_rows a od pairs = Ok rows ->
    Forall (fun r => well_formed_motif (row_motif r)) rows.
Proof.
  induction pairs as [|[id_str scores] pairs IH]; intros rows; simpl.
  - intros [= <-]. constructor.
  - destruct scores as [|s scores]; [apply IH|].
    destruct (select_indices (s :: scores) (percent a) (min_residues a)) as [sel| |];
      try discriminate.
    unfold mbind at 1, outcome_bind at 1.
    pose proof (chain_tokens_well_formed id_str sel) as Htok.
    destruct (collapse_ranges (extract_chain id_str) sel) as [|t ts]; [apply IH|].
    destruct (per_chain_rows a od pairs) as [rows'| |]; try discriminate.
    intros [= <-]. constructor; [|apply IH; reflexivity].
    apply (join_well_formed (t :: ts)); [discriminate|exact Htok].
Qed.

Lemma chain_entries_selections a pairs b v :
  In (b, v) (chain_entries a pairs) ->
  exists id_str, v.1 = extract_chain id_str /\ v.2 <> [].
Proof.
  unfold chain_entries. intros H. apply in_flat_map in H.
  destruct H as ([id_str scores] & _ & H).
  destruct scores as [|s scores]; [destruct H|].
  destruct (select_indices _ _ _) as [sel| |]; [|destruct H..].
  destruct sel as [|i sel]; [destruct H|].
  destruct H as [H|[]]. injection H as <- <-.
  exists id_str. split; [reflexivity|discriminate].
Qed.

(** X17. In both modes the motif column of every row that [main]
    returns is not empty and consists of letters, digits, [-] and [,]
    only; in particular it holds no tab, no blank and no line end. *)
Theorem rows_have_motifs (a : arguments) (ids : list string)
        (score_lines : list (list PyFloat.float)) (rows : list manifest_row) :
  main a ids score_lines = Ok rows ->
  Forall (fun r => well_formed_motif (row_motif r)) rows.
Proof.
  intros H. unfold generate_folddisco_input.main in H.
  destruct (negb _); [discriminate|].
  destruct (_ && _); [discriminate|].
  destruct (percent_str (percent a)) as [ps| |]; try discriminate.
  unfold mbind at 1, outcome_bind at 1 in H.
  destruct (per_chain a); [exact (per_chain_rows_motifs _ _ _ _ H)|].
  destruct (group_chains a (combine ids score_lines) []) as [m| |] eqn:E; try discriminate.
  unfold mbind, outcome_bind in H. injection H as <-.
  rewrite (group_chains_grouped _ _ _ E), map_map.
  apply List.Forall_forall. intros r Hr. apply in_map_iff in Hr.
  destruct Hr as (b & <- & Hb). cbn [generate_folddisco_input.merged_row row_motif].
  set (entries := chain_entries a (combine ids score_lines)) in *.
  apply (proj2 (first_occurrences_spec (map fst entries)) b) in Hb.
  apply in_map_iff in Hb. destruct Hb as ([b' v] & Hb' & Hin). simpl in Hb'. subst b'.
  assert (Hvals : forall v', In v' (values_of b entries) ->
                             exists id_str, v'.1 = extract_chain id_str /\ v'.2 <> []).
  { intros v' Hv'. unfold values_of in Hv'. apply in_map_iff in Hv'.
    destruct Hv' as ([b' v''] & <- & Hf). apply filter_In in Hf as [Hf _].
    apply (chain_entries_selections a _ b' v'' Hf). }
  assert (Hv : In v (values_of b entries)).
  { unfold values_of. apply in_map_iff. exists (b, v). split; [reflexivity|].
    apply filter_In. split; [exact Hin|apply String.eqb_refl]. }
  apply join_well_formed.
  - destruct (Hvals v Hv) as (id_str & Hc & Hne).
    intros Hnil.
    assert (Hsub : In v (values_of b entries) ->
                   forall t, In t (collapse_ranges v.1 v.2) ->
                   In t (List.concat (map (fun '(chain, indices) => collapse_ranges chain indices)
                                          (values_of b entries)))).
    { intros Hv' t Ht. apply in_concat. exists (collapse_ranges v.1 v.2).
      split; [|exact Ht]. apply in_map_iff. exists v. split; [destruct v; reflexivity|exact Hv']. }
    pose proof (collapse_ranges_not_nil v.1 v.2 Hne) as Hnn.
    destruct (collapse_ranges v.1 v.2) as [|t ts] eqn:Et; [congruence|].
    specialize (Hsub Hv t (or_introl eq_refl)). rewrite Hnil in Hsub. destruct Hsub.
  - apply List.Forall_forall. intros t Ht. apply in_concat in Ht.
    destruct Ht as (l & Hl & Ht). apply in_map_iff in Hl.
    destruct Hl as ([chain indices] & <- & Hv').
    destruct (Hvals _ Hv') as (id_str & Hc & _). simpl in Hc. subst chain.
    pose proof (chain_tokens_well_formed id_str indices) as Hall.
    rewrite List.Forall_forall in Hall. auto.
Qed.

End MotifColumn.

(** ** Counters, lookup and exit status of the combiner *)

Section CombinerCounters.

Import PyStr combine_motif_outputs.

Context {F : Type}.
Variable float_of_string : string -> option F.

Local Abbreviation process_pair := (process_pair float_of_string).
Local Abbreviation process_lines := (process_lines float_of_string).
Local Abbreviation process_files := (process_files float_of_string).
Local Abbreviation main := (main float_of_string).
Local Abbreviation contribution := (contribution float_of_string).

(** A property of the locals that every pass of the inner loop keeps
    holds when the run ends. *)
Lemma process_lines_invariant (P : run_state -> Prop) a q lines :
  (forall t s st, P st -> P (process_pair a q t s st)) ->
  forall st, P st -> P (process_lines a q lines st).1.
Proof.
  intros Hstep. induction lines as [|line lines IH]; intros st Hst; simpl; [exact Hst|].
  destruct (motif_line _ _ _ _ line) as [[[t s]|]|e|m]; simpl; auto.
Qed.

Lemma process_files_invariant (P : run_state -> Prop) a files :
  (forall q t s st, P st -> P (process_pair a q t s st)) ->
  forall st, P st -> P (process_files a files st).1.
Proof.
  intros Hstep. induction files as [|[fpath lines] files IH]; intros st Hst; simpl;
    [exact Hst|].
  destruct (query_of a (lookup st) fpath) as [q|]; [|auto].
  pose proof (process_lines_invariant P a q lines (Hstep q) st Hst) as H.
  destruct (process_lines a q lines st) as [st' [[]|e|m]]; simpl in *; auto.
Qed.

Lemma main_invariant (P : run_state -> Prop) a found :
  (forall q t s st, P st -> P (process_pair a q t s st)) ->
  P (initial_state a) -> P (main a found).1.
Proof.
  intros Hstep Hinit. unfold combine_motif_outputs.main.
  destruct (selected_files a found) as [|f files]; [exact Hinit|].
  cbv beta iota. generalize (f :: files). intros fs.
  pose proof (process_files_invariant P a fs Hstep _ Hinit) as H.
  destruct (process_files a fs (initial_state a)) as [st' [[]|e|m]]; exact H.
Qed.

(** The records written are counted by [total_kept], except in a dry
    run, which writes none. *)
Lemma main_kept_written (a : arguments) (found : list (string * list string)) :
  if dry_run a then written (main a found).1 = []
  else Z.of_nat (List.length (written (main a found).1)) = total_kept (main a found).1.
Proof.
  apply (main_invariant
           (fun st => if dry_run a then written st = []
                      else Z.of_nat (List.length (written st)) = total_kept st)).
  - intros q t s st H.
    unfold combine_motif_outputs.process_pair, combine_motif_outputs.emit. simpl.
    destruct (cleanup_id t (negb (no_lower a)) (lookup st)) as [t'|].
    + destruct (negb (keep_selfhits a) && String.eqb q t'); simpl; [exact H|].
      destruct (float_of_string s); simpl; [|exact H].
      destruct (dry_run a); [exact H|]. rewrite length_app. simpl. lia.
    + destruct (bool_decide (is_Some (lookup st)) && negb (keep_nonlookup a));
        simpl; [exact H|].
      destruct (negb (keep_selfhits a) && String.eqb q _); simpl; [exact H|].
      destruct (float_of_string s); simpl; [|exact H].
      destruct (dry_run a); [exact H|]. rewrite length_app. simpl. lia.
  - simpl. destruct (dry_run a); reflexivity.
Qed.

(** X26. The counters of the run are consistent: none is negative; the
    records kept, the self hits and the lines missing from the lookup are
    together at most the lines scanned; the distinct missing IDs are at
    most the missing lines; and the number of records written is the
    number kept, or zero in a dry run. *)
Theorem statistics_account (a : arguments) (found : list (string * list string)) :
  let st := (main a found).1 in
  0 <= total_kept st /\ 0 <= total_self st /\ 0 <= total_lookup_missing st /\
  total_kept st + total_self st + total_lookup_missing st <= total_raw_lines st /\
  Z.of_nat (size (missing_ids st)) <= total_lookup_missing st /\
  (if dry_run a then written st = []
   else Z.of_nat (List.length (written st)) = total_kept st).
Proof.
  intros st.
  assert (H : 0 <= total_kept st /\ 0 <= total_self st /\ 0 <= total_lookup_missing st /\
              total_kept st + total_self st + total_lookup_missing st
              <= total_raw_lines st /\
              Z.of_nat (size (missing_ids st)) <= total_lookup_missing st).
  { apply (main_invariant
             (fun st => 0 <= total_kept st /\ 0 <= total_self st /\
                        0 <= total_lookup_missing st /\
                        total_kept st + total_self st + total_lookup_missing st
                        <= total_raw_lines st /\
                        Z.of_nat (size (missing_ids st)) <= total_lookup_missing st)).
    - intros q t s st0 (H1 & H2 & H3 & H4 & H5).
      unfold combine_motif_outputs.process_pair, combine_motif_outputs.emit. simpl.
      destruct (cleanup_id t (negb (no_lower a)) (lookup st0)) as [t'|].
      + destruct (negb (keep_selfhits a) && String.eqb q t'); simpl;
          [repeat split; lia|].
        destruct (float_of_string s); simpl; repeat split; lia.
      + destruct (bool_decide (is_Some (lookup st0)) && negb (keep_nonlookup a)); simpl.
        * repeat split; try lia. rewrite size_union_alt.
          assert (size (({[ if contains "/" (strip t) then rsplit1_last "/" (strip t)
                            else strip t ]} : gset string) ∖ missing_ids st0) <= 1)%nat.
          { rewrite <- (size_singleton (C := gset string)
                          (if contains "/" (strip t) then rsplit1_last "/" (strip t)
                           else strip t)).
            apply subseteq_size, subseteq_difference_l. reflexivity. }
          lia.
        * destruct (negb (keep_selfhits a) && String.eqb q _); simpl;
            [repeat split; lia|].
          destruct (float_of_string s); simpl; repeat split; lia.
    - unfold initial_state.
      cbn [total_kept total_self total_lookup_missing total_raw_lines missing_ids].
      rewrite size_empty. repeat split; lia. }
  destruct H as (H1 & H2 & H3 & H4 & H5).
  repeat (split; [assumption|]). apply main_kept_written.
Qed.

Lemma cleanup_id_member raw lower_flag (valid : gset string) y :
  cleanup_id raw lower_flag (Some valid) = Some y -> y ∈ valid.
Proof.
  unfold cleanup_id. repeat case_bool_decide; simpl;
    destruct (endswith (normalize_id raw lower_flag) "_"); simpl;
    intros [= <-]; assumption.
Qed.

(** X22. With a lookup file and without [--keep-nonlookup], the query
    and the target of every written record are members of the lookup
    set. *)
Theorem strict_lookup_members (a : arguments) (found : list (string * list string))
        (lines : list string) (r : triplet) :
  scop_lookup a = Some lines ->
  keep_nonlookup a = false ->
  In r (written (main a found).1) ->
  query_id r ∈ load_lookup lines /\ target_id r ∈ load_lookup lines.
Proof.
  intros Hl Hk Hin.
  destruct (main_effect float_of_string a found) as [_ Hall].
  rewrite List.Forall_forall in Hall.
  destruct (Hall r Hin) as (fpath & q & t & s & Hq & Hr).
  rewrite Hl in Hq, Hr. simpl in Hq, Hr.
  assert (Hqm : q ∈ load_lookup lines).
  { unfold query_of in Hq.
    destruct (cleanup_id (extract_query_id fpath) _ _) as [q'|] eqn:E.
    - injection Hq as <-. exact (cleanup_id_member _ _ _ _ E).
    - rewrite Hk in Hq. discriminate. }
  unfold combine_motif_outputs.contribution in Hr.
  destruct (cleanup_id t _ _) as [t'|] eqn:E.
  - destruct (negb (keep_selfhits a) && String.eqb q t'); [contradiction|].
    destruct (float_of_string s); [|contradiction].
    destruct (dry_run a); [contradiction|].
    destruct Hr as [<-|[]]. simpl. split; [exact Hqm|exact (cleanup_id_member _ _ _ _ E)].
  - rewrite Hk in Hr. contradiction.
Qed.

(** X23. Without a lookup file, or with [--keep-nonlookup], no line is
    counted as missing from the lookup and no ID is collected for the
    report of missing IDs. *)
Theorem nothing_missing_unless_strict (a : arguments) (found : list (string * list string)) :
  scop_lookup a = None \/ keep_nonlookup a = true ->
  total_lookup_missing (main a found).1 = 0 /\ missing_ids (main a found).1 = ∅.
Proof.
  intros Hmode.
  assert (H : lookup (main a found).1 = option_map load_lookup (scop_lookup a) /\
              total_lookup_missing (main a found).1 = 0 /\
              missing_ids (main a found).1 = ∅); [|tauto].
  apply (main_invariant
           (fun st => lookup st = option_map load_lookup (scop_lookup a) /\
                      total_lookup_missing st = 0 /\ missing_ids st = ∅)).
  - intros q t s st (H1 & H2 & H3).
    unfold combine_motif_outputs.process_pair, combine_motif_outputs.emit. simpl.
    assert (Hstrict : bool_decide (is_Some (lookup st)) && negb (keep_nonlookup a) = false).
    { destruct Hmode as [E|E].
      - rewrite H1, E. reflexivity.
      - rewrite E. apply andb_false_r. }
    rewrite Hstrict.
    destruct (cleanup_id t (negb (no_lower a)) (lookup st)) as [t'|].
    + destruct (negb (keep_selfhits a) && String.eqb q t'); simpl; [auto|].
      destruct (float_of_string s); simpl; auto.
    + destruct (negb (keep_selfhits a) && String.eqb q _); simpl; [auto|].
      destruct (float_of_string s); simpl; auto.
  - simpl. auto.
Qed.

Lemma process_pair_statistics a q t s (st1 st2 : run_state) :
  lookup st1 = lookup st2 -> statistics st1 = statistics st2 ->
  lookup (process_pair (with_dry_run true a) q t s st1)
  = lookup (process_pair (with_dry_run false a) q t s st2) /\
  statistics (process_pair (with_dry_run true a) q t s st1)
  = statistics (process_pair (with_dry_run false a) q t s st2).
Proof.
  unfold statistics. intros Hl [= H1 H2 H3 H4 H5].
  unfold combine_motif_outputs.process_pair, combine_motif_outputs.emit. simpl.
  rewrite Hl, H1, H2, H3, H4, H5.
  destruct (cleanup_id t (negb (no_lower a)) (lookup st2)) as [t'|].
  - destruct (negb (keep_selfhits a) && String.eqb q t'); simpl; [auto|].
    destruct (float_of_string s); simpl; auto.
  - destruct (bool_decide (is_Some (lookup st2)) && negb (keep_nonlookup a));
      simpl; [auto|].
    destruct (negb (keep_selfhits a) && String.eqb q _); simpl; [auto|].
    destruct (float_of_string s); simpl; auto.
Qed.

Lemma process_lines_statistics a q lines :
  forall st1 st2 : run_state,
    lookup st1 = lookup st2 -> statistics st1 = statistics st2 ->
    lookup (process_lines (with_dry_run true a) q lines st1).1
    = lookup (process_lines (with_dry_run false a) q lines st2).1 /\
    statistics (process_lines (with_dry_run true a) q lines st1).1
    = statistics (process_lines (with_dry_run false a) q lines st2).1 /\
    (process_lines (with_dry_run true a) q lines st1).2
    = (process_lines (with_dry_run false a) q lines st2).2.
Proof.
  induction lines as [|line lines IH]; intros st1 st2 Hl Hs; simpl; [auto|].
  destruct (motif_line _ _ _ _ line) as [[[t s]|]|e|m]; simpl; auto.
  destruct (process_pair_statistics a q t s st1 st2 Hl Hs) as [Hl' Hs'].
  apply IH; assumption.
Qed.

Lemma process_files_statistics a files :
  forall st1 st2 : run_state,
    lookup st1 = lookup st2 -> statistics st1 = statistics st2 ->
    statistics (process_files (with_dry_run true a) files st1).1
    = statistics (process_files (with_dry_run false a) files st2).1 /\
    (process_files (with_dry_run true a) files st1).2
    = (process_files (with_dry_run false a) files st2).2.
Proof.
  induction files as [|[fpath lines] files IH]; intros st1 st2 Hl Hs; simpl; [auto|].
  change (query_of (with_dry_run true a) (lookup st1) fpath)
    with (query_of a (lookup st1) fpath).
  change (query_of (with_dry_run false a) (lookup st2) fpath)
    with (query_of a (lookup st2) fpath).
  rewrite Hl. destruct (query_of a (lookup st2) fpath) as [q|]; [|apply IH; assumption].
  destruct (process_lines_statistics a q lines st1 st2 Hl Hs) as (Hl' & Hs' & Hr).
  destruct (process_lines (with_dry_run true a) q lines st1) as [st1' r1].
  destruct (process_lines (with_dry_run false a) q lines st2) as [st2' r2].
  simpl in *. subst r2. destruct r1 as [[]|e|m]; simpl; auto.
Qed.

(** X27. A dry run ends with the same statistics and the same status
    as the run without [--dry-run] on the same input, writes no record,
    and its count of kept records is the number of records that the real
    run writes. *)
Theorem dry_run_same_statistics (a : arguments) (found : list (string * list string)) :
  let dry := main (with_dry_run true a) found in
  let real := main (with_dry_run false a) found in
  statistics dry.1 = statistics real.1 /\
  dry.2 = real.2 /\
  written dry.1 = [] /\
  total_kept dry.1 = Z.of_nat (List.length (written real.1)).
Proof.
  intros dry real.
  assert (H : statistics dry.1 = statistics real.1 /\ dry.2 = real.2).
  { unfold dry, real, combine_motif_outputs.main.
    change (selected_files (with_dry_run true a) found) with (selected_files a found).
    change (selected_files (with_dry_run false a) found) with (selected_files a found).
    destruct (selected_files a found) as [|f files]; [auto|].
    cbv beta iota. generalize (f :: files). intros fs.
    destruct (process_files_statistics a fs (initial_state (with_dry_run true a))
                (initial_state (with_dry_run false a)) eq_refl eq_refl) as [Hs Hr].
    destruct (process_files (with_dry_run true a) fs _) as [st1 r1].
    destruct (process_files (with_dry_run false a) fs _) as [st2 r2].
    simpl in *. subst r2. destruct r1 as [[]|e|m]; simpl; auto. }
  destruct H as [Hs Hr]. split; [exact Hs|]. split; [exact Hr|].
  pose proof (main_kept_written (with_dry_run true a) found) as Hd.
  pose proof (main_kept_written (with_dry_run false a) found) as Hre.
  fold dry in Hd. fold real in Hre.
  simpl in Hd, Hre. split; [exact Hd|].
  unfold statistics in Hs. injection Hs as _ Hk _ _ _. rewrite Hk, Hre. reflexivity.
Qed.

Lemma index_raises {A} (l : list A) i r :
  index l i = r -> (exists x, r = Ok x) \/ r = Raise IndexError.
Proof.
  unfold index. intros <-.
  destruct ((0 <=? _) && _); [|auto].
  destruct (nth_error l _); eauto.
Qed.

Lemma motif_line_raises tc sc mf ws line :
  (exists r, motif_line tc sc mf ws line = Ok r) \/
  motif_line tc sc mf ws line = Raise IndexError.
Proof.
  unfold motif_line.
  destruct (String.eqb _ _ || _); [eauto|].
  match goal with |- context [Z.of_nat (List.length ?p) <? mf] =>
    generalize p; intros parts end.
  destruct (_ <? mf); [eauto|].
  destruct ((_ <=? tc) || _); [eauto|].
  destruct (index_raises parts tc _ eq_refl) as [[x ->]| ->]; [|auto].
  destruct (index_raises parts sc _ eq_refl) as [[y ->]| ->]; [|auto].
  simpl. eauto.
Qed.

Lemma process_lines_outcome a q lines :
  forall st : run_state,
    (process_lines a q lines st).2 = Ok tt \/
    (process_lines a q lines st).2 = Raise IndexError.
Proof.
  induction lines as [|l lines IH]; intros st; simpl; [auto|].
  destruct (motif_line_raises (target_col a) (score_col a) (min_fields a)
                              (whitespace a) l) as [[[[t s]|] ->]| ->]; simpl; auto.
Qed.

Lemma process_lines_raise a q lines line e :
  In line lines ->
  motif_line (target_col a) (score_col a) (min_fields a) (whitespace a) line = Raise e ->
  forall st : run_state, (process_lines a q lines st).2 = Raise IndexError.
Proof.
  intros Hin Hm. induction lines as [|l lines IH]; [contradiction|]. intros st. simpl.
  destruct (motif_line_raises (target_col a) (score_col a) (min_fields a)
                              (whitespace a) l) as [[r Hr]|Hr]; rewrite Hr.
  - destruct Hin as [->|Hin]; [congruence|].
    destruct r as [[t s]|]; apply IH; assumption.
  - reflexivity.
Qed.

Lemma process_files_status a files :
  0 <= target_col a -> 0 <= score_col a ->
  forall st : run_state, (process_files a files st).2 = Ok tt.
Proof.
  intros Ht Hs. induction files as [|[fpath lines] files IH]; intros st; simpl;
    [reflexivity|].
  destruct (query_of a (lookup st) fpath) as [q|]; [|apply IH].
  pose proof (process_lines_status float_of_string a q lines Ht Hs st) as H.
  destruct (process_lines a q lines st) as [st' r]. simpl in H. subst r. apply IH.
Qed.

Lemma process_files_raise a files fpath lines line e q :
  In (fpath, lines) files -> In line lines ->
  motif_line (target_col a) (score_col a) (min_fields a) (whitespace a) line = Raise e ->
  forall st : run_state,
    query_of a (lookup st) fpath = Some q ->
    (process_files a files st).2 = Raise IndexError.
Proof.
  intros Hin Hl Hm. induction files as [|[f0 l0] files IH]; [contradiction|].
  intros st Hq. simpl.
  destruct (query_of a (lookup st) f0) as [q0|] eqn:Hq0.
  - pose proof (process_lines_outcome a q0 l0 st) as Hout.
    destruct (process_lines_effect float_of_string a q0 l0 st) as [Hlk _].
    destruct Hin as [[= -> ->]|Hin].
    + rewrite (process_lines_raise a q0 lines line e Hl Hm st) in Hout.
      pose proof (process_lines_raise a q0 lines line e Hl Hm st) as Hr.
      destruct (process_lines a q0 lines st) as [st' r]. simpl in Hr. subst r. reflexivity.
    + destruct (process_lines a q0 l0 st) as [st' r]. simpl in Hout, Hlk.
      destruct Hout as [-> | ->]; [|reflexivity].
      apply IH; [exact Hin|]. rewrite Hlk. exact Hq.
  - destruct Hin as [[= -> ->]|Hin]; [congruence|]. apply IH; assumption.
Qed.

(** X28. With column indices that are not negative the run never
    raises: [main] returns 1 when there is no file to process, having
    scanned and written nothing and opened no output file, and 0
    otherwise. *)
Theorem main_exit_status (a : arguments) (found : list (string * list string)) :
  0 <= target_col a -> 0 <= score_col a ->
  (main a found).2 = Ok (match selected_files a found with [] => 1 | _ => 0 end) /\
  (selected_files a found = [] ->
   written (main a found).1 = [] /\ total_raw_lines (main a found).1 = 0 /\
   forall string_of_float,
     output_text float_of_string string_of_float a found = None).
Proof.
  intros Ht Hs. unfold combine_motif_outputs.main, output_text.
  destruct (selected_files a found) as [|f files]; [auto|].
  split; [|discriminate].
  cbv beta iota. generalize (f :: files). intros fs.
  pose proof (process_files_status a fs Ht Hs (initial_state a)) as H.
  destruct (process_files a fs (initial_state a)) as [st' r]. simpl in H. subst r.
  reflexivity.
Qed.

(** X29. One line on which a column index is out of range ends the
    whole run with [IndexError]; this can happen only with a negative
    [--target-col] or [--score-col]. *)
Theorem out_of_range_column_aborts (a : arguments) (found : list (string * list string))
        (fpath line q : string) (lines : list string) (e : exn) :
  In (fpath, lines) (selected_files a found) ->
  query_of a (option_map load_lookup (scop_lookup a)) fpath = Some q ->
  In line lines ->
  motif_line (target_col a) (score_col a) (min_fields a) (whitespace a) line = Raise e ->
  (main a found).2 = Raise IndexError /\ (target_col a < 0 \/ score_col a < 0).
Proof.
  intros Hin Hq Hl Hm. split.
  - unfold combine_motif_outputs.main.
    destruct (selected_files a found) as [|f files]; [contradiction|].
    revert Hin. cbv beta iota. generalize (f :: files). intros fs Hin.
    pose proof (process_files_raise a fs fpath lines line e q Hin Hl Hm
                  (initial_state a) Hq) as H.
    destruct (process_files a fs (initial_state a)) as [st' r]. simpl in H. subst r.
    reflexivity.
  - destruct (Z.ltb_spec (target_col a) 0) as [?|Ht]; [auto|].
    destruct (Z.ltb_spec (score_col a) 0) as [?|Hs]; [auto|].
    destruct (motif_line_total (target_col a) (score_col a) (min_fields a)
                               (whitespace a) line Ht Hs) as [r Hr].
    congruence.
Qed.

End CombinerCounters.

(** ** The normal form of an ID *)

Section NormalForm.

Import PyStr combine_motif_outputs.

Lemma lower_char_idempotent c : lower_char (lower_char c) = lower_char c.
Proof. destruct c as [[] [] [] [] [] [] [] []]; reflexivity. Qed.

Lemma lower_idempotent s : lower (lower s) = lower s.
Proof.
  induction s as [|c s IH]; simpl; [reflexivity|].
  rewrite lower_char_idempotent, IH. reflexivity.
Qed.

Lemma lower_app a b : lower (a +:+ b) = lower a +:+ lower b.
Proof.
  induction a as [|c a IH]; [reflexivity|].
  rewrite app_String. simpl. rewrite IH. reflexivity.
Qed.

Lemma lower_substring s : forall n m,
  lower (String.substring n m s) = String.substring n m (lower s).
Proof.
  induction s as [|c s IH]; intros n m; simpl.
  - destruct n, m; reflexivity.
  - destruct n; [destruct m; simpl; [reflexivity|rewrite IH; reflexivity]|apply IH].
Qed.

Lemma lower_length s : String.length (lower s) = String.length s.
Proof. induction s as [|c s IH]; simpl; congruence. Qed.

Lemma lower_drop_last k s : lower (drop_last k s) = drop_last k (lower s).
Proof. unfold drop_last. rewrite lower_substring, lower_length. reflexivity. Qed.

Lemma lower_char_slash c : Ascii.eqb "/" (lower_char c) = Ascii.eqb "/" c.
Proof. destruct c as [[] [] [] [] [] [] [] []]; reflexivity. Qed.

Lemma contains_slash_lower s : contains "/" (lower s) = contains "/" s.
Proof.
  induction s as [|c s IH]; simpl; [reflexivity|].
  rewrite IH. f_equal. apply lower_char_slash.
Qed.

Lemma contains_substring c s : forall n m,
  contains c s = false -> contains c (String.substring n m s) = false.
Proof.
  induction s as [|d s IH]; intros n m; simpl.
  - destruct n, m; reflexivity.
  - intros H. apply orb_false_iff in H as [Hd Hs].
    destruct n; [destruct m; simpl; [reflexivity|rewrite Hd; apply IH, Hs]|apply IH, Hs].
Qed.

Lemma rsplit1_none c s : rsplit1 c s = None -> contains c s = false.
Proof.
  induction s as [|d s IH]; simpl; [reflexivity|].
  destruct (rsplit1 c s) as [[? ?]|]; [discriminate|].
  destruct (Ascii.eqb_spec d c) as [->|Hne]; [discriminate|].
  intros _. rewrite (IH eq_refl). destruct (Ascii.eqb_spec c d); [congruence|reflexivity].
Qed.

Lemma rsplit1_tail_no_sep c s h t : rsplit1 c s = Some (h, t) -> contains c t = false.
Proof.
  revert h t. induction s as [|d s IH]; intros h t; simpl; [discriminate|].
  destruct (rsplit1 c s) as [[h' t']|] eqn:E.
  - intros [= <- <-]. apply (IH _ _ eq_refl).
  - destruct (Ascii.eqb d c); [|discriminate]. intros [= <- <-].
    apply rsplit1_none, E.
Qed.

Lemma basename_no_slash s :
  contains "/" (if contains "/" s then rsplit1_last "/" s else s) = false.
Proof.
  destruct (contains "/" s) eqn:E; [|exact E].
  unfold rsplit1_last. destruct (rsplit1 "/" s) as [[h t]|] eqn:Er.
  - apply (rsplit1_tail_no_sep _ _ _ _ Er).
  - apply rsplit1_none, Er.
Qed.

Lemma strip_exts_pass_fold exts :
  forall x d x',
    fold_left
      (fun '(x, done) ext =>
         if endswith (lower x) ext then (drop_last (String.length ext) x, false)
         else (x, done))
      exts (x, d) = (x', true) ->
    d = true /\ x' = x /\ Forall (fun ext => endswith (lower x) ext = false) exts.
Proof.
  induction exts as [|ext exts IH]; intros x d x'; simpl.
  - intros [= -> ->]. auto.
  - destruct (endswith (lower x) ext) eqn:E; intros H; apply IH in H.
    + destruct H as [H _]. discriminate.
    + destruct H as (-> & -> & H). auto.
Qed.

Lemma strip_exts_pass_no_char c exts :
  forall x d,
    contains c x = false ->
    contains c (fold_left
      (fun '(x, done) ext =>
         if endswith (lower x) ext then (drop_last (String.length ext) x, false)
         else (x, done))
      exts (x, d)).1 = false.
Proof.
  induction exts as [|ext exts IH]; intros x d H; simpl; [exact H|].
  destruct (endswith (lower x) ext); apply IH; [|exact H].
  apply contains_substring, H.
Qed.

Lemma strip_exts_pass_done x x' :
  strip_exts_pass x = (x', true) ->
  x' = x /\ Forall (fun ext => endswith (lower x) ext = false) STRUCT_EXTS.
Proof. intros H. apply strip_exts_pass_fold in H. tauto. Qed.

Lemma strip_exts_pass_keeps c x :
  contains c x = false -> contains c (strip_exts_pass x).1 = false.
Proof. apply strip_exts_pass_no_char. Qed.

(** What the extension loop returns ends with no extension. *)
Lemma strip_exts_done x :
  Forall (fun ext => endswith (lower (strip_exts x)) ext = false) STRUCT_EXTS.
Proof.
  funelim (strip_exts x).
  - destruct (strip_exts_pass_done _ _ e) as [-> Hall]. exact Hall.
  - assumption.
Qed.

Lemma strip_exts_no_char c x :
  contains c x = false -> contains c (strip_exts x) = false.
Proof.
  funelim (strip_exts x); intros Hc.
  - pose proof (strip_exts_pass_keeps c x Hc) as H'. rewrite e in H'. exact H'.
  - apply H.
    pose proof (strip_exts_pass_keeps c x Hc) as H'. rewrite e in H'. exact H'.
Qed.

(** X19. The ID that [cleanup_id] works with after its clean-up steps
    contains no [/], ends (case-insensitively) with none of the
    extensions, and is lowercase when lowercasing is on; if it also has no
    surrounding white space, cleaning it again returns it unchanged. *)
Theorem normalize_id_normal (raw : string) (lower_flag : bool) :
  let x := normalize_id raw lower_flag in
  contains "/" x = false /\
  Forall (fun ext => endswith (lower x) ext = false) STRUCT_EXTS /\
  (lower_flag = true -> lower x = x) /\
  (strip x = x -> normalize_id x lower_flag = x /\ cleanup_id x lower_flag None = Some x).
Proof.
  intros x.
  assert (H1 : contains "/" x = false).
  { unfold x, normalize_id.
    pose proof (strip_exts_no_char "/" _ (basename_no_slash (strip raw))) as H.
    destruct lower_flag; [rewrite contains_slash_lower|]; exact H. }
  assert (H2 : Forall (fun ext => endswith (lower x) ext = false) STRUCT_EXTS).
  { unfold x, normalize_id. destruct lower_flag; [rewrite lower_idempotent|];
      apply strip_exts_done. }
  assert (H3 : lower_flag = true -> lower x = x).
  { intros ->. unfold x, normalize_id. apply lower_idempotent. }
  split; [exact H1|]. split; [exact H2|]. split; [exact H3|].
  intros Hs.
  assert (E : normalize_id x lower_flag = x) by (apply normalize_id_clean; assumption).
  split; [exact E|]. unfold cleanup_id. rewrite E. reflexivity.
Qed.

Lemma cleanup_id_lowercase raw lk y :
  cleanup_id raw true lk = Some y -> lower y = y.
Proof.
  unfold cleanup_id. cbv zeta.
  assert (Hx : lower (normalize_id raw true) = normalize_id raw true)
    by apply lower_idempotent.
  generalize dependent (normalize_id raw true). intros x Hx.
  destruct lk as [valid|]; [|intros [= <-]; exact Hx].
  destruct (bool_decide _); [intros [= <-]; exact Hx|].
  destruct (_ && _); [intros [= <-]; rewrite lower_app, Hx; reflexivity|].
  destruct (_ && _); [|discriminate].
  intros [= <-]. rewrite lower_drop_last, Hx. reflexivity.
Qed.

(** X18. The set that [load_lookup] builds holds exactly the stripped
    first tab-separated fields of the lines of the lookup file that are not
    blank and do not start with [#], except the empty field. *)
Theorem load_lookup_members (lines : list string) (x : string) :
  x ∈ load_lookup lines <->
  exists line,
    In line lines /\ strip line <> "" /\ startswith line "#" = false /\
    x = strip (List.hd "" (split "009" line)) /\ x <> "".
Proof.
  unfold load_lookup.
  set (f := fun (valid : gset string) line =>
              if String.eqb (strip line) "" || startswith line "#" then valid
              else
                let first := strip (List.hd "" (split "009" line)) in
                if String.eqb first "" then valid else valid ∪ {[ first ]}).
  set (P := fun line => strip line <> "" /\ startswith line "#" = false /\
                        x = strip (List.hd "" (split "009" line)) /\ x <> "").
  assert (H : forall acc : gset string,
             x ∈ fold_left f lines acc <-> x ∈ acc \/ exists line, In line lines /\ P line).
  { induction lines as [|line lines IH]; intros acc; simpl.
    - split; [auto|]. intros [?|(? & [] & _)]. assumption.
    - rewrite IH. unfold f at 1, P.
      destruct (String.eqb_spec (strip line) "") as [E|E]; simpl.
      + split; [intros [?|(l & ? & ?)]; eauto|].
        intros [?|(l & [<-|?] & HP)]; [auto| |eauto].
        destruct HP as [HP _]. contradiction.
      + destruct (startswith line "#") eqn:Es.
        * split; [intros [?|(l & ? & ?)]; eauto|].
          intros [?|(l & [<-|?] & HP)]; [auto| |eauto].
          destruct HP as (_ & HP & _). congruence.
        * destruct (String.eqb_spec (strip (List.hd "" (split "009" line))) "") as [E'|E'].
          -- split; [intros [?|(l & ? & ?)]; eauto|].
             intros [?|(l & [<-|?] & HP)]; [auto| |eauto].
             destruct HP as (_ & _ & HP & HP'). congruence.
          -- rewrite elem_of_union, elem_of_singleton. split.
             ++ intros [[?| ->]|(l & ? & ?)]; [auto| |eauto].
                right. exists line. split; [left; reflexivity|]. repeat split; assumption.
             ++ intros [?|(l & [<-|?] & HP)]; [auto| |eauto].
                left. right. destruct HP as (_ & _ & HP & _). exact HP. }
  rewrite H. split; [intros [Hx|?]; [|assumption]|auto].
  apply elem_of_empty in Hx. contradiction.
Qed.

(** X21. [extract_query_id] undoes the naming of result files
    [<stem>_motif.out], the one the generator uses for the third column
    of a row: for a stem without [/] it recovers the stem from the file
    name alone and from the file in any directory, whatever underscores
    the stem contains. *)
Theorem query_id_of_result_file (dir stem : string) :
  contains "/" stem = false ->
  extract_query_id (stem +:+ "_motif.out") = stem /\
  extract_query_id (dir +:+ "/" +:+ stem +:+ "_motif.out") = stem.
Proof.
  intros Hs.
  assert (Hname : contains "/" (stem +:+ "_motif.out") = false)
    by (rewrite contains_app, Hs; reflexivity).
  assert (Hhead : rsplit1_head "_" (stem +:+ "_motif.out") = stem).
  { unfold rsplit1_head.
    change (stem +:+ "_motif.out") with (stem +:+ String "_" "motif.out").
    rewrite rsplit1_last_sep by reflexivity. reflexivity. }
  unfold extract_query_id. split.
  - unfold basename, rsplit1_last. rewrite (rsplit1_no_sep _ _ Hname). exact Hhead.
  - rewrite (basename_in_dir dir _ Hname). exact Hhead.
Qed.

Lemma query_id_of_result_file_witness :
  contains "/" "d1twfa_" = false /\
  extract_query_id "d1twfa__motif.out" = "d1twfa_" /\
  extract_query_id "/out/50/d1twfa__motif.out" = "d1twfa_".
Proof.
  split; [reflexivity|].
  exact (query_id_of_result_file "/out/50" "d1twfa_" eq_refl).
Defined.

End NormalForm.

Section LowercaseOutput.

Import PyStr combine_motif_outputs.

Context {F : Type}.
Variable float_of_string : string -> option F.

(** X24. Unless [--no-lower] is given, the query and the target of
    every written record are lowercase. *)
Theorem written_ids_lowercase (a : arguments) (found : list (string * list string))
        (r : triplet) :
  no_lower a = false ->
  In r (written (main float_of_string a found).1) ->
  lower (query_id r) = query_id r /\ lower (target_id r) = target_id r.
Proof.
  intros Hl Hin.
  destruct (main_effect float_of_string a found) as [_ Hall].
  rewrite List.Forall_forall in Hall.
  destruct (Hall r Hin) as (fpath & q & t & s & Hq & Hr).
  assert (Hql : lower q = q).
  { unfold query_of in Hq. rewrite Hl in Hq. simpl in Hq.
    destruct (cleanup_id (extract_query_id fpath) true _) as [q'|] eqn:E.
    - injection Hq as <-. exact (cleanup_id_lowercase _ _ _ E).
    - destruct (_ && _); [discriminate|]. injection Hq as <-. apply lower_idempotent. }
  unfold contribution in Hr. rewrite Hl in Hr. simpl negb in Hr.
  destruct (cleanup_id t true _) as [t'|] eqn:E.
  - destruct (_ && String.eqb q t'); [contradiction|].
    destruct (float_of_string s); [|contradiction].
    destruct (dry_run a); [contradiction|].
    destruct Hr as [<-|[]]. simpl. split; [exact Hql|exact (cleanup_id_lowercase _ _ _ E)].
  - destruct (bool_decide _ && _); [contradiction|].
    destruct (_ && String.eqb q _); [contradiction|].
    destruct (float_of_string s); [|contradiction].
    destruct (dry_run a); [contradiction|].
    destruct Hr as [<-|[]]. simpl. split; [exact Hql|].
    unfold fallback_id. apply lower_idempotent.
Qed.

End LowercaseOutput.

(** ** The output as a table *)

Section TabFree.

Import PyStr combine_motif_outputs.

Lemma lstrip_no_char c s : contains c s = false -> contains c (lstrip s) = false.
Proof.
  induction s as [|d s IH]; simpl; [auto|].
  intros H. destruct (isspace d); [|exact H].
  apply orb_false_iff in H as [_ H]. auto.
Qed.

Lemma rstrip_no_char c s : contains c s = false -> contains c (rstrip s) = false.
Proof.
  induction s as [|d s IH]; simpl; [auto|].
  intros H. apply orb_false_iff in H as [Hd Hs]. specialize (IH Hs).
  destruct (rstrip s) as [|e r].
  - destruct (isspace d); [reflexivity|]. simpl. rewrite Hd. reflexivity.
  - simpl in *. rewrite Hd. exact IH.
Qed.

Lemma strip_no_char c s : contains c s = false -> contains c (strip s) = false.
Proof. intros H. apply rstrip_no_char, lstrip_no_char, H. Qed.

Lemma rsplit1_last_no_char c d s :
  contains c s = false -> contains c (rsplit1_last d s) = false.
Proof.
  unfold rsplit1_last. intros H.
  destruct (rsplit1 d s) as [[h t]|] eqn:E; [|exact H].
  revert h t E H. induction s as [|e s IH]; intros h t; simpl; [discriminate|].
  destruct (rsplit1 d s) as [[h' t']|].
  - intros [= <- <-] H. apply orb_false_iff in H as [_ Hs]. apply (IH _ _ eq_refl Hs).
  - destruct (Ascii.eqb e d); [|discriminate].
    intros [= <- <-] H. apply orb_false_iff in H as [_ Hs]. exact Hs.
Qed.

Lemma lower_char_tab c : Ascii.eqb "009" (lower_char c) = Ascii.eqb "009" c.
Proof. destruct c as [[] [] [] [] [] [] [] []]; reflexivity. Qed.

Lemma contains_tab_lower s : contains "009" (lower s) = contains "009" s.
Proof.
  induction s as [|c s IH]; simpl; [reflexivity|].
  rewrite IH. f_equal. apply lower_char_tab.
Qed.

Lemma normalize_id_no_tab raw lower_flag :
  contains "009" raw = false -> contains "009" (normalize_id raw lower_flag) = false.
Proof.
  intros H. unfold normalize_id.
  assert (H1 : contains "009" (strip raw) = false) by (apply strip_no_char, H).
  assert (H2 : contains "009" (if contains "/" (strip raw)
                               then rsplit1_last "/" (strip raw) else strip raw) = false).
  { destruct (contains "/" (strip raw)); [apply rsplit1_last_no_char|]; exact H1. }
  pose proof (strip_exts_no_char "009" _ H2) as H3.
  destruct lower_flag; [rewrite contains_tab_lower|]; exact H3.
Qed.

Lemma cleanup_id_no_tab raw lower_flag lk y :
  contains "009" raw = false ->
  cleanup_id raw lower_flag lk = Some y -> contains "009" y = false.
Proof.
  intros H. pose proof (normalize_id_no_tab raw lower_flag H) as Hx.
  unfold cleanup_id. cbv zeta.
  generalize dependent (normalize_id raw lower_flag). intros x Hx.
  destruct lk as [valid|]; [|intros [= <-]; exact Hx].
  destruct (bool_decide _); [intros [= <-]; exact Hx|].
  destruct (_ && _); [intros [= <-]; rewrite contains_app, Hx; reflexivity|].
  destruct (_ && _); [|discriminate].
  intros [= <-]. apply contains_substring, Hx.
Qed.

Lemma fallback_id_no_tab raw lower_flag :
  contains "009" raw = false -> contains "009" (fallback_id raw lower_flag) = false.
Proof.
  intros H. unfold fallback_id.
  assert (H1 : contains "009" (strip raw) = false) by (apply strip_no_char, H).
  assert (H2 : contains "009" (if contains "/" (strip raw)
                               then rsplit1_last "/" (strip raw) else strip raw) = false).
  { destruct (contains "/" (strip raw)); [apply rsplit1_last_no_char|]; exact H1. }
  generalize dependent (if contains "/" (strip raw)
                        then rsplit1_last "/" (strip raw) else strip raw).
  intros x Hx.
  assert (H3 : contains "009"
                 match List.find (fun ext => endswith (lower x) ext) STRUCT_EXTS with
                 | Some ext => drop_last (String.length ext) x
                 | None => x
                 end = false).
  { destruct (List.find _ _); [apply contains_substring|]; exact Hx. }
  destruct lower_flag; [rewrite contains_tab_lower|]; exact H3.
Qed.

Lemma index_In {A} (l : list A) i x : index l i = Ok x -> In x l.
Proof.
  unfold index. destruct (_ && _); [|discriminate].
  destruct (nth_error l _) eqn:E; [|discriminate].
  intros [= <-]. eapply nth_error_In, E.
Qed.

Lemma picked_columns_no_tab (parts : list string) tc sc mf t s :
  Forall (fun w => contains "009" w = false) parts ->
  (if Z.of_nat (List.length parts) <? mf then Ok None
   else if (Z.of_nat (List.length parts) <=? tc) || (Z.of_nat (List.length parts) <=? sc)
        then Ok None
        else target ← index parts tc; score ← index parts sc; Ok (Some (target, score)))
  = Ok (Some (t, s)) ->
  contains "009" t = false /\ contains "009" s = false.
Proof.
  intros Hparts.
  destruct (_ <? mf); [discriminate|].
  destruct (_ || _); [discriminate|].
  destruct (index parts tc) as [t'| |] eqn:Et; try discriminate.
  destruct (index parts sc) as [s'| |] eqn:Es; try discriminate.
  intros [= <- <-]. rewrite List.Forall_forall in Hparts.
  split; apply Hparts; eapply index_In; eassumption.
Qed.

Lemma motif_line_no_tab tc sc mf ws line t s :
  motif_line tc sc mf ws line = Ok (Some (t, s)) ->
  contains "009" t = false /\ contains "009" s = false.
Proof.
  unfold motif_line. cbv zeta.
  destruct (String.eqb _ _ || _); [discriminate|].
  destruct ws; [apply picked_columns_no_tab, split_ws_no_tab|].
  destruct (Z.of_nat (List.length (split "009" (strip line))) <? mf) eqn:E.
  - apply picked_columns_no_tab, split_ws_no_tab.
  - apply picked_columns_no_tab, split_parts_no_sep.
Qed.

Context {F : Type}.
Variable float_of_string : string -> option F.

Lemma contribution_target_no_tab a lk q t s r :
  contains "009" t = false ->
  In r (contribution float_of_string a lk q t s) ->
  query_id r = q /\ contains "009" (target_id r) = false.
Proof.
  intros Ht. unfold contribution.
  destruct (cleanup_id t _ lk) as [t'|] eqn:E.
  - destruct (_ && String.eqb q t'); [intros []|].
    destruct (float_of_string s); [|intros []].
    destruct (dry_run a); [intros []|]. intros [<-|[]]. simpl.
    split; [reflexivity|exact (cleanup_id_no_tab _ _ _ _ Ht E)].
  - destruct (bool_decide _ && _); [intros []|].
    destruct (_ && String.eqb q _); [intros []|].
    destruct (float_of_string s); [|intros []].
    destruct (dry_run a); [intros []|]. intros [<-|[]]. simpl.
    split; [reflexivity|apply fallback_id_no_tab, Ht].
Qed.

Lemma query_of_no_tab a lk fpath q :
  contains "009" fpath = false -> query_of a lk fpath = Some q -> contains "009" q = false.
Proof.
  intros Hf. unfold query_of.
  assert (Hq : contains "009" (extract_query_id fpath) = false).
  { unfold extract_query_id, basename, rsplit1_head.
    pose proof (rsplit1_last_no_char "009" "/" fpath Hf) as Hb.
    destruct (rsplit1 "_" (rsplit1_last "/" fpath)) as [[h t]|] eqn:E; [|exact Hb].
    clear - E Hb. revert h t E Hb.
    induction (rsplit1_last "/" fpath) as [|e s IH]; intros h t; simpl; [discriminate|].
    destruct (rsplit1 "_" s) as [[h' t']|].
    - intros [= <- <-] H. apply orb_false_iff in H as [He Hs]. simpl.
      rewrite He. apply (IH _ _ eq_refl Hs).
    - destruct (Ascii.eqb e "_"); [|discriminate]. intros [= <- <-] _. reflexivity. }
  destruct (cleanup_id (extract_query_id fpath) _ lk) as [q'|] eqn:E.
  - intros [= <-]. exact (cleanup_id_no_tab _ _ _ _ Hq E).
  - destruct (_ && _); [discriminate|]. intros [= <-].
    destruct (negb (no_lower a)); [rewrite contains_tab_lower|]; exact Hq.
Qed.

Lemma process_lines_tab_free a q lines :
  forall st : run_state,
    exists more,
      written (process_lines float_of_string a q lines st).1 = written st ++ more /\
      Forall (fun r => query_id r = q /\ contains "009" (target_id r) = false) more.
Proof.
  induction lines as [|line lines IH]; intros st; simpl.
  - exists []. rewrite app_nil_r. auto.
  - destruct (motif_line _ _ _ _ line) as [[[t s]|]|e|m] eqn:Em; simpl.
    + destruct (IH (process_pair float_of_string a q t s st)) as (more & Hw & Hall).
      destruct (process_pair_effect float_of_string a q t s st) as [_ Hw'].
      exists (contribution float_of_string a (lookup st) q t s ++ more).
      rewrite Hw, Hw', <- app_assoc. split; [reflexivity|].
      apply Forall_app. split; [|exact Hall].
      apply List.Forall_forall. intros r Hr.
      destruct (motif_line_no_tab _ _ _ _ _ _ _ Em) as [Ht _].
      exact (contribution_target_no_tab a _ q t s r Ht Hr).
    + apply IH.
    + exists []. rewrite app_nil_r. auto.
    + exists []. rewrite app_nil_r. auto.
Qed.

Lemma process_files_tab_free a files :
  Forall (fun f => contains "009" f.1 = false) files ->
  forall st : run_state,
    exists more,
      written (process_files float_of_string a files st).1 = written st ++ more /\
      Forall (fun r => contains "009" (query_id r) = false /\
                       contains "009" (target_id r) = false) more.
Proof.
  induction 1 as [|[fpath lines] files Hf Hfiles IH]; intros st; simpl.
  - exists []. rewrite app_nil_r. auto.
  - destruct (query_of a (lookup st) fpath) as [q|] eqn:Hq; [|apply IH].
    destruct (process_lines_tab_free a q lines st) as (more & Hw & Hall).
    assert (Hmore : Forall (fun r => contains "009" (query_id r) = false /\
                                     contains "009" (target_id r) = false) more).
    { eapply List.Forall_impl; [|exact Hall]. intros r [-> Ht].
      split; [|exact Ht]. exact (query_of_no_tab a _ fpath q Hf Hq). }
    destruct (process_lines float_of_string a q lines st) as [st' [[]|e|m]]; simpl in *.
    + destruct (IH st') as (more2 & Hw2 & Hall2).
      exists (more ++ more2). rewrite Hw2, Hw, <- app_assoc. split; [reflexivity|].
      apply Forall_app. split; assumption.
    + eauto.
    + eauto.
Qed.

Lemma firstn_Forall {A} (P : A -> Prop) n (l : list A) : Forall P l -> Forall P (firstn n l).
Proof.
  intros H. apply List.Forall_forall. intros x Hx.
  rewrite List.Forall_forall in H. apply H. eapply firstn_incl, Hx.
Qed.

(** X25. When no path of a motif file contains a tab, neither the
    query nor the target of a written record does, so that the line
    written for the record splits at its tabs into the query, the target
    and what follows them. *)
Theorem written_ids_tab_free (a : arguments) (found : list (string * list string))
        (string_of_float : F -> string) (r : triplet) :
  Forall (fun f => contains "009" f.1 = false) found ->
  In r (written (main float_of_string a found).1) ->
  contains "009" (query_id r) = false /\
  contains "009" (target_id r) = false /\
  exists rest,
    format_record string_of_float r = query_id r +:+ tab +:+ target_id r +:+ tab +:+ rest /\
    split "009" (format_record string_of_float r)
    = query_id r :: target_id r :: split "009" rest.
Proof.
  intros Hfound Hin.
  assert (Hsel : Forall (fun f => contains "009" f.1 = false) (selected_files a found)).
  { unfold selected_files. destruct (max_files a) as [n|]; [|exact Hfound].
    destruct (n =? 0); [exact Hfound|]. unfold slice_to.
    destruct (n <? 0); apply firstn_Forall, Hfound. }
  assert (H : contains "009" (query_id r) = false /\ contains "009" (target_id r) = false).
  { unfold main in Hin. destruct (selected_files a found) as [|f files]; [destruct Hin|].
    revert Hin Hsel. cbv beta iota. generalize (f :: files). intros fs Hin Hsel.
    destruct (process_files_tab_free a fs Hsel (initial_state a)) as (more & Hw & Hall).
    destruct (process_files float_of_string a fs (initial_state a)) as [st' [[]|e|m]];
      simpl in *; rewrite Hw in Hin; rewrite List.Forall_forall in Hall; auto. }
  destruct H as [Hq Ht]. split; [exact Hq|]. split; [exact Ht|].
  exists (string_of_float (score r) +:+ nl). split; [reflexivity|].
  unfold format_record, tab.
  change (query_id r +:+ String "009" "" +:+ ?x) with (query_id r +:+ String "009" x).
  rewrite (split_app "009" _ _ Hq).
  change (target_id r +:+ String "009" "" +:+ ?x) with (target_id r +:+ String "009" x).
  rewrite (split_app "009" _ _ Ht). reflexivity.
Qed.

End TabFree.

(** ** Further properties on sample inputs *)

Section MoreSampleRuns.

Import PyStr Samples generate_folddisco_input.

Lemma select_indices_top_witness :
  let scores := [PyFloat.of_Z 5; PyFloat.of_Z 9; PyFloat.of_Z 7] in
  generate_folddisco_input.select_indices scores (PyFloat.of_Z 50) 1 = Ok [2; 3] /\
  StronglySorted (fun i j => outranks scores i j = true) [2; 3] /\
  (forall i j, In i [2; 3] -> 1 <= j <= Z.of_nat (List.length scores) -> ~ In j [2; 3] ->
               outranks scores i j = true).
Proof.
  intros scores.
  assert (H : generate_folddisco_input.select_indices scores (PyFloat.of_Z 50) 1
              = Ok [2; 3]) by (vm_compute; reflexivity).
  split; [exact H|]. exact (select_indices_top scores (PyFloat.of_Z 50) 1 [2; 3] H).
Defined.

Lemma nonfinite_percent_raises_witness :
  let scores := [PyFloat.of_Z 5; PyFloat.of_Z 9] in
  scores <> [] /\ Z.of_nat (List.length scores) < 2 ^ 63 /\
  generate_folddisco_input.select_indices scores S754_nan 1 = Raise ValueError /\
  (forall s, generate_folddisco_input.select_indices scores (S754_infinity s) 1
             = Raise OverflowError).
Proof.
  intros scores.
  assert (H1 : scores <> []) by discriminate.
  assert (H2 : Z.of_nat (List.length scores) < 2 ^ 63) by (simpl; lia).
  split; [exact H1|]. split; [exact H2|].
  destruct (nonfinite_percent_raises join_path only_d1twfa no_glob per_chain_args
              [] [] scores eq_refl ltac:(discriminate) H1 H2) as (Ha & Hb & _).
  split; [exact Ha|exact Hb].
Defined.


Lemma merged_rows_grouped_witness :
  let ids := ["d1twfa__A"; "d1y5ia2_A"; "d1twfa__B"] in
  let score_lines := [[PyFloat.of_Z 5; PyFloat.of_Z 9]; [PyFloat.of_Z 1];
                      [PyFloat.of_Z 7; PyFloat.of_Z 3]] in
  let entries := chain_entries merged_args (combine ids score_lines) in
  entries = [("d1twfa_", ("A", [2])); ("d1y5ia2", ("A", [1])); ("d1twfa_", ("B", [1]))] /\
  first_occurrences (map fst entries) = ["d1twfa_"; "d1y5ia2"] /\
  exists rows out_dir,
    generate_folddisco_input.main join_path only_d1twfa no_glob merged_args
      ids score_lines = Ok rows /\
    rows = map (fun b => generate_folddisco_input.merged_row join_path only_d1twfa no_glob
                           merged_args out_dir (b, values_of b entries))
               (first_occurrences (map fst entries)).
Proof.
  intros ids score_lines entries.
  split; [vm_compute; reflexivity|]. split; [vm_compute; reflexivity|].
  destruct (generate_folddisco_input.main join_path only_d1twfa no_glob merged_args
              ids score_lines) as [rows| |] eqn:E; [|vm_compute in E; discriminate..].
  destruct (merged_rows_grouped join_path only_d1twfa no_glob merged_args
              ids score_lines rows eq_refl E) as (out_dir & Hrows & _).
  exists rows, out_dir. split; [reflexivity|exact Hrows].
Defined.

Lemma merged_covers_ids_witness :
  let ids := ["d1twfa__A"; "d1y5ia2_A"; "d1twfa__B"] in
  let score_lines := [[PyFloat.of_Z 5; PyFloat.of_Z 9]; [];
                      [PyFloat.of_Z 7; PyFloat.of_Z 3]] in
  PyFloat.moderate (generate_folddisco_input.percent merged_args) = true /\
  exists rows,
    generate_folddisco_input.main join_path only_d1twfa no_glob merged_args
      ids score_lines = Ok rows /\
    map generate_folddisco_input.row_pdb rows = ["/pdb/d1twfa_.pdb"].
Proof.
  intros ids score_lines. split; [reflexivity|].
  destruct (generate_folddisco_input.main join_path only_d1twfa no_glob merged_args
              ids score_lines) as [rows| |] eqn:E; [|vm_compute in E; discriminate..].
  exists rows. split; [reflexivity|].
  apply (merged_covers_ids join_path only_d1twfa no_glob merged_args
           ids score_lines rows eq_refl eq_refl);
    [left; simpl; lia|repeat constructor; simpl; lia|exact E].
Defined.

Lemma strict_lookup_members_witness :
  let found := [("out/d1abc__motif.out", [hit "/pdb/D1XYZ_.pdb" "1.5"; hit "d9zzz_" "2"])] in
  let r := {| combine_motif_outputs.query_id := "d1abc_";
              combine_motif_outputs.target_id := "d1xyz_";
              combine_motif_outputs.score := PyFloat.of_decimal false 15 (-1) |} in
  In r (combine_motif_outputs.written
          (combine_motif_outputs.main PyFloat.of_string lookup_args found).1) /\
  combine_motif_outputs.query_id r
    ∈ combine_motif_outputs.load_lookup [hit "d1abc_" "a.1.1.1"; hit "d1xyz_" "b.2.1.1"] /\
  combine_motif_outputs.target_id r
    ∈ combine_motif_outputs.load_lookup [hit "d1abc_" "a.1.1.1"; hit "d1xyz_" "b.2.1.1"].
Proof.
  intros found r.
  assert (H : In r (combine_motif_outputs.written
                      (combine_motif_outputs.main PyFloat.of_string lookup_args found).1))
    by (vm_compute; left; reflexivity).
  split; [exact H|].
  exact (strict_lookup_members PyFloat.of_string lookup_args found _ r eq_refl eq_refl H).
Defined.

Lemma nothing_missing_unless_strict_witness :
  let found := [("out/d1abc__motif.out", [hit "/pdb/D1XYZ_.pdb" "1.5"])] in
  combine_motif_outputs.scop_lookup combine_motif_outputs.defaults = None /\
  combine_motif_outputs.total_lookup_missing
    (combine_motif_outputs.main PyFloat.of_string combine_motif_outputs.defaults found).1 = 0 /\
  combine_motif_outputs.missing_ids
    (combine_motif_outputs.main PyFloat.of_string combine_motif_outputs.defaults found).1 = ∅.
Proof.
  intros found. split; [reflexivity|].
  exact (nothing_missing_unless_strict PyFloat.of_string combine_motif_outputs.defaults
           found (or_introl eq_refl)).
Defined.

Lemma main_exit_status_witness :
  0 <= combine_motif_outputs.target_col combine_motif_outputs.defaults /\
  0 <= combine_motif_outputs.score_col combine_motif_outputs.defaults /\
  (combine_motif_outputs.main PyFloat.of_string combine_motif_outputs.defaults []).2 = Ok 1 /\
  (combine_motif_outputs.selected_files combine_motif_outputs.defaults [] = [] ->
   combine_motif_outputs.written
     (combine_motif_outputs.main PyFloat.of_string combine_motif_outputs.defaults []).1 = [] /\
   combine_motif_outputs.total_raw_lines
     (combine_motif_outputs.main PyFloat.of_string combine_motif_outputs.defaults []).1 = 0 /\
   forall string_of_float,
     combine_motif_outputs.output_text PyFloat.of_string string_of_float
       combine_motif_outputs.defaults [] = None).
Proof.
  assert (H1 : 0 <= combine_motif_outputs.target_col combine_motif_outputs.defaults)
    by (simpl; lia).
  assert (H2 : 0 <= combine_motif_outputs.score_col combine_motif_outputs.defaults)
    by (simpl; lia).
  split; [exact H1|]. split; [exact H2|].
  exact (main_exit_status PyFloat.of_string combine_motif_outputs.defaults [] H1 H2).
Defined.

Lemma out_of_range_column_aborts_witness :
  let line := hit "/pdb/d1xyz_.pdb" "1.5" in
  let lines := [hit (hit "/pdb/d1uvw_.pdb" "2.5") "7"; line] in
  let found := [("out/d1abc__motif.out", lines)] in
  combine_motif_outputs.motif_line (-3) 1 2 false line = Raise IndexError /\
  (combine_motif_outputs.main PyFloat.of_string negative_col_args found).2
  = Raise IndexError /\
  (combine_motif_outputs.target_col negative_col_args < 0 \/
   combine_motif_outputs.score_col negative_col_args < 0).
Proof.
  intros line lines found.
  assert (H : combine_motif_outputs.motif_line (-3) 1 2 false line = Raise IndexError)
    by reflexivity.
  split; [exact H|].
  apply (out_of_range_column_aborts PyFloat.of_string negative_col_args found
           "out/d1abc__motif.out" line "d1abc_" lines IndexError);
    [left; reflexivity|reflexivity|right; left; reflexivity|exact H].
Defined.

Lemma written_ids_lowercase_witness :
  let found := [("out/D1ABC__motif.out", [hit "/pdb/D1XYZ_.pdb" "1.5"])] in
  let r := {| combine_motif_outputs.query_id := "d1abc_";
              combine_motif_outputs.target_id := "d1xyz_";
              combine_motif_outputs.score := PyFloat.of_decimal false 15 (-1) |} in
  combine_motif_outputs.no_lower combine_motif_outputs.defaults = false /\
  In r (combine_motif_outputs.written
          (combine_motif_outputs.main PyFloat.of_string combine_motif_outputs.defaults
             found).1) /\
  lower (combine_motif_outputs.query_id r) = combine_motif_outputs.query_id r /\
  lower (combine_motif_outputs.target_id r) = combine_motif_outputs.target_id r.
Proof.
  intros found r.
  assert (H : In r (combine_motif_outputs.written
                      (combine_motif_outputs.main PyFloat.of_string
                         combine_motif_outputs.defaults found).1))
    by (vm_compute; left; reflexivity).
  split; [reflexivity|]. split; [exact H|].
  exact (written_ids_lowercase PyFloat.of_string combine_motif_outputs.defaults found r
           eq_refl H).
Defined.

Lemma rows_have_motifs_witness :
  let ids := ["d1twfa__A"; "d1twfa__B"] in
  let score_lines := [[PyFloat.of_Z 5; PyFloat.of_Z 9]; [PyFloat.of_Z 7; PyFloat.of_Z 3]] in
  exists rows,
    generate_folddisco_input.main join_path only_d1twfa no_glob merged_args
      ids score_lines = Ok rows /\
    map row_motif rows = ["A2,B1"] /\
    Forall (fun r => well_formed_motif (row_motif r)) rows.
Proof.
  intros ids score_lines.
  destruct (generate_folddisco_input.main join_path only_d1twfa no_glob merged_args
              ids score_lines) as [rows| |] eqn:E; [|vm_compute in E; discriminate..].
  pose proof (rows_have_motifs join_path only_d1twfa no_glob merged_args
                ids score_lines rows E) as H.
  exists rows. split; [reflexivity|]. split; [|exact H].
  vm_compute in E. injection E as <-. reflexivity.
Defined.

Lemma written_ids_tab_free_witness :
  let found := [("out/d1abc__motif.out", [hit "/pdb/D1XYZ_.pdb" "1.5"])] in
  let r := {| combine_motif_outputs.query_id := "d1abc_";
              combine_motif_outputs.target_id := "d1xyz_";
              combine_motif_outputs.score := PyFloat.of_decimal false 15 (-1) |} in
  Forall (fun f => contains "009" f.1 = false) found /\
  In r (combine_motif_outputs.written
          (combine_motif_outputs.main PyFloat.of_string combine_motif_outputs.defaults
             found).1) /\
  contains "009" (combine_motif_outputs.query_id r) = false /\
  contains "009" (combine_motif_outputs.target_id r) = false /\
  exists rest,
    combine_motif_outputs.format_record PyFloat.repr r
    = combine_motif_outputs.query_id r +:+ combine_motif_outputs.tab
      +:+ combine_motif_outputs.target_id r +:+ combine_motif_outputs.tab +:+ rest /\
    split "009" (combine_motif_outputs.format_record PyFloat.repr r)
    = combine_motif_outputs.query_id r :: combine_motif_outputs.target_id r
      :: split "009" rest.
Proof.
  intros found r.
  assert (H1 : Forall (fun f => contains "009" f.1 = false) found)
    by (repeat constructor).
  assert (H2 : In r (combine_motif_outputs.written
                       (combine_motif_outputs.main PyFloat.of_string
                          combine_motif_outputs.defaults found).1))
    by (vm_compute; left; reflexivity).
  split; [exact H1|]. split; [exact H2|].
  exact (written_ids_tab_free PyFloat.of_string combine_motif_outputs.defaults found
           PyFloat.repr r H1 H2).
Defined.

End MoreSampleRuns.
